(** * D-Rats message store: folder registry, folder tree and message moves

    A shallow embedding of the store half of [d_rats/ui/main_messages.py]:
    the class [MessageFolderInfo], the static method
    [MessageFolders._create_folder], [MessageFolders._ensure_default_folders]
    and [MessageList.move_message], together with the parts of the Python
    library they call ([posixpath], [configparser], [os], [glob], [shutil]).

    The toolkit side of the module (Gtk widgets, menus, drag and drop) is
    not modelled. *)

From Stdlib Require Import Ascii.
From Stdlib Require HexString.
From stdpp Require Import base strings list gmap sorting.

Set Default Proof Using "Type".

(** ** Exceptions *)

(** The exceptions that the modelled code raises or lets through.
    [OSError n] carries [errno]; [FileNotFoundError] is [OSError 2],
    [FileExistsError] is [OSError 17] and so on. *)
Inductive exn : Type :=
  | DuplicateSectionError
  | NoSectionError
  | NoOptionError
  | ValueError
  | InterpolationSyntaxError
  | InterpolationMissingOptionError
  | InterpolationDepthError
  | ParsingError
  | OSError (errno : nat)
  | TypeError
  | AttributeError
  | SameFileError
  | FolderError.

#[global] Instance exn_eq_dec : EqDecision exn.
Proof. solve_decision. Defined.

Definition ENOENT : nat := 2.
Definition EBUSY : nat := 16.
Definition EEXIST : nat := 17.
Definition ENOTDIR : nat := 20.
Definition EISDIR : nat := 21.
Definition EINVAL : nat := 22.
Definition ENOTEMPTY : nat := 39.

Inductive result (A : Type) : Type :=
  | Ok (a : A)
  | Raise (e : exn).
Arguments Ok {A} a.
Arguments Raise {A} e.

(** ** Strings *)

Fixpoint string_drop (n : nat) (s : string) : string :=
  match n, s with
  | 0, _ => s
  | S n', String _ r => string_drop n' r
  | S _, EmptyString => EmptyString
  end.

Fixpoint string_take (n : nat) (s : string) : string :=
  match n, s with
  | 0, _ => EmptyString
  | S n', String c r => String c (string_take n' r)
  | S _, EmptyString => EmptyString
  end.

(** [s.startswith(c)] and [s.endswith(c)] for a one-character [c]. *)
Definition startswith (c : ascii) (s : string) : bool :=
  match s with
  | String a _ => bool_decide (a = c)
  | EmptyString => false
  end.

Fixpoint endswith (c : ascii) (s : string) : bool :=
  match s with
  | EmptyString => false
  | String a EmptyString => bool_decide (a = c)
  | String _ r => endswith c r
  end.

(** [c in s]. *)
Fixpoint contains (c : ascii) (s : string) : bool :=
  match s with
  | EmptyString => false
  | String a r => bool_decide (a = c) || contains c r
  end.

(** [s == c * len(s)]. *)
Fixpoint all_char (c : ascii) (s : string) : bool :=
  match s with
  | EmptyString => true
  | String a r => bool_decide (a = c) && all_char c r
  end.

(** [s.rstrip(c)]. *)
Fixpoint rstrip (c : ascii) (s : string) : string :=
  match s with
  | EmptyString => EmptyString
  | String a r =>
      match rstrip c r with
      | EmptyString => if bool_decide (a = c) then EmptyString else String a EmptyString
      | r' => String a r'
      end
  end.

(** [s.rfind(c) + 1]: the position after the last [c], [0] when there is
    none. *)
Fixpoint rfind_succ (c : ascii) (s : string) : nat :=
  match s with
  | EmptyString => 0
  | String a r =>
      match rfind_succ c r with
      | 0 => if bool_decide (a = c) then 1 else 0
      | S i => S (S i)
      end
  end.

(** [s.split(c)]: never empty, [""] splits into [[""]]. *)
Fixpoint split (c : ascii) (s : string) : list string :=
  match s with
  | EmptyString => [EmptyString]
  | String a r =>
      if bool_decide (a = c) then EmptyString :: split c r
      else match split c r with
           | h :: t => String a h :: t
           | [] => [String a EmptyString]
           end
  end.

(** [str.lower] on the ASCII letters. *)
Definition lower_ascii (c : ascii) : ascii :=
  let n := Ascii.nat_of_ascii c in
  if bool_decide (65 ≤ n ∧ n ≤ 90) then Ascii.ascii_of_nat (n + 32) else c.

Fixpoint lower (s : string) : string :=
  match s with
  | EmptyString => EmptyString
  | String a r => String (lower_ascii a) (lower r)
  end.

(** ** posixpath *)

Module posixpath.

Definition sep : ascii := "/"%char.

(** [os.path.join(a, b)]. *)
Definition join (a b : string) : string :=
  if startswith sep b then b
  else if bool_decide (a = "") || endswith sep a then a +:+ b
  else a +:+ String sep b.

(** [os.path.split(p)], giving [(head, tail)]. *)
Definition split_path (p : string) : string * string :=
  let i := rfind_succ sep p in
  let head := string_take i p in
  let tail := string_drop i p in
  if negb (bool_decide (head = "")) && negb (all_char sep head)
  then (rstrip sep head, tail)
  else (head, tail).

(** [os.path.basename(p)]. *)
Definition basename (p : string) : string :=
  string_drop (rfind_succ sep p) p.

(** [os.path.dirname(p)]. *)
Definition dirname (p : string) : string :=
  let i := rfind_succ sep p in
  let head := string_take i p in
  if negb (bool_decide (head = "")) && negb (all_char sep head)
  then rstrip sep head
  else head.

End posixpath.

(** ** configparser *)

(** The state of a [configparser.ConfigParser()] built with the default
    arguments, as the store builds it: the sections with their options,
    and the options of the default section.  Dictionary order plays no role
    in what the store reads back, so both levels are finite maps. *)
Record ConfigParser : Type := {
  _sections : gmap string (gmap string string);
  _defaults : gmap string string
}.

#[global] Instance ConfigParser_eq_dec : EqDecision ConfigParser.
Proof. solve_decision. Defined.

#[global] Instance ConfigParser_inhabited : Inhabited ConfigParser :=
  populate {| _sections := ∅; _defaults := ∅ |}.

Module configparser.

(** [ConfigParser()]. *)
Definition new : ConfigParser := {| _sections := ∅; _defaults := ∅ |}.

Definition default_section : string := "DEFAULT".
Definition MAX_INTERPOLATION_DEPTH : nat := 10.

(** [optionxform] is [str.lower]. *)
Definition optionxform (option : string) : string := lower option.

(** [has_section]: the default section is not acknowledged. *)
Definition has_section (c : ConfigParser) (section : string) : bool :=
  bool_decide (is_Some (_sections c !! section)).

(** [add_section]. *)
Definition add_section (c : ConfigParser) (section : string) : result ConfigParser :=
  if bool_decide (section = default_section) then Raise ValueError
  else if has_section c section then Raise DuplicateSectionError
  else Ok {| _sections := <[section := ∅]> (_sections c);
             _defaults := _defaults c |}.

(** [remove_section]; the source ignores the boolean it returns. *)
Definition remove_section (c : ConfigParser) (section : string) : ConfigParser :=
  {| _sections := delete section (_sections c); _defaults := _defaults c |}.

Definition is_percent (a : ascii) : bool := bool_decide (a = "%"%char).

(** [value.replace('%%', '')]. *)
Fixpoint strip_escaped (value : string) : string :=
  match value with
  | EmptyString => EmptyString
  | String a r =>
      if is_percent a then
        match r with
        | String b r' =>
            if is_percent b then strip_escaped r' else String a (strip_escaped r)
        | EmptyString => String a EmptyString
        end
      else String a (strip_escaped r)
  end.

(** Whether a ['%'] is left once every match of [_KEYCRE], the regular
    expression [%\(([^)]+)\)s], is taken out of [value].  [key] is [None]
    outside a reference and the characters read since ["%("] inside one;
    a reference that does not close as [")s"] leaves its ['%'] behind. *)
Fixpoint stray_percent (key : option string) (value : string) : bool :=
  match key, value with
  | None, EmptyString => false
  | None, String a r =>
      if is_percent a then
        match r with
        | String b r' =>
            if bool_decide (b = "("%char) then stray_percent (Some "") r' else true
        | EmptyString => true
        end
      else stray_percent None r
  | Some _, EmptyString => true
  | Some k, String a r =>
      if bool_decide (a = ")"%char) then
        match r with
        | String b r' =>
            if bool_decide (b = "s"%char) && negb (bool_decide (k = ""))
            then stray_percent None r' else true
        | EmptyString => true
        end
      else stray_percent (Some (k +:+ String a "")) r
  end.

(** [BasicInterpolation.before_set]: [ValueError] on a value whose
    interpolation syntax is invalid. *)
Definition before_set (value : string) : result string :=
  if stray_percent None (strip_escaped value) then Raise ValueError
  else Ok value.

Definition prepend (out : string) (x : result string) : result string :=
  match x with
  | Ok rest => Ok (out +:+ rest)
  | Raise e => Raise e
  end.

(** The loop of [BasicInterpolation._interpolate_some] over [rest], read
    from left to right; [key] is as in [stray_percent], and [expand] is
    the recursive call on a value that itself holds a ['%']. *)
Fixpoint interpolate_loop (expand : string → result string)
    (map : gmap string string) (key : option string) (rest : string)
    : result string :=
  match key, rest with
  | None, EmptyString => Ok EmptyString
  | None, String a r =>
      if is_percent a then
        match r with
        | String b r' =>
            if is_percent b then prepend "%" (interpolate_loop expand map None r')
            else if bool_decide (b = "("%char)
                 then interpolate_loop expand map (Some "") r'
                 else Raise InterpolationSyntaxError
        | EmptyString => Raise InterpolationSyntaxError
        end
      else prepend (String a "") (interpolate_loop expand map None r)
  | Some _, EmptyString => Raise InterpolationSyntaxError
  | Some k, String a r =>
      if bool_decide (a = ")"%char) then
        match r with
        | String b r' =>
            if bool_decide (b = "s"%char) && negb (bool_decide (k = ""))
            then
              match map !! optionxform k with
              | None => Raise InterpolationMissingOptionError
              | Some v =>
                  match (if contains "%" v then expand v else Ok v) with
                  | Ok out => prepend out (interpolate_loop expand map None r')
                  | Raise e => Raise e
                  end
              end
            else Raise InterpolationSyntaxError
        | EmptyString => Raise InterpolationSyntaxError
        end
      else interpolate_loop expand map (Some (k +:+ String a "")) r
  end.

(** [BasicInterpolation._interpolate_some], with [fuel] the number of
    nesting levels still allowed. *)
Fixpoint interpolate_some (fuel : nat) (map : gmap string string)
    (value : string) : result string :=
  match fuel with
  | 0 => Raise InterpolationDepthError
  | S fuel' => interpolate_loop (interpolate_some fuel' map) map None value
  end.

(** [BasicInterpolation.before_get]. *)
Definition before_get (value : string) (map : gmap string string) : result string :=
  interpolate_some MAX_INTERPOLATION_DEPTH map value.

(** [ConfigParser.set]: option and value are strings here, so the type
    validation passes; a non-empty value goes through [before_set]; an
    empty section name or the default one addresses the defaults. *)
Definition set (c : ConfigParser) (section option value : string) : result ConfigParser :=
  match (if bool_decide (value = "") then Ok value else before_set value) with
  | Raise e => Raise e
  | Ok value =>
      if bool_decide (section = "") || bool_decide (section = default_section)
      then Ok {| _sections := _sections c;
                 _defaults := <[optionxform option := value]> (_defaults c) |}
      else
        match _sections c !! section with
        | None => Raise NoSectionError
        | Some sectdict =>
            Ok {| _sections :=
                    <[section := <[optionxform option := value]> sectdict]> (_sections c);
                  _defaults := _defaults c |}
        end
  end.

(** [_unify_values]: the section's options over the defaults. *)
Definition unify_values (c : ConfigParser) (section : string)
    : result (gmap string string) :=
  match _sections c !! section with
  | Some sectdict => Ok (sectdict ∪ _defaults c)
  | None =>
      if bool_decide (section = default_section) then Ok (_defaults c)
      else Raise NoSectionError
  end.

(** [ConfigParser.get] without [raw], [vars] or [fallback]. *)
Definition get (c : ConfigParser) (section option : string) : result string :=
  match unify_values c section with
  | Raise e => Raise e
  | Ok d =>
      match d !! optionxform option with
      | None => Raise NoOptionError
      | Some value => before_get value d
      end
  end.

End configparser.

(** ** The world: file system, parser objects and the folder cache *)

(** What a regular file holds.  The text of a registry file is not
    modelled character by character: [Ini c] is the text that
    [ConfigParser.write] gives for the registry [c], and [read] is taken
    to get [c] back from it, as the parser does for the registries whose
    names and values it keeps as they are (it strips the white space
    around a value, for one).  Any other file holds a form document. *)
Inductive content : Type :=
  | Form (text : string)
  | Ini (registry : ConfigParser).

Inductive node : Type :=
  | Dir
  | File (data : content).

#[global] Instance content_eq_dec : EqDecision content.
Proof. solve_decision. Defined.
#[global] Instance node_eq_dec : EqDecision node.
Proof. solve_decision. Defined.

(** The file system maps a resolved path, the list of its components from
    the root, to what is there.  [heap] holds the [ConfigParser] objects by
    address, so that two folder objects can share one, and
    [_FOLDER_CACHE] is the module-level dictionary of the source. *)
Record World : Type := {
  fs : gmap (list string) node;
  heap : list ConfigParser;
  _FOLDER_CACHE : gmap string nat
}.

Definition set_fs (f : gmap (list string) node) (w : World) : World :=
  {| fs := f; heap := heap w; _FOLDER_CACHE := _FOLDER_CACHE w |}.
Definition set_heap (h : list ConfigParser) (w : World) : World :=
  {| fs := fs w; heap := h; _FOLDER_CACHE := _FOLDER_CACHE w |}.
Definition set_cache (c : gmap string nat) (w : World) : World :=
  {| fs := fs w; heap := heap w; _FOLDER_CACHE := c |}.

(** Computations that read and change the world and may raise.  What was
    changed before an exception stays changed. *)
Definition M (A : Type) : Type := World → result A * World.

Definition ret {A} (a : A) : M A := λ w, (Ok a, w).
Definition raise {A} (e : exn) : M A := λ w, (Raise e, w).
Definition bind {A B} (m : M A) (k : A → M B) : M B :=
  λ w, match m w with
       | (Ok a, w') => k a w'
       | (Raise e, w') => (Raise e, w')
       end.
Definition gets {A} (f : World → A) : M A := λ w, (Ok (f w), w).
Definition modify (f : World → World) : M unit := λ w, (Ok tt, f w).

(** [try: m except ...]: [handler e] is the body of the clause that
    catches [e], [None] when no clause does. *)
Definition try_except {A} (m : M A) (handler : exn → option (M A)) : M A :=
  λ w, match m w with
       | (Ok a, w') => (Ok a, w')
       | (Raise e, w') =>
           match handler e with
           | Some h => h w'
           | None => (Raise e, w')
           end
       end.

Declare Scope py_scope.
Delimit Scope py_scope with py.
Notation "x <- m ;; k" := (bind m (λ x, k))
  (at level 100, m at next level, right associativity) : py_scope.
Notation "m ;; k" := (bind m (λ _, k))
  (at level 100, right associativity) : py_scope.
Open Scope py_scope.

(** ** os and os.path *)

Module os.

(** Path resolution as the kernel does it, without symbolic links and
    with the working directory at the root: empty components and ["."]
    are skipped, [".."] steps back. *)
Definition resolve_step (acc : list string) (c : string) : list string :=
  if bool_decide (c = "" ∨ c = ".") then acc
  else if bool_decide (c = "..") then removelast acc
  else acc ++ [c].

Definition resolve (p : string) : list string :=
  foldl resolve_step [] (split posixpath.sep p).

(** The root is always a directory. *)
Definition node_at (f : gmap (list string) node) (k : list string) : option node :=
  if bool_decide (k = []) then Some Dir else f !! k.

(** [os.stat]; the empty path names nothing. *)
Definition stat (f : gmap (list string) node) (p : string) : option node :=
  if bool_decide (p = "") then None else node_at f (resolve p).

Definition path_exists (f : gmap (list string) node) (p : string) : bool :=
  bool_decide (is_Some (stat f p)).
Definition path_isdir (f : gmap (list string) node) (p : string) : bool :=
  bool_decide (stat f p = Some Dir).
Definition path_isfile (f : gmap (list string) node) (p : string) : bool :=
  match stat f p with Some (File _) => true | _ => false end.

(** Whether a new entry can be made at [k]: its parent must be a
    directory. *)
Definition parent_error (f : gmap (list string) node) (k : list string) : option exn :=
  match node_at f (removelast k) with
  | Some Dir => None
  | Some (File _) => Some (OSError ENOTDIR)
  | None => Some (OSError ENOENT)
  end.

Definition has_children (f : gmap (list string) node) (k : list string) : bool :=
  bool_decide (Exists (λ kv, removelast kv.1 = k ∧ kv.1 ≠ []) (map_to_list f)).

(** [os.mkdir(p)]. *)
Definition mkdir (p : string) : M unit :=
  λ w, let k := resolve p in
       if bool_decide (p = "") then (Raise (OSError ENOENT), w)
       else match node_at (fs w) k with
            | Some _ => (Raise (OSError EEXIST), w)
            | None =>
                match parent_error (fs w) k with
                | Some e => (Raise e, w)
                | None => (Ok tt, set_fs (<[k := Dir]> (fs w)) w)
                end
            end.

(** [os.makedirs(name)] with [exist_ok=False]; [fuel] bounds the
    recursion on the head of the name, which gets shorter each time. *)
Fixpoint makedirs_rec (fuel : nat) (name : string) : M unit :=
  let '(head, tail) := posixpath.split_path name in
  let '(head, tail) :=
    if bool_decide (tail = "") then posixpath.split_path head else (head, tail) in
  ex <- gets (λ w, path_exists (fs w) head);;
  if negb (bool_decide (head = "")) && negb (bool_decide (tail = "")) && negb ex
  then
    match fuel with
    | 0 => mkdir name
    | S fuel' =>
        try_except (makedirs_rec fuel' head)
          (λ e, if bool_decide (e = OSError EEXIST) then Some (ret tt) else None);;
        if bool_decide (tail = ".") then ret tt else mkdir name
    end
  else mkdir name.

Definition makedirs (name : string) : M unit :=
  makedirs_rec (String.length name) name.

(** [os.remove(p)]. *)
Definition remove (p : string) : M unit :=
  λ w, match stat (fs w) p with
       | None => (Raise (OSError ENOENT), w)
       | Some Dir => (Raise (OSError EISDIR), w)
       | Some (File _) => (Ok tt, set_fs (delete (resolve p) (fs w)) w)
       end.

(** [os.rmdir(p)]. *)
Definition rmdir (p : string) : M unit :=
  λ w, let k := resolve p in
       match stat (fs w) p with
       | None => (Raise (OSError ENOENT), w)
       | Some (File _) => (Raise (OSError ENOTDIR), w)
       | Some Dir =>
           if bool_decide (k = []) then (Raise (OSError EBUSY), w)
           else if has_children (fs w) k then (Raise (OSError ENOTEMPTY), w)
           else (Ok tt, set_fs (delete k (fs w)) w)
       end.

(** Moving the entry at [s] and everything below it to [d]. *)
Definition rekey (s d k : list string) : list string :=
  if bool_decide (s `prefix_of` k) then d ++ drop (length s) k else k.

Definition move_tree (s d : list string) (f : gmap (list string) node)
    : gmap (list string) node :=
  list_to_map (prod_map (rekey s d) id <$> map_to_list (delete d f)).

(** [os.rename(src, dst)]. *)
Definition rename (src dst : string) : M unit :=
  λ w, let s := resolve src in
       let d := resolve dst in
       match stat (fs w) src with
       | None => (Raise (OSError ENOENT), w)
       | Some n =>
           if bool_decide (dst = "") then (Raise (OSError ENOENT), w)
           else if bool_decide (s = []) || bool_decide (d = [])
           then (Raise (OSError EBUSY), w)
           else if bool_decide (s = d) then (Ok tt, w)
           else if bool_decide (s `prefix_of` d) then (Raise (OSError EINVAL), w)
           else
             match parent_error (fs w) d with
             | Some e => (Raise e, w)
             | None =>
                 let moved := (Ok tt, set_fs (move_tree s d (fs w)) w) in
                 match n, node_at (fs w) d with
                 | _, None => moved
                 | Dir, Some Dir =>
                     if has_children (fs w) d
                     then (Raise (OSError ENOTEMPTY), w) else moved
                 | Dir, Some (File _) => (Raise (OSError ENOTDIR), w)
                 | File _, Some Dir => (Raise (OSError EISDIR), w)
                 | File _, Some (File _) => moved
                 end
             end
       end.

(** [open(p, "w")], [write] and [close] in one step: the file at [p]
    is created or replaced. *)
Definition write_file (p : string) (data : content) : M unit :=
  λ w, let k := resolve p in
       if bool_decide (p = "") then (Raise (OSError ENOENT), w)
       else match node_at (fs w) k with
            | Some Dir => (Raise (OSError EISDIR), w)
            | Some (File _) => (Ok tt, set_fs (<[k := File data]> (fs w)) w)
            | None =>
                match parent_error (fs w) k with
                | Some e => (Raise e, w)
                | None => (Ok tt, set_fs (<[k := File data]> (fs w)) w)
                end
            end.

End os.

(** ** glob and shutil *)

Module glob.

(** [has_magic]: the characters [*], [?] and [[]. *)
Definition has_magic (s : string) : bool :=
  contains "*" s || contains "?" s || contains "[" s.

(** A name that a directory listing can hold. *)
Definition entry_name (n : string) : bool :=
  negb (bool_decide (n = "")) && negb (contains posixpath.sep n)
  && negb (bool_decide (n = ".")) && negb (bool_decide (n = "..")).

(** The names in the directory at [k], in the order the file system
    gives them. *)
Definition listdir (f : gmap (list string) node) (k : list string) : list string :=
  match os.node_at f k with
  | Some Dir =>
      omap (λ kv : list string * node,
              match last kv.1 with
              | Some n =>
                  if bool_decide (removelast kv.1 = k) && entry_name n
                  then Some n else None
              | None => None
              end) (map_to_list f)
  | _ => []
  end.

(** [glob(os.path.join(path, "*"))] for a [path] without magic
    characters: the directory part of the pattern is then taken as it is,
    and [*] matches every name that does not start with a dot. *)
Definition glob_star (f : gmap (list string) node) (path : string) : list string :=
  let dirname := (posixpath.split_path (posixpath.join path "*")).1 in
  let names := listdir f (os.resolve dirname) in
  posixpath.join dirname <$> filter (λ n, startswith "." n = false) names.

End glob.

Module shutil.

(** [shutil.copy(src, dst)], permission bits left out. *)
Definition copy (src dst : string) : M string :=
  d <- gets (λ w, os.path_isdir (fs w) dst);;
  let dst := if d then posixpath.join dst (posixpath.basename src) else dst in
  s <- gets (λ w, os.stat (fs w) src);;
  t <- gets (λ w, os.stat (fs w) dst);;
  match s, t with
  | Some _, Some _ =>
      if bool_decide (os.resolve src = os.resolve dst) then raise SameFileError
      else ret tt
  | _, _ => ret tt
  end;;
  match s with
  | None => raise (OSError ENOENT)
  | Some Dir => raise (OSError EISDIR)
  | Some (File data) => os.write_file dst data;; ret dst
  end.

End shutil.

(** ** mkmsgid *)

(** ["%x" % z]: lower-case hexadecimal digits, with a minus sign for a
    negative number. *)
Definition format_x (z : Z) : string :=
  match z with
  | Z0 => "0"
  | Zpos p => HexString.Raw.of_pos p ""
  | Zneg p => String "-" (HexString.Raw.of_pos p "")
  end.

(** [mkmsgid(callsign)]; [now] is what [int(time.time())] gives and
    [r_num] the number drawn from [0..100000]. *)
Definition mkmsgid (callsign : string) (now r_num : Z) : string :=
  callsign +:+ "." +:+ format_x (now - 1114880400) +:+ "." +:+ format_x r_num.

(** ** class MessageFolderInfo *)

(** [gettext] without a translation catalogue gives its argument back. *)
Definition gettext (s : string) : string := s.

Module MessageFolderInfo.

(** An instance: its folder path and the address of the registry object
    it holds in [self._config]. *)
Record t : Type := { _path : string; _config : nat }.

Definition deref (r : nat) : M ConfigParser := gets (λ w, heap w !!! r).
Definition assign (r : nat) (c : ConfigParser) : M unit :=
  modify (λ w, set_heap (<[r := c]> (heap w)) w).

(** [ConfigParser.read(reg_path)] on the new, empty parser at [r]: a file
    that cannot be opened is skipped, a form document is not a registry
    text, and the text written for a registry [c] is read as [c] (see
    [content]). *)
Definition config_read (r : nat) (reg_path : string) : M unit :=
  n <- gets (λ w, os.stat (fs w) reg_path);;
  match n with
  | Some (File (Ini c)) => assign r c
  | Some (File (Form text)) =>
      if bool_decide (text = "") then ret tt else raise ParsingError
  | Some Dir | None => ret tt
  end.

Definition _save (self : t) : M unit :=
  let reg_path := posixpath.join (_path self) ".db" in
  c <- deref (_config self);;
  os.write_file reg_path (Ini c).

Definition __init__ (folder_path : string) : M t :=
  cached <- gets (λ w, _FOLDER_CACHE w !! folder_path);;
  match cached with
  | Some r => ret {| _path := folder_path; _config := r |}
  | None =>
      r <- (λ w, (Ok (length (heap w)), set_heap (heap w ++ [configparser.new]) w));;
      let self := {| _path := folder_path; _config := r |} in
      let reg_path := posixpath.join folder_path ".db" in
      ex <- gets (λ w, os.path_exists (fs w) reg_path);;
      (if ex then config_read r reg_path else ret tt);;
      _save self;;
      modify (λ w, set_cache (<[folder_path := r]> (_FOLDER_CACHE w)) w);;
      ret self
  end.

Definition name (self : t) : string := posixpath.basename (_path self).

Definition lift_config {A} (x : result A) : M A :=
  match x with Ok a => ret a | Raise e => raise e end.

Definition _set_prop (self : t) (filename prop value : string) : M unit :=
  let filename := posixpath.basename filename in
  c <- deref (_config self);;
  (if configparser.has_section c filename then ret tt
   else c' <- lift_config (configparser.add_section c filename);;
        assign (_config self) c');;
  c <- deref (_config self);;
  c' <- lift_config (configparser.set c filename prop value);;
  assign (_config self) c';;
  _save self.

Definition _get_prop (self : t) (filename prop : string) : M string :=
  let filename := posixpath.basename filename in
  try_except
    (c <- deref (_config self);;
     lift_config (configparser.get c filename prop))
    (λ e, match e with
          | NoOptionError | NoSectionError => Some (ret (gettext "Unknown"))
          | _ => None
          end).

Definition get_msg_subject (self : t) (filename : string) : M string :=
  _get_prop self filename "subject".
Definition set_msg_subject (self : t) (filename subject : string) : M unit :=
  _set_prop self filename "subject" subject.
Definition get_msg_type (self : t) (filename : string) : M string :=
  _get_prop self filename "type".
Definition set_msg_type (self : t) (filename msg_type : string) : M unit :=
  _set_prop self filename "type" msg_type.

Definition get_msg_read (self : t) (filename : string) : M bool :=
  val <- _get_prop self filename "read";;
  ret (bool_decide (val = "True")).

(** [str(read)]. *)
Definition str_bool (b : bool) : string := if b then "True" else "False".

Definition set_msg_read (self : t) (filename : string) (read : bool) : M unit :=
  _set_prop self filename "read" (str_bool read).
Definition get_msg_sender (self : t) (filename : string) : M string :=
  _get_prop self filename "sender".
Definition set_msg_sender (self : t) (filename sender : string) : M unit :=
  _set_prop self filename "sender" sender.
Definition get_msg_recip (self : t) (filename : string) : M string :=
  _get_prop self filename "recip".
Definition set_msg_recip (self : t) (filename recip : string) : M unit :=
  _set_prop self filename "recip" recip.

(** The loop of [subfolders] over the sorted entries. *)
Fixpoint subfolders_loop (entries : list string) (info : list t) : M (list t) :=
  match entries with
  | [] => ret info
  | entry :: rest =>
      if bool_decide (entry = "." ∨ entry = "..") then subfolders_loop rest info
      else
        d <- gets (λ w, os.path_isdir (fs w) entry);;
        if d then
          i <- __init__ entry;;
          subfolders_loop rest (info ++ [i])
        else subfolders_loop rest info
  end.

Definition subfolders (self : t) : M (list t) :=
  entries <- gets (λ w, glob.glob_star (fs w) (_path self));;
  subfolders_loop (merge_sort String.le entries) [].

Definition files (self : t) : M (list string) :=
  file_list <- gets (λ w, glob.glob_star (fs w) (_path self));;
  gets (λ w, filter (λ x_file, os.path_isfile (fs w) x_file = true
                               ∧ startswith "." x_file = false) file_list).

Definition get_subfolder (self : t) (name_ : string) : M (option t) :=
  folders <- subfolders self;;
  ret (find (λ folder, bool_decide (name folder = name_)) folders).

Definition create_subfolder (self : t) (name_ : string) : M t :=
  let path := posixpath.join (_path self) name_ in
  try_except (os.mkdir path)
    (λ e, match e with
          | OSError errno => if bool_decide (errno ≠ 17) then None else Some (ret tt)
          | _ => None
          end);;
  __init__ path.

Definition delete_self (self : t) : M unit :=
  try_except (os.remove (posixpath.join (_path self) ".db"))
    (λ e, match e with OSError _ | SameFileError => Some (ret tt) | _ => None end);;
  os.rmdir (_path self).

Definition create_msg (self : t) (name_ : string) : M string :=
  ex <- gets (λ w, os.path_exists (fs w) (posixpath.join (_path self) name_));;
  try_except
    (c <- deref (_config self);;
     c' <- lift_config (configparser.add_section c name_);;
     assign (_config self) c')
    (λ e, match e with
          | DuplicateSectionError =>
              Some (if ex then raise DuplicateSectionError else ret tt)
          | _ => None
          end);;
  ret (posixpath.join (_path self) name_).

Definition delete (self : t) (filename : string) : M unit :=
  let filename := posixpath.basename filename in
  c <- deref (_config self);;
  assign (_config self) (configparser.remove_section c filename);;
  os.remove (posixpath.join (_path self) filename).

(** [rename] assigns [self._path]; the instance with the new path is
    the result. *)
Definition rename (self : t) (new_name : string) : M t :=
  let new_path := posixpath.join (posixpath.dirname (_path self)) new_name in
  os.rename (_path self) new_path;;
  ret {| _path := new_path; _config := _config self |}.

End MessageFolderInfo.

(** ** class MessageFolders *)

Definition BASE_FOLDERS : list string :=
  [gettext "Inbox"; gettext "Outbox"; gettext "Sent"; gettext "Trash"; gettext "Drafts"].

Module MessageFolders.

(** [config_dir] is what [self._config.platform.config_dir()] gives. *)
Record t : Type := { config_dir : string }.

Definition _folders_path (self : t) : M string :=
  let path := posixpath.join (config_dir self) "messages" in
  d <- gets (λ w, os.path_isdir (fs w) path);;
  (if d then ret tt else os.makedirs path);;
  ret path.

(** The loop of [_create_folder] over the intermediate elements;
    [None] is Python's [None], on which the loop breaks. *)
Fixpoint walk (info : MessageFolderInfo.t) (elements : list string)
    : M (option MessageFolderInfo.t) :=
  match elements with
  | [] => ret (Some info)
  | dir_element :: rest =>
      r <- MessageFolderInfo.get_subfolder info dir_element;;
      match r with
      | None => ret None
      | Some info' => walk info' rest
      end
  end.

Definition _create_folder (root : MessageFolderInfo.t) (name : string)
    : M (option MessageFolderInfo.t) :=
  info <- walk root (removelast (split posixpath.sep name));;
  try_except
    (match info with
     | None => raise AttributeError
     | Some info =>
         r <- MessageFolderInfo.create_subfolder info (posixpath.basename name);;
         ret (Some r)
     end)
    (λ e, match e with
          | OSError errno =>
              Some (if bool_decide (errno ≠ 17) then raise FolderError else ret None)
          | SameFileError => Some (raise FolderError)
          | _ => None
          end).

Definition create_folder (self : t) (name : string) : M unit :=
  path <- _folders_path self;;
  root <- MessageFolderInfo.__init__ path;;
  _create_folder root name;;
  ret tt.

Definition get_folders (self : t) : M (list MessageFolderInfo.t) :=
  path <- _folders_path self;;
  root <- MessageFolderInfo.__init__ path;;
  MessageFolderInfo.subfolders root.

Definition get_folder (self : t) (name : string) : M MessageFolderInfo.t :=
  path <- _folders_path self;;
  MessageFolderInfo.__init__ (posixpath.join path name).

(** One round of the loop of [_ensure_default_folders]; the argument of
    [logger.info] is evaluated, so [subfolders] runs. *)
Definition ensure_folder (root : MessageFolderInfo.t) (folder : string) : M unit :=
  try_except
    (info <- _create_folder root folder;;
     match info with
     | None => raise AttributeError
     | Some info => MessageFolderInfo.subfolders info;; ret tt
     end)
    (λ e, match e with FolderError => Some (ret tt) | _ => None end).

Fixpoint ensure_loop (root : MessageFolderInfo.t) (folders : list string) : M unit :=
  match folders with
  | [] => ret tt
  | folder :: rest => ensure_folder root folder;; ensure_loop root rest
  end.

Definition _ensure_default_folders (self : t) : M unit :=
  path <- _folders_path self;;
  root <- MessageFolderInfo.__init__ path;;
  ensure_loop root BASE_FOLDERS.

(** The tuple assignment from [record.split("\0")]: six fields, or a
    [ValueError]. *)
Definition unpack_record (record : string)
    : result (string * string * string * string * string * string) :=
  match split "000" record with
  | [fname; subj; msg_type; read; send; recp] =>
      Ok (fname, subj, msg_type, read, send, recp)
  | _ => Raise ValueError
  end.

(** One round of the loop of [_dragged_to], for one dragged record. *)
Definition drop_record (dst src : MessageFolderInfo.t) (record : string) : M unit :=
  fields <- MessageFolderInfo.lift_config (unpack_record record);;
  let '(fname, subj, msg_type, read, send, recp) := fields in
  try_except (MessageFolderInfo.delete dst (posixpath.basename fname))
    (λ e, match e with
          | OSError errno => if bool_decide (errno = ENOENT) then Some (ret tt) else None
          | _ => None
          end);;
  newfn <- MessageFolderInfo.create_msg dst (posixpath.basename fname);;
  shutil.copy fname newfn;;
  MessageFolderInfo.delete src fname;;
  MessageFolderInfo.set_msg_read dst fname (bool_decide (read = "True"));;
  MessageFolderInfo.set_msg_subject dst fname subj;;
  MessageFolderInfo.set_msg_type dst fname msg_type;;
  MessageFolderInfo.set_msg_sender dst fname send;;
  MessageFolderInfo.set_msg_recip dst fname recp.

Fixpoint drop_loop (dst src : MessageFolderInfo.t) (msgs : list string) : M unit :=
  match msgs with
  | [] => ret tt
  | record :: rest => drop_record dst src record;; drop_loop dst src rest
  end.

(** [_dragged_to]: [dst_folder] is the folder name that the toolkit gives
    for the row under the pointer, [data] the dragged bytes decoded as
    ISO-8859-1. *)
Definition _dragged_to (self : t) (dst_folder data : string) : M unit :=
  let text := split "001" data in
  let msgs := tail text in
  let src_folder := hd "" text in
  if bool_decide (src_folder = dst_folder) then ret tt
  else
    dst_root <- _folders_path self;;
    dst <- MessageFolderInfo.__init__ (posixpath.join dst_root dst_folder);;
    src_root <- _folders_path self;;
    src <- MessageFolderInfo.__init__ (posixpath.join src_root src_folder);;
    drop_loop dst src msgs.

End MessageFolders.

(** ** class MessageList *)

Module MessageList.

Record t : Type := { config_dir : string }.

(** [None] when the folder is not a directory. *)
Definition _folder_path (self : t) (folder : string) : M (option string) :=
  let path := posixpath.join (posixpath.join (config_dir self) "messages") folder in
  d <- gets (λ w, os.path_isdir (fs w) path);;
  ret (if d then Some path else None).

(** [move_message].  [refresh_if_current info] stands for the toolkit
    side of the last step, [if info == self.current_info: self.refresh()].
    [MessageFolderInfo(None)] fails in [os.path.join] with a [TypeError]. *)
Definition move_message (refresh_if_current : MessageFolderInfo.t → M unit)
    (self : t) (info : MessageFolderInfo.t) (path new_folder : string) : M string :=
  folder_path <- _folder_path self new_folder;;
  dest <- match folder_path with
          | Some p => MessageFolderInfo.__init__ p
          | None => raise TypeError
          end;;
  created <- try_except
    (newfn <- MessageFolderInfo.create_msg dest (posixpath.basename path);;
     ret (Some newfn))
    (λ e, match e with DuplicateSectionError => Some (ret None) | _ => None end);;
  match created with
  | None => ret path
  | Some newfn =>
      shutil.copy path newfn;;
      MessageFolderInfo.delete info path;;
      refresh_if_current info;;
      ret newfn
  end.

(** A selected row of the list store, with the columns that are dragged. *)
Record row : Type := {
  ML_COL_FILE : string;
  ML_COL_SUBJ : string;
  ML_COL_TYPE : string;
  ML_COL_READ : bool;
  ML_COL_SEND : string;
  ML_COL_RECP : string
}.

(** ["%s\0%s\0%s\0%s\0%s\0%s" % (...)] for one row. *)
Definition format_row (r : row) : string :=
  ML_COL_FILE r +:+ String "000" (
  ML_COL_SUBJ r +:+ String "000" (
  ML_COL_TYPE r +:+ String "000" (
  MessageFolderInfo.str_bool (ML_COL_READ r) +:+ String "000" (
  ML_COL_SEND r +:+ String "000" (ML_COL_RECP r))))).

(** [c.join(l)]. *)
Fixpoint str_join (c : ascii) (l : list string) : string :=
  match l with
  | [] => ""
  | [x] => x
  | x :: rest => x +:+ String c (str_join c rest)
  end.

(** The text that [_dragged_from] hands to the toolkit for the selected
    rows; [None] stands for the [IndexError] of [paths[0]] on an empty
    selection.  A text here has character codes below 256 only, on which
    the ISO-8859-1 codec is the identity. *)
Definition _dragged_from (rows : list row) : option string :=
  match rows with
  | [] => None
  | first :: _ =>
      Some (str_join "001"
              (posixpath.dirname (ML_COL_FILE first) :: (format_row <$> rows)))
  end.

(** [delete_selected_messages] for the selected file names. *)
Fixpoint delete_selected_messages (current_info : MessageFolderInfo.t)
    (selected : list string) : M unit :=
  match selected with
  | [] => ret tt
  | file_name :: rest =>
      MessageFolderInfo.delete current_info file_name;;
      delete_selected_messages current_info rest
  end.

(** [move_selected_messages] for the selected file names. *)
Fixpoint move_selected_messages (refresh_if_current : MessageFolderInfo.t → M unit)
    (self : t) (current_info : MessageFolderInfo.t) (selected : list string)
    (folder : string) : M unit :=
  match selected with
  | [] => ret tt
  | msg :: rest =>
      move_message refresh_if_current self current_info msg folder;;
      move_selected_messages refresh_if_current self current_info rest folder
  end.

End MessageList.

(** ** class MessagesTab *)

Module MessagesTab.

(** [_folders] and [_messages] of the tab, and the folder object that the
    message list shows. *)
Record t : Type := {
  _folders : MessageFolders.t;
  _messages : MessageList.t;
  current_info : MessageFolderInfo.t
}.

(** [_del_msg]: [file_name] is [None] for the default; [selected] is what
    [get_selected_messages] gives and [refresh] the toolkit side of
    [self._messages.refresh()]. *)
Definition _del_msg (refresh : M unit)
    (refresh_if_current : MessageFolderInfo.t → M unit)
    (self : t) (selected : list string) (file_name : option string) : M unit :=
  match file_name with
  | Some file_name_ =>
      if bool_decide (file_name_ = "") then
        if bool_decide (MessageFolderInfo.name (current_info self) = gettext "Trash")
        then MessageList.delete_selected_messages (current_info self) selected
        else MessageList.move_selected_messages refresh_if_current (_messages self)
               (current_info self) selected (gettext "Trash")
      else
        try_except (os.remove file_name_)
          (λ e, match e with OSError _ | SameFileError => Some (ret tt) | _ => None end);;
        refresh
  | None =>
      if bool_decide (MessageFolderInfo.name (current_info self) = gettext "Trash")
      then MessageList.delete_selected_messages (current_info self) selected
      else MessageList.move_selected_messages refresh_if_current (_messages self)
             (current_info self) selected (gettext "Trash")
  end.

(** The loop of [_mrk_msg] over the selected file names. *)
Fixpoint mrk_loop (self : t) (sel : list string) (read : bool) : M unit :=
  match sel with
  | [] => ret tt
  | file_name :: rest =>
      MessageFolderInfo.set_msg_read (current_info self) file_name read;;
      mrk_loop self rest read
  end.

(** [_mrk_msg]: [selected] is what [get_selected_messages] gives, [None]
    when it raises [TypeError]. *)
Definition _mrk_msg (refresh : M unit) (self : t) (selected : option (list string))
    (read : bool) : M unit :=
  match selected with
  | None => ret tt
  | Some sel => mrk_loop self sel read;; refresh
  end.

(** [message_sent]; [refresh_if_folder] is the toolkit side. *)
Definition message_sent (refresh_if_folder : string → M unit)
    (self : t) (file_name : string) : M unit :=
  outbox <- MessageFolders.get_folder (_folders self) (gettext "Outbox");;
  files <- MessageFolderInfo.files outbox;;
  if bool_decide (file_name ∈ files) then
    sent <- MessageFolders.get_folder (_folders self) (gettext "Sent");;
    newfn <- MessageFolderInfo.create_msg sent (posixpath.basename file_name);;
    shutil.copy file_name newfn;;
    MessageFolderInfo.delete outbox file_name;;
    refresh_if_folder (gettext "Outbox");;
    refresh_if_folder (gettext "Sent")
  else ret tt.

(** How [_exportmsg] ends: it returns, [sel[0]] raises [IndexError], or
    it gets to [shutil.copy(file_name, nfn)]. *)
Inductive export_outcome : Type :=
  | Export_return
  | Export_IndexError
  | Export_copy (file_name nfn : string).

(** [_exportmsg]: [selected] is what [get_selected_messages] gives, [None]
    when it raises [TypeError], and [nfn] the answer of the save dialog,
    empty when it was cancelled. *)
Definition _exportmsg (selected : option (list string)) (nfn : string) : export_outcome :=
  match selected with
  | None => Export_return
  | Some sel =>
      if bool_decide (1 < length sel) then Export_return
      else if negb (bool_decide (sel = [])) then Export_return
      else
        match sel !! 0 with
        | None => Export_IndexError
        | Some file_name =>
            if bool_decide (nfn = "") then Export_return
            else Export_copy file_name nfn
        end
  end.

End MessagesTab.

(** ** Operations of the store, as the toolkit callbacks issue them *)

(** The toolkit side of [move_message], once the message has moved:
    nothing that the store sees. *)
Definition no_refresh (info : MessageFolderInfo.t) : M unit := ret tt.

Inductive op : Type :=
  | Op___init__ (folder_path : string)
  | Op__set_prop (self : MessageFolderInfo.t) (filename prop value : string)
  | Op__get_prop (self : MessageFolderInfo.t) (filename prop : string)
  | Op_subfolders (self : MessageFolderInfo.t)
  | Op_files (self : MessageFolderInfo.t)
  | Op_get_subfolder (self : MessageFolderInfo.t) (name : string)
  | Op_create_subfolder (self : MessageFolderInfo.t) (name : string)
  | Op_delete_self (self : MessageFolderInfo.t)
  | Op_create_msg (self : MessageFolderInfo.t) (name : string)
  | Op_delete (self : MessageFolderInfo.t) (filename : string)
  | Op_rename (self : MessageFolderInfo.t) (new_name : string)
  | Op__create_folder (root : MessageFolderInfo.t) (name : string)
  | Op_create_folder (self : MessageFolders.t) (name : string)
  | Op_get_folders (self : MessageFolders.t)
  | Op_get_folder (self : MessageFolders.t) (name : string)
  | Op__ensure_default_folders (self : MessageFolders.t)
  | Op_copy (src dst : string)
  | Op_move_message (self : MessageList.t) (info : MessageFolderInfo.t)
      (path new_folder : string).

(** Running a computation for its effect. *)
Definition void {A} (m : M A) : M unit := m;; ret tt.

Definition exec (o : op) : M unit :=
  match o with
  | Op___init__ folder_path => void (MessageFolderInfo.__init__ folder_path)
  | Op__set_prop self filename prop value =>
      MessageFolderInfo._set_prop self filename prop value
  | Op__get_prop self filename prop =>
      void (MessageFolderInfo._get_prop self filename prop)
  | Op_subfolders self => void (MessageFolderInfo.subfolders self)
  | Op_files self => void (MessageFolderInfo.files self)
  | Op_get_subfolder self name => void (MessageFolderInfo.get_subfolder self name)
  | Op_create_subfolder self name =>
      void (MessageFolderInfo.create_subfolder self name)
  | Op_delete_self self => MessageFolderInfo.delete_self self
  | Op_create_msg self name => void (MessageFolderInfo.create_msg self name)
  | Op_delete self filename => MessageFolderInfo.delete self filename
  | Op_rename self new_name => void (MessageFolderInfo.rename self new_name)
  | Op__create_folder root name => void (MessageFolders._create_folder root name)
  | Op_create_folder self name => MessageFolders.create_folder self name
  | Op_get_folders self => void (MessageFolders.get_folders self)
  | Op_get_folder self name => void (MessageFolders.get_folder self name)
  | Op__ensure_default_folders self => MessageFolders._ensure_default_folders self
  | Op_copy src dst => void (shutil.copy src dst)
  | Op_move_message self info path new_folder =>
      void (MessageList.move_message no_refresh self info path new_folder)
  end.

(** A sequence of operations, each one a callback of its own: an exception
    ends the callback, and the next one runs in the world it left. *)
Definition run_ops (ops : list op) (w : World) : World :=
  foldl (λ w o, (exec o w).2) w ops.

(** ** Scenarios *)

(** Concrete worlds and runs, used by the examples below. *)
Module Scenario.
Import MessageFolderInfo.

(** A messages directory with an [Inbox] holding one message [m1], an
    empty [Sent] and [Drafts]; no registry file yet, nothing loaded. *)
Definition start : World :=
  {| fs := {[ ["cfg"] := Dir;
              ["cfg"; "messages"] := Dir;
              ["cfg"; "messages"; "Inbox"] := Dir;
              ["cfg"; "messages"; "Sent"] := Dir;
              ["cfg"; "messages"; "Drafts"] := Dir;
              ["cfg"; "messages"; "Inbox"; "m1"] := File (Form "<xml>m1</xml>") ]};
     heap := [];
     _FOLDER_CACHE := ∅ |}.

(** A new process over the same files. *)
Definition restart (w : World) : World :=
  {| fs := fs w; heap := []; _FOLDER_CACHE := ∅ |}.

(** The world a computation leaves behind. *)
Definition after {A} (m : M A) (w : World) : World := (m w).2.

Definition inbox : t := {| _path := "/cfg/messages/Inbox"; _config := 0 |}.
Definition m1 : string := "/cfg/messages/Inbox/m1".

(** [Inbox] opened. *)
Definition opened : World := after (__init__ "/cfg/messages/Inbox") start.

(** The subject of [m1] registered. *)
Definition registered : World := after (set_msg_subject inbox m1 "Hello") opened.

(** Then [m1] deleted. *)
Definition deleted : World := after (delete inbox m1) registered.

(** Then the subject of a second message registered. *)
Definition resaved : World :=
  after (set_msg_subject inbox "/cfg/messages/Inbox/m2" "Hi") deleted.

(** The file of [m1] removed behind the back of the store, with its
    subject registered: the registry keeps the section. *)
Definition lost : World := after (os.remove m1) registered.

(** The empty folder [Sent] opened: it has its registry file, and the
    cache has its registry object. *)
Definition sent : t := {| _path := "/cfg/messages/Sent"; _config := 0 |}.
Definition sent_opened : World := after (__init__ "/cfg/messages/Sent") start.

(** A subject with an escaped percent sign. *)
Definition percent : World := after (set_msg_subject inbox m1 "50%% off") registered.
Definition plain : World := after (set_msg_subject inbox m1 "Hi") registered.

Definition message_list : MessageList.t := {| MessageList.config_dir := "/cfg" |}.
Definition folders : MessageFolders.t := {| MessageFolders.config_dir := "/cfg" |}.
Definition root : t := {| _path := "/cfg/messages"; _config := 0 |}.

(** [m1] copied into [Sent] and registered there as well, then a new
    process with only [Inbox] opened. *)
Definition in_both : World :=
  after (__init__ "/cfg/messages/Inbox")
    (restart
       (after (i <- __init__ "/cfg/messages/Sent";;
               newfn <- create_msg i "m1";;
               shutil.copy m1 newfn;;
               set_msg_subject i newfn "Hello") registered)).

(** The messages root opened. *)
Definition root_opened : World := after (__init__ "/cfg/messages") start.

(** A first installation: the configuration directory and nothing else. *)
Definition fresh : World :=
  {| fs := {[ ["cfg"] := Dir ]}; heap := []; _FOLDER_CACHE := ∅ |}.

End Scenario.

(** ** Vocabulary of the statements *)

(** A name has no registry entry when the registry has no section for its
    basename, or has one without options, as [create_msg] makes it. *)
Definition no_entry (c : ConfigParser) (filename : string) : Prop :=
  _sections c !! posixpath.basename filename = None ∨
  _sections c !! posixpath.basename filename = Some ∅.

(** The registry file of the folder is the text that [write] gives for
    the registry in memory. *)
Definition synced (w : World) (self : MessageFolderInfo.t) : Prop :=
  os.stat (fs w) (posixpath.join (MessageFolderInfo._path self) ".db")
  = Some (File (Ini (heap w !!! MessageFolderInfo._config self))).

#[global] Instance synced_dec w self : Decision (synced w self).
Proof. unfold synced. apply _. Defined.

(** The registry that [MessageFolderInfo(folder_path)] works on: the cached
    object when the path is in the cache, what the [.db] file holds
    otherwise ([None] when reading it raises). *)
Definition folder_registry (w : World) (folder_path : string) : option ConfigParser :=
  match _FOLDER_CACHE w !! folder_path with
  | Some r => Some (heap w !!! r)
  | None =>
      match os.stat (fs w) (posixpath.join folder_path ".db") with
      | Some (File (Ini c)) => Some c
      | Some (File (Form text)) =>
          if bool_decide (text = "") then Some configparser.new else None
      | Some Dir | None => Some configparser.new
      end
  end.

(** From one world to a later one the cache keeps its entries and the
    heap its objects. *)
Definition world_le (w w' : World) : Prop :=
  _FOLDER_CACHE w ⊆ _FOLDER_CACHE w' ∧ length (heap w) ≤ length (heap w').

Definition mono {A} (m : M A) : Prop := ∀ w, world_le w (m w).2.

(** Every cached address names an object of the heap. *)
Definition cache_valid (w : World) : Prop :=
  ∀ p r, _FOLDER_CACHE w !! p = Some r → r < length (heap w).

(** Every entry named [.db] is a registry file that [read] accepts. *)
Definition db_ok (f : gmap (list string) node) : Prop :=
  ∀ k n, last k = Some ".db" → f !! k = Some n → ∃ c, n = File (Ini c).

Definition is_ini (n : node) : bool :=
  match n with File (Ini _) => true | _ => false end.

(** [db_ok] as a check that runs. *)
Definition db_ok_check (f : gmap (list string) node) : bool :=
  bool_decide (map_Forall (λ k n, last k = Some ".db" → is_ini n = true) f).

(** What creating folders and opening them does to the files: an entry
    stays, or a directory appears where nothing was, or a registry file is
    written. *)
Definition fs_le (f f' : gmap (list string) node) : Prop :=
  ∀ k, f' !! k = f !! k
       ∨ (last k ≠ Some ".db" ∧ f !! k = None ∧ f' !! k = Some Dir)
       ∨ (last k = Some ".db" ∧ f !! k ≠ Some Dir ∧ ∃ c, f' !! k = Some (File (Ini c))).

(** [m] returns in [w], changing the files as [fs_le] allows, with a
    result and a world that satisfy [Q]. *)
Definition total {A} (m : M A) (w : World) (Q : A → World → Prop) : Prop :=
  ∃ a w', m w = (Ok a, w') ∧ fs_le (fs w) (fs w') ∧ Q a w'.

(** Nothing or a directory at [k]. *)
Definition free_or_dir (f : gmap (list string) node) (k : list string) : Prop :=
  os.node_at f k = None ∨ os.node_at f k = Some Dir.

(** The directory part of the pattern [os.path.join(path, "*")]. *)
Definition pattern_dir (path : string) : string :=
  (posixpath.split_path (posixpath.join path "*")).1.

(** Nothing or a directory at the path [p]. *)
Definition free_or_dir_path (f : gmap (list string) node) (p : string) : Prop :=
  os.path_exists f p = false ∨ os.path_isdir f p = true.

(** ** Vocabulary of the further properties *)

(** None of the five texts of a row holds the character [c]. *)
Definition row_free (c : ascii) (r : MessageList.row) : Prop :=
  contains c (MessageList.ML_COL_FILE r) = false ∧
  contains c (MessageList.ML_COL_SUBJ r) = false ∧
  contains c (MessageList.ML_COL_TYPE r) = false ∧
  contains c (MessageList.ML_COL_SEND r) = false ∧
  contains c (MessageList.ML_COL_RECP r) = false.

#[global] Instance row_free_dec c r : Decision (row_free c r).
Proof. unfold row_free. apply _. Defined.

(** The registry [c] with [prop] of [section] set to [value]. *)
Definition with_prop (c : ConfigParser) (section prop value : string) : ConfigParser :=
  {| _sections :=
       <[section := <[configparser.optionxform prop := value]>
                      (default ∅ (_sections c !! section))]> (_sections c);
     _defaults := _defaults c |}.

(** Two registries with the same defaults and the same sections, the one
    named [section] apart. *)
Definition agree_off (section : string) (c1 c0 : ConfigParser) : Prop :=
  _defaults c1 = _defaults c0 ∧
  ∀ s, s ≠ section → _sections c1 !! s = _sections c0 !! s.

(** [cache_valid] as a check that runs. *)
Definition cache_valid_check (w : World) : bool :=
  bool_decide (map_Forall (λ _ r, r < length (heap w)) (_FOLDER_CACHE w)).

(** [x] is one of the names that [files()] gives for the folder at
    [path]. *)
Definition listed (f : gmap (list string) node) (path x : string) : Prop :=
  x ∈ glob.glob_star f path ∧ os.path_isfile f x = true ∧ startswith "." x = false.

(** The default folders made, and a message [m2] waiting in the Outbox. *)
Module Outgoing.

Definition ready : World :=
  let w := Scenario.after (MessageFolders._ensure_default_folders Scenario.folders)
             Scenario.start in
  set_fs (<[ ["cfg"; "messages"; "Outbox"; "m2"] := File (Form "<xml>m2</xml>") ]> (fs w)) w.

Definition m2 : string := "/cfg/messages/Outbox/m2".

Definition tab : MessagesTab.t :=
  {| MessagesTab._folders := Scenario.folders;
     MessagesTab._messages := Scenario.message_list;
     MessagesTab.current_info := Scenario.inbox |}.

(** The registry that a folder path has in a world, an empty one when it
    cannot be read. *)
Definition registry (w : World) (folder_path : string) : ConfigParser :=
  default configparser.new (folder_registry w folder_path).

(** [m2] was sent before: Sent holds a file of this name and has it
    registered. *)
Definition sent_before : World :=
  Scenario.after
    (i <- MessageFolderInfo.__init__ "/cfg/messages/Sent";;
     newfn <- MessageFolderInfo.create_msg i "m2";;
     shutil.copy m2 newfn;;
     MessageFolderInfo.set_msg_subject i newfn "Earlier") ready.

End Outgoing.

(** A computation that only reads the store, registry files apart: no
    entry changes unless it is named [.db], and the registry objects that
    exist stay as they are. *)
Definition quiet {A} (m : M A) : Prop :=
  ∀ w, (∀ k, last k ≠ Some ".db" → fs (m w).2 !! k = fs w !! k) ∧
       length (heap w) ≤ length (heap (m w).2) ∧
       (∀ r, r < length (heap w) → heap (m w).2 !!! r = heap w !!! r).

(** * Properties *)

(** ** Strings and paths *)

Lemma append_nil_l (s : string) : "" +:+ s = s.
Proof. reflexivity. Qed.

Lemma append_cons (x : ascii) (a b : string) : String x a +:+ b = String x (a +:+ b).
Proof. reflexivity. Qed.

Ltac sapp := rewrite ?append_cons, ?append_nil_l; simpl.
Ltac sapp_in H := rewrite ?append_cons, ?append_nil_l in H; simpl in H.
Ltac sapp_in_all := rewrite ?append_cons, ?append_nil_l in *; simpl in *.

Section strings.
Implicit Types (a b d n p s : string) (c x : ascii).

Lemma append_nil_r s : s +:+ "" = s.
Proof. induction s as [|x s IH]; sapp; [done | by rewrite IH]. Qed.

Lemma append_assoc a b d : (a +:+ b) +:+ d = a +:+ (b +:+ d).
Proof. induction a as [|x a IH]; sapp; [done | by rewrite IH]. Qed.

Lemma append_length a b : String.length (a +:+ b) = String.length a + String.length b.
Proof. induction a as [|x a IH]; sapp; [done | by rewrite IH]. Qed.

Lemma string_take_app a b : string_take (String.length a) (a +:+ b) = a.
Proof. induction a as [|x a IH]; sapp; [by destruct b | by rewrite IH]. Qed.

Lemma string_drop_app a b : string_drop (String.length a) (a +:+ b) = b.
Proof. induction a as [|x a IH]; sapp; [by destruct b | done]. Qed.

Lemma contains_app c a b : contains c (a +:+ b) = contains c a || contains c b.
Proof.
  induction a as [|x a IH]; sapp; [done |].
  rewrite IH. by rewrite orb_assoc.
Qed.

Lemma rfind_succ_0 c s : rfind_succ c s = 0 ↔ contains c s = false.
Proof.
  induction s as [|x s IH]; sapp; [done |].
  destruct (rfind_succ c s) as [|i] eqn:E.
  - destruct IH as [IH _]. rewrite IH by done. rewrite orb_false_r.
    case_bool_decide; split; done.
  - split; [done |]. intros [_ H]%orb_false_iff. apply IH in H. done.
Qed.

Lemma rfind_succ_app_sep c a b :
  contains c b = false →
  rfind_succ c (a +:+ String c b) = S (String.length a).
Proof.
  intros Hb. induction a as [|x a IH]; sapp.
  - apply rfind_succ_0 in Hb as ->. by rewrite bool_decide_eq_true_2.
  - by rewrite IH.
Qed.

Lemma endswith_inv c d : endswith c d = true → ∃ d', d = d' +:+ String c "".
Proof.
  induction d as [|x d IH]; sapp; [done |].
  destruct d as [|y d].
  - intros ->%bool_decide_eq_true. by exists "".
  - intros [d' ->]%IH. by exists (String x d').
Qed.

Lemma endswith_app_sep c d : endswith c (d +:+ String c "") = true.
Proof.
  induction d as [|x d IH]; sapp; [by rewrite bool_decide_eq_true_2 |].
  destruct (d +:+ String c "") eqn:E; [by destruct d | done].
Qed.

Lemma split_nonempty c s : split c s ≠ [].
Proof.
  destruct s as [|x s]; sapp; [done |].
  case_bool_decide; [done |]. by destruct (split c s).
Qed.

Lemma split_app_sep c a b : split c (a +:+ String c b) = split c a ++ split c b.
Proof.
  induction a as [|x a IH]; sapp.
  - by rewrite bool_decide_eq_true_2.
  - rewrite IH. case_bool_decide; [done |].
    pose proof (split_nonempty c a). by destruct (split c a).
Qed.

Lemma split_nosep c n : contains c n = false → split c n = [n].
Proof.
  induction n as [|x n IH]; sapp; [done |].
  intros [Hx Hn]%orb_false_iff. rewrite Hx, IH by done. done.
Qed.

Lemma all_char_app c a b : all_char c (a +:+ b) = all_char c a && all_char c b.
Proof.
  induction a as [|x a IH]; sapp; [done |]. by rewrite IH, andb_assoc.
Qed.

Lemma rstrip_decomp c s : ∃ t, s = rstrip c s +:+ t ∧ all_char c t = true.
Proof.
  induction s as [|x s (t & Hs & Ht)]; sapp; [by exists "" |].
  destruct (rstrip c s) as [|y r] eqn:E.
  - sapp_in Hs. subst t. case_bool_decide as Hx.
    + exists (String x s). sapp. by rewrite bool_decide_eq_true_2, Ht.
    + by exists s.
  - exists t. split; [|done]. sapp_in_all. by rewrite <-Hs.
Qed.

End strings.

Section paths.
Import posixpath os.
Implicit Types (a b d n p s : string).

Lemma join_nosep d n :
  contains sep n = false →
  join d n = n ∧ d = "" ∨
  (∃ d', d = d' +:+ String sep "" ∧ join d n = d' +:+ String sep n) ∨
  (d ≠ "" ∧ endswith sep d = false ∧ join d n = d +:+ String sep n).
Proof.
  intros Hn. unfold join.
  assert (startswith sep n = false) as ->.
  { destruct n; sapp_in_all; [done |]. by apply orb_false_iff in Hn as [-> _]. }
  case_bool_decide as Hd; sapp.
  - left. by subst.
  - destruct (endswith sep d) eqn:E.
    + right; left. apply endswith_inv in E as [d' ->]. exists d'.
      split; [done |]. by rewrite append_assoc.
    + right; right. done.
Qed.

Lemma join_nonempty d n : n ≠ "" → join d n ≠ "".
Proof.
  intros Hn. unfold join. destruct (startswith sep n); [done |].
  destruct (bool_decide (d = "") || endswith sep d).
  - destruct d; sapp; done.
  - destruct d; sapp; done.
Qed.

Lemma basename_nosep n : contains sep n = false → basename n = n.
Proof. intros H. unfold basename. by apply rfind_succ_0 in H as ->. Qed.

Lemma basename_app_sep a n : contains sep n = false → basename (a +:+ String sep n) = n.
Proof.
  intros H. unfold basename. rewrite rfind_succ_app_sep by done.
  change (String sep n) with (String sep "" +:+ n).
  rewrite <-append_assoc.
  replace (S (String.length a)) with (String.length (a +:+ String sep "")).
  - apply string_drop_app.
  - rewrite append_length. sapp. lia.
Qed.

Lemma basename_join d n : contains sep n = false → basename (join d n) = n.
Proof.
  intros H. destruct (join_nosep d n H) as [[-> _]|[(d' & _ & ->)|(_ & _ & ->)]].
  - by apply basename_nosep.
  - by apply basename_app_sep.
  - by apply basename_app_sep.
Qed.

Lemma basename_contains p : contains sep (basename p) = false.
Proof.
  unfold basename. induction p as [|x p IH]; sapp; [done |].
  destruct (rfind_succ sep p) as [|i] eqn:E.
  - apply rfind_succ_0 in E. case_bool_decide as Hx; sapp; [done |].
    by rewrite E, bool_decide_eq_false_2.
  - done.
Qed.

Lemma basename_idemp p : basename (basename p) = basename p.
Proof. apply basename_nosep, basename_contains. Qed.

Lemma resolve_nil : resolve "" = [].
Proof. done. Qed.

Lemma resolve_app_sep a b :
  resolve (a +:+ String sep b) = foldl resolve_step (resolve a) (split sep b).
Proof. unfold resolve. by rewrite split_app_sep, foldl_app. Qed.

Lemma resolve_app_sep_nosep a n :
  contains sep n = false → resolve (a +:+ String sep n) = resolve_step (resolve a) n.
Proof. intros H. by rewrite resolve_app_sep, split_nosep. Qed.

Lemma resolve_join d n :
  contains sep n = false → resolve (join d n) = resolve_step (resolve d) n.
Proof.
  intros H. destruct (join_nosep d n H) as [[-> ->]|[(d' & -> & ->)|(_ & _ & ->)]].
  - unfold resolve. by rewrite split_nosep.
  - rewrite !resolve_app_sep_nosep by done. done.
  - by apply resolve_app_sep_nosep.
Qed.

Lemma entry_name_spec n :
  glob.entry_name n = true ↔
  n ≠ "" ∧ contains sep n = false ∧ n ≠ "." ∧ n ≠ "..".
Proof.
  unfold glob.entry_name. rewrite !andb_true_iff, !negb_true_iff.
  rewrite !bool_decide_eq_false. tauto.
Qed.

Lemma resolve_step_entry acc n : glob.entry_name n = true → resolve_step acc n = acc ++ [n].
Proof.
  intros (H1 & _ & H2 & H3)%entry_name_spec. unfold resolve_step.
  rewrite bool_decide_eq_false_2 by tauto. by rewrite bool_decide_eq_false_2.
Qed.

Lemma resolve_join_entry d n :
  glob.entry_name n = true → resolve (join d n) = resolve d ++ [n].
Proof.
  intros H. rewrite resolve_join, resolve_step_entry; [done..|].
  by apply entry_name_spec in H as (_ & ? & _).
Qed.

Lemma foldl_resolve_all_sep acc t :
  all_char sep t = true → foldl resolve_step acc (split sep t) = acc.
Proof.
  induction t as [|x t IH]; sapp; [done |].
  intros [Hx Ht]%andb_true_iff. rewrite Hx. sapp. by apply IH.
Qed.

Lemma resolve_app_all_sep a t : all_char sep t = true → resolve (a +:+ t) = resolve a.
Proof.
  destruct t as [|x t]; sapp; [by rewrite append_nil_r |].
  intros [->%bool_decide_eq_true Ht]%andb_true_iff.
  by rewrite resolve_app_sep, foldl_resolve_all_sep.
Qed.

Lemma resolve_rstrip s : resolve (rstrip sep s) = resolve s.
Proof.
  destruct (rstrip_decomp sep s) as (t & Hs & Ht).
  rewrite Hs at 2. by rewrite resolve_app_all_sep.
Qed.

Lemma split_path_app_sep a n :
  contains sep n = false →
  split_path (a +:+ String sep n) =
    (if negb (all_char sep (a +:+ String sep ""))
     then rstrip sep (a +:+ String sep "") else a +:+ String sep "", n).
Proof.
  intros H. unfold split_path. rewrite rfind_succ_app_sep by done.
  change (String sep n) with (String sep "" +:+ n).
  rewrite <-append_assoc.
  replace (S (String.length a)) with (String.length (a +:+ String sep ""))
    by (rewrite append_length; sapp; lia).
  rewrite string_take_app, string_drop_app.
  rewrite bool_decide_eq_false_2 by (by destruct a). sapp.
  by destruct (all_char sep (a +:+ String sep "")).
Qed.

Lemma split_path_join d n :
  contains sep n = false →
  (split_path (join d n)).2 = n ∧
  resolve (split_path (join d n)).1 = resolve d ∧
  ((split_path (join d n)).1 = "" ↔ d = "").
Proof.
  intros H. destruct (join_nosep d n H) as [[-> ->]|[(d' & -> & ->)|(Hd & He & ->)]].
  - unfold split_path. apply rfind_succ_0 in H as ->. sapp. done.
  - rewrite split_path_app_sep by done. sapp. split; [done |].
    destruct (all_char sep (d' +:+ String sep "")) eqn:E; sapp.
    + split; [done |]. by destruct d'.
    + rewrite resolve_rstrip. split; [done |].
      split; [|by destruct d'].
      intros Hr. destruct (rstrip_decomp sep (d' +:+ String sep "")) as (t & Ht & Hall).
      rewrite Hr in Ht. sapp_in Ht. rewrite <-Ht in Hall. congruence.
  - rewrite split_path_app_sep by done. sapp. split; [done |].
    assert (resolve (d +:+ String sep "") = resolve d) as Hres.
    { rewrite resolve_app_sep_nosep by done. done. }
    destruct (all_char sep (d +:+ String sep "")) eqn:E; sapp.
    + split; [done |]. split; [by destruct d | done].
    + rewrite resolve_rstrip. split; [done |].
      split; [|done].
      intros Hr. destruct (rstrip_decomp sep (d +:+ String sep "")) as (t & Ht & Hall).
      rewrite Hr in Ht. sapp_in Ht. rewrite <-Ht in Hall. congruence.
Qed.

End paths.

Example join_plain : posixpath.join "/cfg/messages/Inbox" "m1" = "/cfg/messages/Inbox/m1".
Proof. reflexivity. Qed.

Example join_trailing_sep : posixpath.join "/cfg/messages/" "Inbox" = "/cfg/messages/Inbox".
Proof. reflexivity. Qed.

Example join_absolute : posixpath.join "/cfg/messages/Inbox" "/tmp/m1" = "/tmp/m1".
Proof. reflexivity. Qed.

Example basename_path : posixpath.basename "/cfg/messages/Inbox/m1" = "m1".
Proof. reflexivity. Qed.

Example basename_trailing_sep : posixpath.basename "/cfg/messages/Inbox/" = "".
Proof. reflexivity. Qed.

Example dirname_path : posixpath.dirname "/cfg/messages//Inbox" = "/cfg/messages".
Proof. reflexivity. Qed.

Example dirname_root : posixpath.dirname "/cfg" = "/".
Proof. reflexivity. Qed.

Example split_elements : split "/" "Drafts/X" = ["Drafts"; "X"].
Proof. reflexivity. Qed.

Example resolve_path : os.resolve "/cfg//messages/./Inbox/../Sent/" = ["cfg"; "messages"; "Sent"].
Proof. reflexivity. Qed.

Example glob_inbox :
  glob.glob_star (fs Scenario.registered) "/cfg/messages/Inbox" = ["/cfg/messages/Inbox/m1"].
Proof. vm_compute. reflexivity. Qed.

Example subfolders_root :
  (MessageFolderInfo.subfolders Scenario.root Scenario.root_opened).1
  = Ok [ {| MessageFolderInfo._path := "/cfg/messages/Drafts"; MessageFolderInfo._config := 1 |};
         {| MessageFolderInfo._path := "/cfg/messages/Inbox"; MessageFolderInfo._config := 2 |};
         {| MessageFolderInfo._path := "/cfg/messages/Sent"; MessageFolderInfo._config := 3 |} ].
Proof. vm_compute. reflexivity. Qed.

(** ** Running computations *)

Ltac run :=
  cbv [bind gets ret raise modify try_except
       MessageFolderInfo.deref MessageFolderInfo.assign
       MessageFolderInfo.lift_config] in *.

Ltac wsimpl :=
  repeat (progress (cbv beta iota delta [set_fs set_heap set_cache] in *;
                    cbn [fs heap _FOLDER_CACHE] in *)).

Lemma bind_ok {A B} (m : M A) (k : A → M B) w a w' :
  m w = (Ok a, w') → bind m k w = k a w'.
Proof. intros H. unfold bind. by rewrite H. Qed.

Lemma bind_raise {A B} (m : M A) (k : A → M B) w e w' :
  m w = (Raise e, w') → bind m k w = (Raise e, w').
Proof. intros H. unfold bind. by rewrite H. Qed.

(** ** The parser *)

Section parser.
Import configparser.

Lemma interpolate_plain fuel m v :
  contains "%" v = false → interpolate_some (S fuel) m v = Ok v.
Proof.
  intros H. simpl. induction v as [|a v IH]; [done |].
  simpl in H. apply orb_false_iff in H as [Ha Hv].
  simpl. unfold is_percent. rewrite Ha. by rewrite IH.
Qed.

Lemma strip_escaped_plain v : contains "%" v = false → strip_escaped v = v.
Proof.
  induction v as [|a v IH]; simpl; [done |].
  intros [Ha Hv]%orb_false_iff. unfold is_percent. by rewrite Ha, IH.
Qed.

Lemma stray_percent_plain v : contains "%" v = false → stray_percent None v = false.
Proof.
  induction v as [|a v IH]; simpl; [done |].
  intros [Ha Hv]%orb_false_iff. unfold is_percent. by rewrite Ha, IH.
Qed.

Lemma before_set_plain v : contains "%" v = false → before_set v = Ok v.
Proof.
  intros H. unfold before_set.
  by rewrite strip_escaped_plain, stray_percent_plain.
Qed.

(** A value without ['%'] is stored as it is, under the lower-cased
    option, in the section when that has a proper name. *)
Lemma parser_set_plain c section option value sectdict :
  contains "%" value = false →
  section ≠ "" → section ≠ default_section →
  _sections c !! section = Some sectdict →
  set c section option value =
    Ok {| _sections := <[section := <[optionxform option := value]> sectdict]> (_sections c);
          _defaults := _defaults c |}.
Proof.
  intros Hv H1 H2 Hs. unfold set.
  assert ((if bool_decide (value = "") then Ok value else before_set value) = Ok value) as ->.
  { case_bool_decide; [done |]. by apply before_set_plain. }
  rewrite !bool_decide_eq_false_2 by done. simpl. by rewrite Hs.
Qed.

Lemma parser_get_plain c section option value sectdict :
  contains "%" value = false →
  _sections c !! section = Some sectdict →
  sectdict !! optionxform option = Some value →
  get c section option = Ok value.
Proof.
  intros Hv Hs Ho. unfold get, unify_values. rewrite Hs.
  erewrite lookup_union_Some_l by done.
  by apply interpolate_plain.
Qed.

(** Without a value in the section or the defaults, [get] raises one of
    the two exceptions that [_get_prop] catches. *)
Lemma parser_get_missing c section option :
  _defaults c !! optionxform option = None →
  (∀ sectdict, _sections c !! section = Some sectdict →
               sectdict !! optionxform option = None) →
  get c section option = Raise NoSectionError ∨
  get c section option = Raise NoOptionError.
Proof.
  intros Hd Hs. unfold get, unify_values.
  destruct (_sections c !! section) as [sectdict|] eqn:E.
  - right. rewrite (proj2 (lookup_union_None _ _ _)); [done |].
    split; [by apply Hs | done].
  - case_bool_decide; [|by left]. right. by rewrite Hd.
Qed.

End parser.

Example get_interpolates :
  configparser.get
    {| _sections := {[ "m1" := {[ "subject" := "%(type)s: 50%% off"; "type" := "note" ]} ]};
       _defaults := ∅ |} "m1" "subject"
  = Ok "note: 50% off".
Proof. vm_compute. reflexivity. Qed.

Example get_missing_reference :
  configparser.get
    {| _sections := {[ "m1" := {[ "subject" := "%(type)s" ]} ]}; _defaults := ∅ |}
    "m1" "subject"
  = Raise InterpolationMissingOptionError.
Proof. vm_compute. reflexivity. Qed.

Example set_lone_percent :
  configparser.set {| _sections := {[ "m1" := ∅ ]}; _defaults := ∅ |} "m1" "subject" "100%"
  = Raise ValueError.
Proof. vm_compute. reflexivity. Qed.

Example add_section_default : configparser.add_section configparser.new "DEFAULT" = Raise ValueError.
Proof. reflexivity. Qed.

(** ** C5: the getters on an unregistered name *)


Section getters.
Import MessageFolderInfo.

Lemma _get_prop_unknown self filename prop w :
  _defaults (heap w !!! _config self) !! configparser.optionxform prop = None →
  no_entry (heap w !!! _config self) filename →
  _get_prop self filename prop w = (Ok "Unknown", w).
Proof.
  intros Hd Hn. unfold _get_prop. run.
  destruct (parser_get_missing (heap w !!! _config self)
              (posixpath.basename filename) prop Hd) as [-> | ->]; try done.
  intros sectdict Hs. destruct Hn as [Hn | Hn]; rewrite Hn in Hs; [done |].
  by simplify_eq.
Qed.

(** C5 (amended): for every filename whose basename has no registry
    section, or only an empty one, and a registry without default-section
    options, the four text getters return ["Unknown"] and
    [get_msg_read] returns [false]; none of them raises and none changes
    the world. *)
Theorem C5_getters_unknown self filename w :
  _defaults (heap w !!! _config self) = ∅ →
  no_entry (heap w !!! _config self) filename →
  get_msg_subject self filename w = (Ok "Unknown", w) ∧
  get_msg_type self filename w = (Ok "Unknown", w) ∧
  get_msg_sender self filename w = (Ok "Unknown", w) ∧
  get_msg_recip self filename w = (Ok "Unknown", w) ∧
  get_msg_read self filename w = (Ok false, w).
Proof.
  intros Hd Hn.
  assert (∀ prop, _get_prop self filename prop w = (Ok "Unknown", w)) as H.
  { intros prop. apply _get_prop_unknown; [|done]. by rewrite Hd. }
  unfold get_msg_subject, get_msg_type, get_msg_sender, get_msg_recip, get_msg_read.
  rewrite !H. repeat split; try done.
  by erewrite bind_ok by apply H.
Qed.

Lemma C5_getters_unknown_witness :
  get_msg_subject Scenario.inbox "/cfg/messages/Inbox/m2" Scenario.registered
    = (Ok "Unknown", Scenario.registered) ∧
  get_msg_type Scenario.inbox "/cfg/messages/Inbox/m2" Scenario.registered
    = (Ok "Unknown", Scenario.registered) ∧
  get_msg_sender Scenario.inbox "/cfg/messages/Inbox/m2" Scenario.registered
    = (Ok "Unknown", Scenario.registered) ∧
  get_msg_recip Scenario.inbox "/cfg/messages/Inbox/m2" Scenario.registered
    = (Ok "Unknown", Scenario.registered) ∧
  get_msg_read Scenario.inbox "/cfg/messages/Inbox/m2" Scenario.registered
    = (Ok false, Scenario.registered).
Proof.
  apply (C5_getters_unknown Scenario.inbox "/cfg/messages/Inbox/m2" Scenario.registered).
  - vm_compute. reflexivity.
  - left. vm_compute. reflexivity.
Defined.

(** C5 as stated fails on a name that [create_msg] has just created
    without raising: [m1] was registered with a subject and deleted, which
    leaves its section in the [.db] file; a new process loads the file,
    creates [m1] again and reads the old subject back. *)
Lemma C5_counterexample :
  (i <- __init__ "/cfg/messages/Inbox";;
   newfn <- create_msg i "m1";;
   subject <- get_msg_subject i newfn;;
   ret (newfn, subject)) (Scenario.restart Scenario.deleted)
  = (Ok (Scenario.m1, "Hello"),
     Scenario.after (__init__ "/cfg/messages/Inbox") (Scenario.restart Scenario.deleted)).
Proof. vm_compute. reflexivity. Qed.

End getters.

(** ** Inversion of computations *)

Lemma bind_inv_ok {A B} (m : M A) (k : A → M B) w b w' :
  bind m k w = (Ok b, w') → ∃ a w1, m w = (Ok a, w1) ∧ k a w1 = (Ok b, w').
Proof.
  unfold bind. destruct (m w) as [[a|e] w1]; [|done]. intros H. by exists a, w1.
Qed.

Lemma write_file_inv p data w w' :
  os.write_file p data w = (Ok tt, w') →
  w' = set_fs (<[os.resolve p := File data]> (fs w)) w ∧
  os.stat (fs w') p = Some (File data).
Proof.
  unfold os.write_file, os.stat. case_bool_decide as Hp; [done |].
  assert (∀ f, os.resolve p ≠ [] →
    os.node_at (<[os.resolve p := File data]> f) (os.resolve p) = Some (File data)) as Hins.
  { intros f Hk. unfold os.node_at. rewrite bool_decide_eq_false_2 by done.
    apply lookup_insert_eq. }
  destruct (os.node_at (fs w) (os.resolve p)) as [[|d]|] eqn:E; [done | |].
  - intros [= <-]. split; [done |]. simpl. apply Hins.
    intros Hk. unfold os.node_at in E. by rewrite Hk in E.
  - destruct (os.parent_error _ _); [done |]. intros [= <-]. split; [done |].
    simpl. apply Hins.
    intros Hk. unfold os.node_at in E. by rewrite Hk in E.
Qed.

Lemma write_file_heap p data w :
  heap (os.write_file p data w).2 = heap w ∧
  _FOLDER_CACHE (os.write_file p data w).2 = _FOLDER_CACHE w.
Proof.
  unfold os.write_file. repeat case_match; done.
Qed.

Lemma remove_inv p w w' :
  os.remove p w = (Ok tt, w') →
  w' = set_fs (delete (os.resolve p) (fs w)) w ∧
  os.path_isfile (fs w) p = true ∧ os.stat (fs w') p = None.
Proof.
  unfold os.remove, os.path_isfile.
  destruct (os.stat (fs w) p) as [[|d]|] eqn:E; [done | | done].
  intros [= <-]. split; [done |]. split; [done |].
  unfold os.stat in *. case_bool_decide; [done |]. simpl.
  unfold os.node_at in *. case_bool_decide; [done |]. apply lookup_delete_eq.
Qed.

Lemma lookup_total_invalid (h : list ConfigParser) r :
  length h ≤ r → h !!! r = configparser.new.
Proof.
  intros H. rewrite list_lookup_total_alt.
  by rewrite (proj2 (lookup_ge_None h r) H).
Qed.

(** ** C2: create_msg *)

Section create_msg.
Import MessageFolderInfo.

Lemma create_msg_result self name_ w :
  name_ ≠ configparser.default_section →
  (create_msg self name_ w).1 =
    if configparser.has_section (heap w !!! _config self) name_
       && os.path_exists (fs w) (posixpath.join (_path self) name_)
    then Raise DuplicateSectionError
    else Ok (posixpath.join (_path self) name_).
Proof.
  intros Hname. unfold create_msg, configparser.add_section. run.
  rewrite bool_decide_eq_false_2 by done.
  destruct (configparser.has_section _ _); simpl; [|done].
  by destruct (os.path_exists _ _).
Qed.

(** C2 (amended): for every folder and every name other than the
    parser's reserved ["DEFAULT"], [create_msg name] raises
    [DuplicateSectionError] if and only if the registry has a section
    [name] and a file [name] exists in the folder; in every other case it
    returns [os.path.join(folder, name)] without raising. *)
Theorem C2_create_msg self name_ w :
  name_ ≠ "DEFAULT" →
  ((create_msg self name_ w).1 = Raise DuplicateSectionError ↔
     configparser.has_section (heap w !!! _config self) name_ = true ∧
     os.path_exists (fs w) (posixpath.join (_path self) name_) = true) ∧
  (¬ (configparser.has_section (heap w !!! _config self) name_ = true ∧
      os.path_exists (fs w) (posixpath.join (_path self) name_) = true) →
   (create_msg self name_ w).1 = Ok (posixpath.join (_path self) name_)).
Proof.
  intros Hname. rewrite create_msg_result by done.
  destruct (configparser.has_section _ _), (os.path_exists _ _); simpl;
    split; try done; try (split; [done | by intros [? ?]]); tauto.
Qed.

Lemma C2_create_msg_witness :
  (create_msg Scenario.inbox "m1" Scenario.registered).1 = Raise DuplicateSectionError ∧
  (create_msg Scenario.inbox "m2" Scenario.registered).1 = Ok "/cfg/messages/Inbox/m2".
Proof.
  split.
  - apply (C2_create_msg Scenario.inbox "m1" Scenario.registered); [done |].
    split; vm_compute; reflexivity.
  - apply (C2_create_msg Scenario.inbox "m2" Scenario.registered); [done |].
    intros [H _]. vm_compute in H. discriminate.
Defined.

(** C2 as stated fails on the name ["DEFAULT"]: no section, no file, and
    [add_section] raises [ValueError]. *)
Lemma C2_counterexample :
  configparser.has_section (heap Scenario.registered !!! 0) "DEFAULT" = false ∧
  os.path_exists (fs Scenario.registered) "/cfg/messages/Inbox/DEFAULT" = false ∧
  create_msg Scenario.inbox "DEFAULT" Scenario.registered
    = (Raise ValueError, Scenario.registered).
Proof. vm_compute. done. Qed.

End create_msg.

(** ** C10 and C3: keying by basename, saving on every set *)


Section props.
Import MessageFolderInfo.

Lemma _set_prop_basename self filename prop value :
  _set_prop self filename prop value
  = _set_prop self (posixpath.basename filename) prop value.
Proof. unfold _set_prop. by rewrite basename_idemp. Qed.

Lemma _get_prop_basename self filename prop :
  _get_prop self filename prop
  = _get_prop self (posixpath.basename filename) prop.
Proof. unfold _get_prop. by rewrite basename_idemp. Qed.

Lemma delete_basename self filename :
  delete self filename = delete self (posixpath.basename filename).
Proof. unfold delete. by rewrite basename_idemp. Qed.

Lemma _save_inv self w w' :
  _save self w = (Ok tt, w') → synced w' self ∧ heap w' = heap w.
Proof.
  unfold _save, synced. run. intros H.
  pose proof (write_file_heap (posixpath.join (_path self) ".db")
                (Ini (heap w !!! _config self)) w) as [Hh _].
  rewrite H in Hh. simpl in Hh.
  apply write_file_inv in H as [_ H]. by rewrite Hh.
Qed.

(** What [_set_prop] leaves in memory, whether or not the file can be
    written afterwards. *)
Lemma _set_prop_heap self filename prop value w :
  let section := posixpath.basename filename in
  let c := heap w !!! _config self in
  _config self < length (heap w) →
  section ≠ "" → section ≠ configparser.default_section →
  contains "%" value = false →
  ∃ sectdict,
    _sections (heap (_set_prop self filename prop value w).2 !!! _config self)
      !! section = Some (<[configparser.optionxform prop := value]> sectdict).
Proof.
  intros section c Hr H1 H2 Hv. unfold _set_prop. fold section. run.
  fold c. unfold configparser.has_section, configparser.add_section.
  rewrite (bool_decide_eq_false_2 (section = _)) by done.
  unfold configparser.has_section.
  destruct (_sections c !! section) as [sectdict|] eqn:E.
  - rewrite bool_decide_eq_true_2 by done. fold c.
    rewrite (parser_set_plain c section prop value sectdict) by done.
    exists sectdict.
    match goal with |- context [_save self ?w1] =>
      pose proof (write_file_heap (posixpath.join (_path self) ".db")
        (Ini (heap w1 !!! _config self)) w1) as [Hh _] end.
    unfold _save. run.
    destruct (os.write_file _ _ _) as [[[]|e] w2]; simpl in *;
      rewrite Hh, list_lookup_total_insert_eq by done; simpl;
      apply lookup_insert_eq.
  - rewrite bool_decide_eq_false_2 by (by intros [? ?]). simpl.
    rewrite list_lookup_total_insert_eq by done.
    erewrite parser_set_plain; [|done..|by apply lookup_insert_eq].
    exists ∅.
    match goal with |- context [_save self ?w1] =>
      pose proof (write_file_heap (posixpath.join (_path self) ".db")
        (Ini (heap w1 !!! _config self)) w1) as [Hh _] end.
    unfold _save. run.
    destruct (os.write_file _ _ _) as [[[]|e] w2]; simpl in *;
      rewrite Hh, list_lookup_total_insert_eq
        by (by rewrite length_insert); simpl;
      apply lookup_insert_eq.
Qed.

Lemma _get_prop_world self filename prop w :
  (_get_prop self filename prop w).2 = w.
Proof.
  unfold _get_prop. run.
  destruct (configparser.get _ _ _) as [v|[]]; done.
Qed.

(** C10 (amended): every per-message registry operation keys by the
    basename of its filename argument, so getting, setting or deleting
    through the full path is the same computation as through the
    basename; and a value without ['%'] set through the full path, for a
    basename that is neither empty nor ["DEFAULT"], is read back
    through the basename. *)
Theorem C10_basename_keying self filename prop value w :
  (_set_prop self filename prop value
     = _set_prop self (posixpath.basename filename) prop value ∧
   _get_prop self filename prop
     = _get_prop self (posixpath.basename filename) prop ∧
   delete self filename = delete self (posixpath.basename filename)) ∧
  (_config self < length (heap w) →
   posixpath.basename filename ≠ "" →
   posixpath.basename filename ≠ "DEFAULT" →
   contains "%" value = false →
   let w' := (_set_prop self filename prop value w).2 in
   _get_prop self (posixpath.basename filename) prop w' = (Ok value, w')).
Proof.
  split.
  - auto using _set_prop_basename, _get_prop_basename, delete_basename.
  - intros Hr H1 H2 Hv w'.
    destruct (_set_prop_heap self filename prop value w Hr H1 H2 Hv)
      as [sectdict Hs]. fold w' in Hs.
    unfold _get_prop. run. rewrite basename_idemp.
    erewrite parser_get_plain; [done | done | apply Hs |].
    apply lookup_insert_eq.
Qed.

Lemma C10_basename_keying_witness :
  get_msg_subject Scenario.inbox "m1" Scenario.plain = (Ok "Hi", Scenario.plain).
Proof.
  apply (proj2 (C10_basename_keying Scenario.inbox Scenario.m1 "subject" "Hi"
                  Scenario.registered)).
  - vm_compute. lia.
  - vm_compute. discriminate.
  - vm_compute. discriminate.
  - reflexivity.
Defined.

(** C10 as stated fails on its example for a subject that holds an
    escaped percent sign: the setter stores it and the getter gives the
    interpolated text back. *)
Lemma C10_counterexample :
  set_msg_subject Scenario.inbox Scenario.m1 "50%% off" Scenario.registered
    = (Ok tt, Scenario.percent) ∧
  get_msg_subject Scenario.inbox "m1" Scenario.percent
    = (Ok "50% off", Scenario.percent).
Proof. split; vm_compute; reflexivity. Qed.

(** A lone percent sign is refused by the setter. *)
Example set_msg_subject_percent :
  (set_msg_subject Scenario.inbox Scenario.m1 "100%" Scenario.registered).1
  = Raise ValueError.
Proof. vm_compute. reflexivity. Qed.

End props.

Section saving.
Import MessageFolderInfo.

Lemma _set_prop_synced self filename prop value w w' :
  _set_prop self filename prop value w = (Ok tt, w') → synced w' self.
Proof.
  unfold _set_prop. intros H.
  apply bind_inv_ok in H as (c & w1 & _ & H1).
  apply bind_inv_ok in H1 as ([] & w2 & _ & H2).
  apply bind_inv_ok in H2 as (c2 & w3 & _ & H3).
  apply bind_inv_ok in H3 as (c3 & w4 & _ & H4).
  apply bind_inv_ok in H4 as ([] & w5 & _ & H5).
  by apply _save_inv in H5 as [H5 _].
Qed.

Lemma resolve_step_ne_db acc n :
  n ≠ ".db" → os.resolve_step acc n ≠ acc ++ [".db"].
Proof.
  intros Hn. unfold os.resolve_step. repeat case_bool_decide.
  - intros E. apply (f_equal length) in E. rewrite length_app in E. simpl in E. lia.
  - intros E. apply (f_equal length) in E.
    rewrite length_app in E. simpl in E.
    rewrite removelast_firstn_len, length_take in E. lia.
  - by intros [_ ?]%app_inj_tail.
Qed.

Lemma delete_inv self filename w w' :
  delete self filename w = (Ok tt, w') →
  let section := posixpath.basename filename in
  let p := posixpath.join (_path self) section in
  heap w' = <[_config self := configparser.remove_section
                                (heap w !!! _config self) section]> (heap w) ∧
  fs w' = base.delete (os.resolve p) (fs w) ∧
  _FOLDER_CACHE w' = _FOLDER_CACHE w ∧
  os.path_isfile (fs w) p = true ∧
  os.stat (fs w') p = None.
Proof.
  unfold delete. run. intros H.
  match type of H with os.remove ?q ?w1 = _ =>
    destruct (remove_inv q w1 w' H) as (-> & Hf & Hs) end.
  done.
Qed.

Lemma before_set_inv value v : configparser.before_set value = Ok v → v = value.
Proof. unfold configparser.before_set. case_match; congruence. Qed.

(** A set that returns, in a section with a proper name, stored the
    value as it is. *)
Lemma parser_set_inv c section option value c' :
  configparser.set c section option value = Ok c' →
  section ≠ "" → section ≠ configparser.default_section →
  ∃ sectdict,
    _sections c !! section = Some sectdict ∧
    c' = {| _sections :=
              <[section := <[configparser.optionxform option := value]> sectdict]>
                (_sections c);
            _defaults := _defaults c |}.
Proof.
  unfold configparser.set. intros H H1 H2.
  destruct (if bool_decide (value = "") then _ else _) as [v|e] eqn:Ev; [|done].
  assert (v = value) as ->.
  { destruct (bool_decide (value = "")); [congruence | by apply before_set_inv]. }
  rewrite !bool_decide_eq_false_2 in H by done. simpl in H.
  destruct (_sections c !! section) as [sectdict|]; [|done].
  exists sectdict. split; [done | congruence].
Qed.

(** The registry that a set leaves in memory when it returns. *)
Lemma _set_prop_inv self filename prop value w w' :
  let section := posixpath.basename filename in
  _set_prop self filename prop value w = (Ok tt, w') →
  _config self < length (heap w) →
  section ≠ "" → section ≠ configparser.default_section →
  heap w' !!! _config self = with_prop (heap w !!! _config self) section prop value.
Proof.
  intros section H Hr H1 H2. unfold _set_prop in H. fold section in H.
  apply bind_inv_ok in H as (c & w1 & Hc & H). injection Hc as <- <-.
  apply bind_inv_ok in H as ([] & w2 & Hadd & H).
  apply bind_inv_ok in H as (c2 & w3 & Hc2 & H). injection Hc2 as <- <-.
  apply bind_inv_ok in H as (c3 & w4 & Hset & H).
  apply bind_inv_ok in H as ([] & w5 & Hass & H). injection Hass as <-.
  apply _save_inv in H as [_ ->]. wsimpl.
  unfold lift_config in Hset.
  destruct (configparser.set _ _ _ _) as [c4|e] eqn:Es; [|done].
  injection Hset as <- <-.
  apply parser_set_inv in Es as (sd & Hsd & ->); [|done..].
  destruct (configparser.has_section (heap w !!! _config self) section) eqn:Hhas.
  - injection Hadd as <-. rewrite list_lookup_total_insert_eq by done.
    unfold with_prop. by rewrite Hsd.
  - unfold configparser.add_section in Hadd.
    rewrite (bool_decide_eq_false_2 (section = _)), Hhas in Hadd by done.
    run. injection Hadd as <-. wsimpl. wsimpl.
    rewrite list_lookup_total_insert_eq in Hsd by done. simpl in Hsd.
    rewrite lookup_insert_eq in Hsd. injection Hsd as <-.
    rewrite list_insert_insert_eq, list_lookup_total_insert_eq by done.
    unfold with_prop. unfold configparser.has_section in Hhas.
    apply bool_decide_eq_false in Hhas.
    destruct (_sections (heap w !!! _config self) !! section) eqn:E;
      [by destruct Hhas |]. simpl.
    rewrite list_lookup_total_insert_eq by done. simpl.
    by rewrite insert_insert_eq.
Qed.

(** C3 (amended): setting a property (subject, type, read, sender,
    recip) rewrites the folder's whole [.db] file at once, from memory:
    after a set that returns, the file is the text that
    [ConfigParser.write] gives for the registry in memory, and that
    registry is the one that was in memory before the set, with the
    property set in the section of the basename (a basename that is
    neither empty nor ["DEFAULT"]); what the file held before plays no
    part.  What [read] makes of the text later is not stated.  Deleting a
    message takes its section out of the registry in memory and unlinks
    the message file only: the [.db] file stays as it was. *)
Theorem C3_registry_saving self filename w w' :
  (∀ prop value,
     _set_prop self filename prop value w = (Ok tt, w') →
     os.stat (fs w') (posixpath.join (_path self) ".db")
       = Some (File (Ini (heap w' !!! _config self))) ∧
     (_config self < length (heap w) →
      posixpath.basename filename ≠ "" →
      posixpath.basename filename ≠ "DEFAULT" →
      heap w' !!! _config self
        = with_prop (heap w !!! _config self) (posixpath.basename filename)
            prop value)) ∧
  (delete self filename w = (Ok tt, w') →
   posixpath.basename filename ≠ ".db" →
   os.stat (fs w') (posixpath.join (_path self) ".db")
     = os.stat (fs w) (posixpath.join (_path self) ".db") ∧
   (_config self < length (heap w) →
    configparser.has_section (heap w' !!! _config self)
      (posixpath.basename filename) = false)).
Proof.
  split.
  { intros prop value Hset. split.
    - by apply _set_prop_synced in Hset.
    - intros Hr H1 H2. by apply _set_prop_inv. }
  intros H Hdb. apply delete_inv in H as (Hh & Hf & _ & _ & _). split.
  - unfold os.stat. case_bool_decide; [done |]. rewrite Hf.
    unfold os.node_at. case_bool_decide; [done |].
    apply lookup_delete_ne.
    rewrite (resolve_join _ (posixpath.basename filename))
      by apply basename_contains.
    rewrite (resolve_join_entry _ ".db") by done.
    by apply resolve_step_ne_db.
  - intros Hr. rewrite Hh, list_lookup_total_insert_eq by done.
    unfold configparser.has_section, configparser.remove_section. simpl.
    apply bool_decide_eq_false_2. rewrite lookup_delete_eq. by intros [? ?].
Qed.

(** The set that registers the subject of [m1], and the set of a second
    message after [m1] was deleted: the file then holds the section of
    the second message only. *)
Lemma C3_registry_saving_witness :
  (os.stat (fs Scenario.registered) "/cfg/messages/Inbox/.db"
     = Some (File (Ini (heap Scenario.registered !!! 0))) ∧
   heap Scenario.registered !!! 0
     = with_prop (heap Scenario.opened !!! 0) "m1" "subject" "Hello") ∧
  (os.stat (fs Scenario.resaved) "/cfg/messages/Inbox/.db"
     = Some (File (Ini (heap Scenario.resaved !!! 0))) ∧
   heap Scenario.resaved !!! 0
     = with_prop (heap Scenario.deleted !!! 0) "m2" "subject" "Hi" ∧
   configparser.has_section (heap Scenario.resaved !!! 0) "m1" = false) ∧
  os.stat (fs Scenario.deleted) "/cfg/messages/Inbox/.db"
    = os.stat (fs Scenario.registered) "/cfg/messages/Inbox/.db".
Proof.
  split; [|split].
  - destruct (proj1 (C3_registry_saving Scenario.inbox Scenario.m1
                       Scenario.opened Scenario.registered) "subject" "Hello")
      as [Hfile Hmem]; [vm_compute; reflexivity |].
    split; [exact Hfile |]. apply Hmem.
    + vm_compute. lia.
    + vm_compute. discriminate.
    + vm_compute. discriminate.
  - destruct (proj1 (C3_registry_saving Scenario.inbox "/cfg/messages/Inbox/m2"
                       Scenario.deleted Scenario.resaved) "subject" "Hi")
      as [Hfile Hmem]; [vm_compute; reflexivity |].
    split; [exact Hfile |]. split; [|vm_compute; reflexivity]. apply Hmem.
    + vm_compute. lia.
    + vm_compute. discriminate.
    + vm_compute. discriminate.
  - apply (proj2 (C3_registry_saving Scenario.inbox Scenario.m1
                    Scenario.registered Scenario.deleted)).
    + vm_compute. reflexivity.
    + vm_compute. discriminate.
Defined.

(** C3 as stated fails for [delete]: with the file and the registry in
    step, deleting [m1] returns, and afterwards the section of [m1] is
    gone from memory and still in the [.db] file. *)
Lemma C3_counterexample :
  synced Scenario.registered Scenario.inbox ∧
  delete Scenario.inbox Scenario.m1 Scenario.registered = (Ok tt, Scenario.deleted) ∧
  ¬ synced Scenario.deleted Scenario.inbox ∧
  configparser.has_section (heap Scenario.deleted !!! 0) "m1" = false ∧
  (∃ c, os.stat (fs Scenario.deleted) "/cfg/messages/Inbox/.db" = Some (File (Ini c)) ∧
        configparser.has_section c "m1" = true).
Proof.
  split; [vm_compute; reflexivity |].
  split; [vm_compute; reflexivity |].
  split; [|split; [vm_compute; reflexivity |]].
  - apply (bool_decide_eq_false_1 (synced Scenario.deleted Scenario.inbox)).
    vm_compute. reflexivity.
  - eexists. split; vm_compute; reflexivity.
Qed.

End saving.

(** ** C6: rename *)

Section renaming.
Import MessageFolderInfo.

Lemma rename_frame src dst w :
  heap (os.rename src dst w).2 = heap w ∧
  _FOLDER_CACHE (os.rename src dst w).2 = _FOLDER_CACHE w.
Proof. unfold os.rename. repeat case_match; done. Qed.

Lemma _get_prop_heap self1 self2 filename prop w1 w2 :
  heap w1 !!! _config self1 = heap w2 !!! _config self2 →
  (_get_prop self1 filename prop w1).1 = (_get_prop self2 filename prop w2).1.
Proof.
  intros H. unfold _get_prop. run. rewrite H.
  destruct (configparser.get _ _ _) as [v|[]]; done.
Qed.

(** C6: for every folder and every new name that is a plain name (no
    path separator), when [rename new_name] returns, [name()] returns
    [new_name], and every getter gives for every message and property
    what it gave before the rename: the registry object is the same and
    is not touched. *)
Theorem C6_rename self new_name w self' w' :
  contains posixpath.sep new_name = false →
  rename self new_name w = (Ok self', w') →
  name self' = new_name ∧
  _config self' = _config self ∧
  heap w' = heap w ∧
  (∀ filename prop,
     _get_prop self' filename prop w' = ((_get_prop self filename prop w).1, w')).
Proof.
  intros Hn H. unfold rename in H.
  apply bind_inv_ok in H as ([] & w1 & H1 & H2). run.
  injection H2 as <- <-.
  pose proof (rename_frame (_path self)
    (posixpath.join (posixpath.dirname (_path self)) new_name) w) as [Hh _].
  rewrite H1 in Hh. simpl in Hh.
  split; [by apply basename_join |]. split; [done |]. split; [done |].
  intros filename prop.
  rewrite (surjective_pairing (_get_prop _ _ _ w1)), _get_prop_world.
  f_equal. apply _get_prop_heap. simpl. by rewrite Hh.
Qed.

Lemma C6_rename_witness :
  ∃ self' w',
    rename Scenario.inbox "Archive" Scenario.registered = (Ok self', w') ∧
    name self' = "Archive" ∧
    get_msg_subject self' "m1" w' = (Ok "Hello", w').
Proof.
  eexists _, _. split; [vm_compute; reflexivity |].
  edestruct (C6_rename Scenario.inbox "Archive" Scenario.registered)
    as (Hname & _ & _ & Hget); [reflexivity | vm_compute; reflexivity |].
  split; [exact Hname |].
  unfold get_msg_subject. rewrite Hget. vm_compute. reflexivity.
Defined.

(** The files move with the folder, and the cache keeps the old path. *)
Example rename_moves_files :
  let w' := Scenario.after (rename Scenario.inbox "Archive") Scenario.registered in
  os.path_isfile (fs w') "/cfg/messages/Archive/m1" = true ∧
  os.path_exists (fs w') "/cfg/messages/Inbox" = false ∧
  _FOLDER_CACHE w' !! "/cfg/messages/Inbox" = Some 0 ∧
  _FOLDER_CACHE w' !! "/cfg/messages/Archive" = None.
Proof. vm_compute. done. Qed.

End renaming.

(** ** C7: delete *)

Section deleting.
Import MessageFolderInfo.

Lemma files_spec self w :
  ∃ l, files self w = (Ok l, w) ∧ ∀ x, x ∈ l → os.path_isfile (fs w) x = true.
Proof.
  unfold files. run. eexists. split; [done |].
  intros x [[Hx _] _]%list_elem_of_filter. done.
Qed.

(** C7: for every message present in a folder, that is a regular file
    [basename(filename)] in the folder and a registry section of that
    name, [delete filename] returns, the file and the section are gone
    afterwards, and a subsequent [files()] returns a list in which no
    path names the deleted file. *)
Theorem C7_delete self filename w :
  let section := posixpath.basename filename in
  let p := posixpath.join (_path self) section in
  configparser.has_section (heap w !!! _config self) section = true →
  os.path_isfile (fs w) p = true →
  ∃ w',
    delete self filename w = (Ok tt, w') ∧
    os.path_exists (fs w') p = false ∧
    configparser.has_section (heap w' !!! _config self) section = false ∧
    ∃ l, files self w' = (Ok l, w') ∧ (p ∉ l) ∧
         (∀ x, x ∈ l → os.resolve x ≠ os.resolve p).
Proof.
  intros section p Hs Hf.
  assert (_config self < length (heap w)) as Hr.
  { destruct (decide (_config self < length (heap w))) as [|Hge]; [done |].
    rewrite lookup_total_invalid in Hs by lia. done. }
  unfold os.path_isfile in Hf.
  destruct (os.stat (fs w) p) as [[|d]|] eqn:Est; try done.
  destruct (delete self filename w) as [r w'] eqn:E.
  assert (r = Ok tt) as ->.
  { unfold delete in E. run. unfold os.remove in E. simpl in E.
    fold section in E. fold p in E. rewrite Est in E. by injection E as <- _. }
  exists w'. split; [done |].
  apply delete_inv in E as (Hh & Hfs & _ & _ & Hgone).
  fold section in Hh, Hfs, Hgone. fold p in Hfs, Hgone.
  split.
  { unfold os.path_exists. rewrite Hgone.
    apply bool_decide_eq_false_2. by intros [? ?]. }
  split.
  { rewrite Hh, list_lookup_total_insert_eq by done.
    unfold configparser.has_section, configparser.remove_section. simpl.
    apply bool_decide_eq_false_2. rewrite lookup_delete_eq. by intros [? ?]. }
  destruct (files_spec self w') as (l & Hl & Hfile). exists l. split; [done |].
  assert (∀ x, x ∈ l → os.resolve x ≠ os.resolve p) as Hne.
  { intros x Hx%Hfile Heq. unfold os.path_isfile in Hx.
    assert (os.stat (fs w') x = None) as Hnone; [|by rewrite Hnone in Hx].
    unfold os.stat. rewrite Heq.
    destruct (bool_decide (x = "")); [done |].
    unfold os.stat in Hgone, Est.
    by destruct (bool_decide (p = "")). }
  split; [|done]. intros Hp. by apply (Hne p Hp).
Qed.

Lemma C7_delete_witness :
  ∃ w', delete Scenario.inbox Scenario.m1 Scenario.registered = (Ok tt, w') ∧
        os.path_exists (fs w') Scenario.m1 = false ∧
        files Scenario.inbox w' = (Ok [], w').
Proof.
  destruct (C7_delete Scenario.inbox Scenario.m1 Scenario.registered)
    as (w' & Hd & He & _ & _); [vm_compute; reflexivity .. |].
  exists w'. split; [exact Hd |]. split; [exact He |].
  assert (w' = Scenario.deleted) as ->.
  { assert ((delete Scenario.inbox Scenario.m1 Scenario.registered).2 = w') as <-
      by (by rewrite Hd). reflexivity. }
  vm_compute. reflexivity.
Defined.

End deleting.

(** ** C1: moving onto a message that is already there *)


Section moving.
Import MessageFolderInfo.

Lemma create_msg_duplicate self name_ w :
  _sections (heap w !!! _config self) !! configparser.default_section = None →
  configparser.has_section (heap w !!! _config self) name_ = true →
  os.path_exists (fs w) (posixpath.join (_path self) name_) = true →
  create_msg self name_ w = (Raise DuplicateSectionError, w).
Proof.
  intros Hinv Hs He. unfold create_msg, configparser.add_section. run.
  rewrite He, Hs. rewrite bool_decide_eq_false_2; [done |].
  intros ->. unfold configparser.has_section in Hs.
  apply bool_decide_eq_true in Hs as [? Hs]. by rewrite Hinv in Hs.
Qed.

(** Building the folder object for a path whose registry is [c] and has
    a section: the files stay as they are and the object holds [c]. *)
Lemma __init___registry folder_path c section w :
  folder_registry w folder_path = Some c →
  configparser.has_section c section = true →
  ∃ self w',
    __init__ folder_path w = (Ok self, w') ∧
    _path self = folder_path ∧
    heap w' !!! _config self = c ∧
    fs w' = fs w ∧
    (∀ r, r < length (heap w) → heap w' !!! r = heap w !!! r) ∧
    _FOLDER_CACHE w ⊆ _FOLDER_CACHE w'.
Proof.
  unfold folder_registry, __init__. run.
  destruct (_FOLDER_CACHE w !! folder_path) as [r|] eqn:Ec.
  - intros [= <-] _. by eexists _, _.
  - intros Hreg Hs.
    set (reg_path := posixpath.join folder_path ".db") in *.
    destruct (os.stat (fs w) reg_path) as [[|[text|c']]|] eqn:Est;
      try (by simplify_eq); [by case_bool_decide; simplify_eq |].
    injection Hreg as ->.
    unfold os.path_exists, config_read, _save. run. simpl.
    rewrite Est. rewrite bool_decide_eq_true_2 by done. simpl.
    rewrite Est. simpl.
    rewrite list_lookup_total_insert_eq
      by (rewrite length_app; simpl; lia).
    unfold os.write_file. simpl.
    unfold os.stat in Est. subst reg_path.
    destruct (bool_decide (posixpath.join folder_path ".db" = "")); [done |].
    rewrite Est. simpl.
    set (reg_path := posixpath.join folder_path ".db") in *.
    assert (os.resolve reg_path ≠ []) as Hk.
    { intros Hk. unfold os.node_at in Est. by rewrite Hk in Est. }
    assert (<[os.resolve reg_path := File (Ini c)]> (fs w) = fs w) as Hfs.
    { apply insert_id. unfold os.node_at in Est.
      by rewrite bool_decide_eq_false_2 in Est. }
    eexists _, _. split; [done |]. simpl.
    split; [done |].
    split; [by rewrite list_lookup_total_insert_eq
              by (rewrite length_app; simpl; lia) |].
    split; [done |]. split.
    + intros r Hr. rewrite list_lookup_total_insert_ne by lia.
      by rewrite lookup_total_app_l.
    + by apply insert_subseteq.
Qed.

(** C1: for every message whose basename has a registry section in the
    destination folder and names an existing entry of that folder,
    [move_message info path new_folder] returns [path] and moves
    nothing: no file is deleted or written, so the source file stays and
    the destination file is not overwritten, and every registry object
    that existed, the source registry among them, is as it was.  (The
    hypothesis on ["DEFAULT"] is the invariant of a [ConfigParser], which
    never holds a section for its default name.) *)
Theorem C1_move_message_duplicate refresh_if_current self info path new_folder w c :
  let dest := posixpath.join
                (posixpath.join (MessageList.config_dir self) "messages") new_folder in
  let section := posixpath.basename path in
  os.path_isdir (fs w) dest = true →
  folder_registry w dest = Some c →
  _sections c !! "DEFAULT" = None →
  configparser.has_section c section = true →
  os.path_exists (fs w) (posixpath.join dest section) = true →
  ∃ w',
    MessageList.move_message refresh_if_current self info path new_folder w
      = (Ok path, w') ∧
    fs w' = fs w ∧
    (∀ r, r < length (heap w) → heap w' !!! r = heap w !!! r) ∧
    _FOLDER_CACHE w ⊆ _FOLDER_CACHE w'.
Proof.
  intros dest section Hdir Hreg Hinv Hs He.
  destruct (__init___registry dest c section w Hreg Hs)
    as (d & w' & Hinit & Hp & Hc & Hfs & Hheap & Hcache).
  exists w'. unfold MessageList.move_message, MessageList._folder_path.
  fold dest section. run. rewrite Hdir, Hinit.
  rewrite create_msg_duplicate; [done | by rewrite Hc ..|].
  by rewrite Hp, Hfs.
Qed.

Lemma C1_move_message_duplicate_witness :
  ∃ w',
    MessageList.move_message no_refresh Scenario.message_list Scenario.inbox
      Scenario.m1 "Sent" Scenario.in_both = (Ok Scenario.m1, w') ∧
    fs w' = fs Scenario.in_both ∧
    (∀ r, r < length (heap Scenario.in_both) →
          heap w' !!! r = heap Scenario.in_both !!! r) ∧
    _FOLDER_CACHE Scenario.in_both ⊆ _FOLDER_CACHE w'.
Proof.
  eapply (C1_move_message_duplicate no_refresh Scenario.message_list
            Scenario.inbox Scenario.m1 "Sent" Scenario.in_both);
    vm_compute; reflexivity.
Defined.

(** The same move within one folder, the case the source comments on. *)
Example move_message_same_folder :
  MessageList.move_message no_refresh Scenario.message_list Scenario.inbox
    Scenario.m1 "Inbox" Scenario.registered = (Ok Scenario.m1, Scenario.registered).
Proof. vm_compute. reflexivity. Qed.

End moving.

(** ** C9: the folder cache *)



#[global] Instance world_le_preorder : PreOrder world_le.
Proof.
  split.
  - intros w. by split.
  - intros w1 w2 w3 [H1 H2] [H3 H4]. split; [by etrans | lia].
Qed.

Section monotone.
Import MessageFolderInfo.

Lemma mono_ret {A} (a : A) : mono (ret a).
Proof. intros w. reflexivity. Qed.

Lemma mono_raise {A} e : mono (@raise A e).
Proof. intros w. reflexivity. Qed.

Lemma mono_gets {A} (f : World → A) : mono (gets f).
Proof. intros w. reflexivity. Qed.

Lemma mono_bind {A B} (m : M A) (k : A → M B) :
  mono m → (∀ a, mono (k a)) → mono (bind m k).
Proof.
  intros Hm Hk w. unfold bind. specialize (Hm w).
  destruct (m w) as [[a|e] w1]; simpl in *; [|done].
  etrans; [done | apply Hk].
Qed.

Lemma mono_try {A} (m : M A) handler :
  mono m →
  (∀ e, match handler e with Some h => mono h | None => True end) →
  mono (try_except m handler).
Proof.
  intros Hm Hh w. unfold try_except. specialize (Hm w).
  destruct (m w) as [[a|e] w1]; simpl in *; [done |].
  specialize (Hh e). destruct (handler e) as [h|]; [|done].
  etrans; [done | apply Hh].
Qed.

Lemma mono_set_fs {A} (f : World → result A * gmap (list string) node) :
  mono (λ w, ((f w).1, set_fs (f w).2 w)).
Proof. intros w. by split. Qed.

Lemma mono_mkdir p : mono (os.mkdir p).
Proof. intros w. unfold os.mkdir. repeat case_match; by split. Qed.

Lemma mono_remove p : mono (os.remove p).
Proof. intros w. unfold os.remove. repeat case_match; by split. Qed.

Lemma mono_rmdir p : mono (os.rmdir p).
Proof. intros w. unfold os.rmdir. repeat case_match; by split. Qed.

Lemma mono_rename src dst : mono (os.rename src dst).
Proof. intros w. unfold os.rename. repeat case_match; by split. Qed.

Lemma mono_write_file p data : mono (os.write_file p data).
Proof. intros w. unfold os.write_file. repeat case_match; by split. Qed.

Lemma mono_assign r c : mono (assign r c).
Proof. intros w. split; [done |]. simpl. by rewrite length_insert. Qed.

Lemma mono_deref r : mono (deref r).
Proof. apply mono_gets. Qed.

Lemma mono_lift_config {A} (x : result A) : mono (lift_config x).
Proof. destruct x; [apply mono_ret | apply mono_raise]. Qed.

End monotone.

Ltac mono_step :=
  match goal with
  | |- mono (bind _ _) => apply mono_bind; [|intros ?]
  | |- mono (ret _) => apply mono_ret
  | |- mono (raise _) => apply mono_raise
  | |- mono (gets _) => apply mono_gets
  | |- mono (void _) => unfold void
  | |- mono (try_except _ _) => apply mono_try; [|intros []; simpl; try exact I]
  | |- mono (os.mkdir _) => apply mono_mkdir
  | |- mono (os.remove _) => apply mono_remove
  | |- mono (os.rmdir _) => apply mono_rmdir
  | |- mono (os.rename _ _) => apply mono_rename
  | |- mono (os.write_file _ _) => apply mono_write_file
  | |- mono (MessageFolderInfo.assign _ _) => apply mono_assign
  | |- mono (MessageFolderInfo.deref _) => apply mono_deref
  | |- mono (MessageFolderInfo.lift_config _) => apply mono_lift_config
  | |- mono (if ?b then _ else _) => destruct b
  | |- mono (match ?x with _ => _ end) => destruct x
  | |- match (if ?b then _ else _) with _ => _ end => destruct b; simpl; try exact I
  | |- mono (let '(_, _) := ?x in _) => destruct x
  | H : mono ?m |- mono ?m => exact H
  | H : ∀ x, mono (?m x) |- mono (?m _) => apply H
  | H : ∀ x y, mono (?m x y) |- mono (?m _ _) => apply H
  | H : _ |- mono _ => apply H
  end.

Ltac mono_solve := repeat mono_step.

Section monotone_store.
Import MessageFolderInfo.

Lemma mono_makedirs_rec fuel name_ : mono (os.makedirs_rec fuel name_).
Proof.
  revert name_. induction fuel as [|fuel IH]; intros name_; simpl; mono_solve.
Qed.

Lemma mono_makedirs name_ : mono (os.makedirs name_).
Proof. apply mono_makedirs_rec. Qed.

Lemma mono_copy src dst : mono (shutil.copy src dst).
Proof. unfold shutil.copy. mono_solve. Qed.

Lemma mono_config_read r reg_path : mono (config_read r reg_path).
Proof. unfold config_read. mono_solve. Qed.

Lemma mono__save self : mono (_save self).
Proof. unfold _save. mono_solve. Qed.

Lemma same_cache_config_read r reg_path w :
  _FOLDER_CACHE (config_read r reg_path w).2 = _FOLDER_CACHE w.
Proof. unfold config_read. run. repeat case_match; done. Qed.

Lemma same_cache__save self w :
  _FOLDER_CACHE (_save self w).2 = _FOLDER_CACHE w.
Proof. unfold _save. run. apply write_file_heap. Qed.

Lemma mono___init__ folder_path : mono (__init__ folder_path).
Proof.
  intros w. unfold __init__. unfold bind at 1, gets at 1.
  destruct (_FOLDER_CACHE w !! folder_path) as [r|] eqn:Ec; [reflexivity |].
  unfold bind at 1.
  set (w1 := set_heap (heap w ++ [configparser.new]) w).
  set (self := {| _path := folder_path; _config := length (heap w) |}).
  assert (world_le w w1) as H1.
  { split; [done |]. simpl. rewrite length_app. lia. }
  unfold bind at 1, gets at 1.
  unfold bind at 1.
  set (rd := if os.path_exists (fs w1) (posixpath.join folder_path ".db")
             then config_read (length (heap w)) (posixpath.join folder_path ".db")
             else ret ()).
  assert (mono rd) as Hrd by (subst rd; case_match; [apply mono_config_read | apply mono_ret]).
  assert (∀ w, _FOLDER_CACHE (rd w).2 = _FOLDER_CACHE w) as Hrdc.
  { intros w0. subst rd. case_match; [apply same_cache_config_read | done]. }
  specialize (Hrd w1). specialize (Hrdc w1).
  destruct (rd w1) as [[[]|e] w2]; simpl in *; [|by etrans].
  unfold bind at 1.
  pose proof (mono__save self w2) as Hsv.
  pose proof (same_cache__save self w2) as Hsvc.
  destruct (_save self w2) as [[[]|e] w3]; simpl in *; [|by etrans; [|etrans]].
  destruct H1 as [_ H1], Hrd as [_ Hrd], Hsv as [_ Hsv].
  split; simpl; [|lia].
  apply insert_subseteq_r; [|by rewrite Hsvc, Hrdc].
  done.
Qed.

Lemma mono__set_prop self filename prop value :
  mono (_set_prop self filename prop value).
Proof. unfold _set_prop. pose proof mono__save. mono_solve. Qed.

Lemma mono__get_prop self filename prop : mono (_get_prop self filename prop).
Proof. unfold _get_prop. mono_solve. Qed.

Lemma mono_subfolders_loop entries info : mono (subfolders_loop entries info).
Proof.
  revert info. pose proof mono___init__.
  induction entries as [|entry rest IH]; intros info; simpl; mono_solve.
Qed.

Lemma mono_subfolders self : mono (subfolders self).
Proof. unfold subfolders. pose proof mono_subfolders_loop. mono_solve. Qed.

Lemma mono_files self : mono (files self).
Proof. unfold files. mono_solve. Qed.

Lemma mono_get_subfolder self name_ : mono (get_subfolder self name_).
Proof. unfold get_subfolder. pose proof mono_subfolders. mono_solve. Qed.

Lemma mono_create_subfolder self name_ : mono (create_subfolder self name_).
Proof. unfold create_subfolder. pose proof mono___init__. mono_solve. Qed.

Lemma mono_delete_self self : mono (delete_self self).
Proof. unfold delete_self. mono_solve. Qed.

Lemma mono_create_msg self name_ : mono (create_msg self name_).
Proof. unfold create_msg. mono_solve. Qed.

Lemma mono_delete self filename : mono (delete self filename).
Proof. unfold delete. mono_solve. Qed.

Lemma mono_rename_folder self new_name : mono (rename self new_name).
Proof. unfold rename. mono_solve. Qed.

Lemma mono__folders_path self : mono (MessageFolders._folders_path self).
Proof. unfold MessageFolders._folders_path. pose proof mono_makedirs. mono_solve. Qed.

Lemma mono_walk info elements : mono (MessageFolders.walk info elements).
Proof.
  revert info. pose proof mono_get_subfolder.
  induction elements as [|e rest IH]; intros info; simpl; mono_solve.
Qed.

Lemma mono__create_folder root name_ : mono (MessageFolders._create_folder root name_).
Proof.
  unfold MessageFolders._create_folder.
  pose proof mono_walk. pose proof mono_create_subfolder. mono_solve.
Qed.

Lemma mono_ensure_loop root folders : mono (MessageFolders.ensure_loop root folders).
Proof.
  pose proof mono__create_folder. pose proof mono_subfolders.
  induction folders as [|f rest IH]; simpl; [apply mono_ret |].
  unfold MessageFolders.ensure_folder. mono_solve.
Qed.

Lemma mono_exec o : mono (exec o).
Proof.
  pose proof mono___init__. pose proof mono__set_prop. pose proof mono__get_prop.
  pose proof mono_subfolders. pose proof mono_files. pose proof mono_get_subfolder.
  pose proof mono_create_subfolder. pose proof mono_delete_self.
  pose proof mono_create_msg. pose proof mono_delete. pose proof mono_rename_folder.
  pose proof mono__create_folder. pose proof mono__folders_path.
  pose proof mono_ensure_loop. pose proof mono_copy.
  destruct o; simpl;
    unfold MessageFolders.create_folder, MessageFolders.get_folders,
      MessageFolders.get_folder, MessageFolders._ensure_default_folders,
      MessageList.move_message, MessageList._folder_path, no_refresh;
    mono_solve.
Qed.

Lemma world_le_run_ops ops w : world_le w (run_ops ops w).
Proof.
  revert w. induction ops as [|o ops IH]; intros w; simpl; [reflexivity |].
  etrans; [apply (mono_exec o) | apply IH].
Qed.

End monotone_store.

Section cache.
Import MessageFolderInfo.

Lemma __init___hit folder_path r w :
  _FOLDER_CACHE w !! folder_path = Some r →
  __init__ folder_path w = (Ok {| _path := folder_path; _config := r |}, w).
Proof. intros H. unfold __init__. run. by rewrite H. Qed.

(** The first construction for a path: a new object, filled from the
    [.db] file, and entered in the cache. *)
Lemma __init___miss folder_path w self w1 :
  _FOLDER_CACHE w !! folder_path = None →
  __init__ folder_path w = (Ok self, w1) →
  self = {| _path := folder_path; _config := length (heap w) |} ∧
  _FOLDER_CACHE w1 = <[folder_path := length (heap w)]> (_FOLDER_CACHE w) ∧
  length (heap w1) = S (length (heap w)) ∧
  folder_registry w folder_path = Some (heap w1 !!! length (heap w)).
Proof.
  intros Hc. unfold __init__, folder_registry. run. rewrite Hc. simpl.
  unfold os.path_exists, config_read, _save. run. simpl.
  set (reg_path := posixpath.join folder_path ".db").
  assert (∀ c, (<[length (heap w) := c]> (heap w ++ [configparser.new]))
                 !!! length (heap w) = c) as Hins.
  { intros c. apply list_lookup_total_insert_eq. rewrite length_app. simpl. lia. }
  assert ((heap w ++ [configparser.new]) !!! length (heap w) = configparser.new) as Hnew.
  { by rewrite lookup_total_app_r, Nat.sub_diag by lia. }
  destruct (os.stat (fs w) reg_path) as [[|[text|c]]|] eqn:Est; simpl.
  - rewrite ?Est. simpl.
    match goal with |- context [os.write_file ?p ?d ?w0] =>
      pose proof (write_file_heap p d w0) as [Hh Hk];
      destruct (os.write_file p d w0) as [[[]|e] w2] end; [|done].
    simpl in *. intros [= <- <-]. simpl. rewrite Hh, Hk. simpl.
    rewrite length_app. simpl. rewrite Hnew. split_and!; [done..|lia|done].
  - rewrite ?Est. simpl.
    case_bool_decide; simpl; [|done].
    match goal with |- context [os.write_file ?p ?d ?w0] =>
      pose proof (write_file_heap p d w0) as [Hh Hk];
      destruct (os.write_file p d w0) as [[[]|e] w2] end; [|done].
    simpl in *. intros [= <- <-]. simpl. rewrite Hh, Hk. simpl.
    rewrite length_app. simpl. rewrite Hnew. split_and!; [done..|lia|done].
  - rewrite ?Est. simpl.
    match goal with |- context [os.write_file ?p ?d ?w0] =>
      pose proof (write_file_heap p d w0) as [Hh Hk];
      destruct (os.write_file p d w0) as [[[]|e] w2] end; [|done].
    simpl in *. intros [= <- <-]. simpl. rewrite Hh, Hk. simpl.
    rewrite length_insert, length_app. simpl. rewrite Hins.
    split_and!; [done..|lia|done].
  - rewrite ?Est. simpl.
    match goal with |- context [os.write_file ?p ?d ?w0] =>
      pose proof (write_file_heap p d w0) as [Hh Hk];
      destruct (os.write_file p d w0) as [[[]|e] w2] end; [|done].
    simpl in *. intros [= <- <-]. simpl. rewrite Hh, Hk. simpl.
    rewrite length_app. simpl. rewrite Hnew. split_and!; [done..|lia|done].
Qed.


Lemma __init___cached folder_path w self w1 :
  cache_valid w →
  __init__ folder_path w = (Ok self, w1) →
  _path self = folder_path ∧
  _FOLDER_CACHE w1 !! folder_path = Some (_config self) ∧
  _config self < length (heap w1).
Proof.
  intros Hv H. destruct (_FOLDER_CACHE w !! folder_path) as [r|] eqn:Ec.
  - rewrite (__init___hit _ r) in H by done. injection H as <- <-.
    split_and!; [done.. |]. by apply (Hv folder_path).
  - apply __init___miss in H as (-> & Hk & Hl & _); [|done]. simpl.
    rewrite Hk, Hl. split_and!; [done | apply lookup_insert_eq | lia].
Qed.

(** C9: once a folder object has been built for a path, the cache
    holds its registry object under that path through every later
    sequence of store operations; a later construction for the same path
    leaves the world as it is (nothing is read or written) and hands out
    the same registry object, so a property set through the first object
    is read through the second.  The first construction for a path takes
    the registry from the [.db] file. *)
Theorem C9_folder_cache folder_path w self1 w1 ops :
  cache_valid w →
  __init__ folder_path w = (Ok self1, w1) →
  let w2 := run_ops ops w1 in
  (_FOLDER_CACHE w !! folder_path = None →
   folder_registry w folder_path = Some (heap w1 !!! _config self1)) ∧
  _FOLDER_CACHE w2 !! folder_path = Some (_config self1) ∧
  ∃ self2,
    __init__ folder_path w2 = (Ok self2, w2) ∧
    _path self2 = folder_path ∧
    _config self2 = _config self1 ∧
    ∀ filename prop value,
      posixpath.basename filename ≠ "" →
      posixpath.basename filename ≠ "DEFAULT" →
      contains "%" value = false →
      let w3 := (_set_prop self1 filename prop value w2).2 in
      _get_prop self2 filename prop w3 = (Ok value, w3).
Proof.
  intros Hv H w2.
  destruct (__init___cached _ _ _ _ Hv H) as (Hp & Hc & Hr).
  destruct (world_le_run_ops ops w1) as [Hle Hlen]. fold w2 in Hle, Hlen.
  assert (_FOLDER_CACHE w2 !! folder_path = Some (_config self1)) as Hc2.
  { by eapply lookup_weaken. }
  split.
  { intros Hnone. by apply __init___miss in H as (-> & _ & _ & ?). }
  split; [done |].
  exists {| _path := folder_path; _config := _config self1 |}.
  split; [by apply __init___hit |]. split; [done |]. split; [done |].
  intros filename prop value H1 H2 Hvalue w3.
  assert (_config self1 < length (heap w2)) as Hr2 by lia.
  destruct (_set_prop_heap self1 filename prop value w2 Hr2 H1 H2 Hvalue)
    as [sectdict Hs]. fold w3 in Hs.
  unfold _get_prop. run. simpl.
  erewrite parser_get_plain; [done | done | apply Hs |].
  apply lookup_insert_eq.
Qed.

Lemma C9_folder_cache_witness :
  let w2 := run_ops [Op_delete Scenario.inbox Scenario.m1;
                     Op_rename Scenario.inbox "Archive";
                     Op__ensure_default_folders Scenario.folders] Scenario.opened in
  _FOLDER_CACHE w2 !! "/cfg/messages/Inbox" = Some 0 ∧
  ∃ self2,
    __init__ "/cfg/messages/Inbox" w2 = (Ok self2, w2) ∧
    _config self2 = 0 ∧
    get_msg_subject self2 "m7" (Scenario.after (set_msg_subject Scenario.inbox "m7" "Hi") w2)
      = (Ok "Hi", Scenario.after (set_msg_subject Scenario.inbox "m7" "Hi") w2).
Proof.
  intros w2.
  destruct (C9_folder_cache "/cfg/messages/Inbox" Scenario.start Scenario.inbox
              Scenario.opened
              [Op_delete Scenario.inbox Scenario.m1;
               Op_rename Scenario.inbox "Archive";
               Op__ensure_default_folders Scenario.folders])
    as (_ & Hc & self2 & Hinit & _ & Hcfg & Hget).
  - intros p r H. vm_compute in H. discriminate.
  - vm_compute. reflexivity.
  - split; [exact Hc |]. exists self2. split; [exact Hinit |]. split; [exact Hcfg |].
    apply (Hget "m7" "subject" "Hi"); [vm_compute; discriminate .. | reflexivity].
Defined.

End cache.

(** ** C4 and C8: creating folders *)


Section files.
Implicit Types (f : gmap (list string) node) (k : list string).

#[global] Instance fs_le_preorder : PreOrder fs_le.
Proof.
  split.
  - intros f k. by left.
  - intros f1 f2 f3 H12 H23 k.
    destruct (H23 k) as [E|[(Hk & Hn & Hd)|(Hk & Hn & c & Hc)]].
    + rewrite E. apply H12.
    + destruct (H12 k) as [E|[(_ & ? & E)|(? & _)]]; [|congruence..].
      right; left. split_and!; [done | congruence | done].
    + right; right. split; [done |]. split; [|by exists c].
      destruct (H12 k) as [E|[(? & _)|(_ & ? & _)]]; [congruence | done | done].
Qed.


Lemma fs_le_db_ok f f' : db_ok f → fs_le f f' → db_ok f'.
Proof.
  intros Hok Hle k n Hk Hn.
  destruct (Hle k) as [E|[(? & _)|(_ & _ & c & Hc)]]; [|done|].
  - rewrite E in Hn. by eapply Hok.
  - exists c. congruence.
Qed.

Lemma fs_le_dir f f' k :
  fs_le f f' → os.node_at f k = Some Dir → os.node_at f' k = Some Dir.
Proof.
  unfold os.node_at. intros Hle. case_bool_decide; [done |].
  destruct (Hle k) as [E|[(_ & ? & _)|(_ & ? & _)]]; congruence.
Qed.

Lemma fs_le_isdir f f' p :
  fs_le f f' → os.path_isdir f p = true → os.path_isdir f' p = true.
Proof.
  unfold os.path_isdir, os.stat. intros Hle H%bool_decide_eq_true.
  apply bool_decide_eq_true. case_bool_decide; [done |]. by eapply fs_le_dir.
Qed.


Lemma fs_le_free_or_dir f f' k :
  fs_le f f' → last k ≠ Some ".db" → free_or_dir f k → free_or_dir f' k.
Proof.
  unfold free_or_dir, os.node_at. intros Hle Hk. case_bool_decide; [done |].
  destruct (Hle k) as [E|[(_ & ? & E)|(? & _)]]; [by rewrite E | by right | done].
Qed.

Lemma fs_le_insert_db f k c :
  last k = Some ".db" → f !! k ≠ Some Dir → fs_le f (<[k := File (Ini c)]> f).
Proof.
  intros Hk Hn k'. destruct (decide (k = k')) as [<-|Hne].
  - right; right. split_and!; [done.. |]. exists c. apply lookup_insert_eq.
  - left. by apply lookup_insert_ne.
Qed.

Lemma fs_le_insert_dir f k :
  last k ≠ Some ".db" → f !! k = None → fs_le f (<[k := Dir]> f).
Proof.
  intros Hk Hn k'. destruct (decide (k = k')) as [<-|Hne].
  - right; left. split_and!; [done.. |]. apply lookup_insert_eq.
  - left. by apply lookup_insert_ne.
Qed.

Lemma isdir_inv f p :
  os.path_isdir f p = true → p ≠ "" ∧ os.node_at f (os.resolve p) = Some Dir.
Proof.
  unfold os.path_isdir, os.stat. intros H%bool_decide_eq_true.
  by case_bool_decide.
Qed.

Lemma isdir_intro f p :
  p ≠ "" → os.node_at f (os.resolve p) = Some Dir → os.path_isdir f p = true.
Proof.
  intros Hp H. unfold os.path_isdir, os.stat.
  apply bool_decide_eq_true. by rewrite bool_decide_eq_false_2.
Qed.

Lemma total_mono {A} (m : M A) w (Q Q' : A → World → Prop) :
  total m w Q → (∀ a w', Q a w' → Q' a w') → total m w Q'.
Proof. intros (a & w' & Hm & Hle & HQ) HQ'. exists a, w'. auto. Qed.

Lemma total_mono_le {A} (m : M A) w (Q Q' : A → World → Prop) :
  total m w Q → (∀ a w', fs_le (fs w) (fs w') → Q a w' → Q' a w') → total m w Q'.
Proof. intros (a & w' & Hm & Hle & HQ) HQ'. exists a, w'. auto. Qed.

Lemma total_bind {A B} (m : M A) (k : A → M B) w Q R :
  total m w Q →
  (∀ a w', fs_le (fs w) (fs w') → Q a w' → total (k a) w' R) →
  total (bind m k) w R.
Proof.
  intros (a & w1 & Hm & Hle & HQ) Hk.
  destruct (Hk a w1 Hle HQ) as (b & w2 & Hb & Hle2 & HR).
  exists b, w2. split; [by erewrite bind_ok | split; [by etrans | done]].
Qed.

Lemma total_ret {A} (a : A) w (Q : A → World → Prop) : Q a w → total (ret a) w Q.
Proof. intros H. exists a, w. split; [done |]. split; [reflexivity | done]. Qed.

Lemma total_bind_gets {A B} (g : World → A) (k : A → M B) w R :
  total (k (g w)) w R → total (bind (gets g) k) w R.
Proof. done. Qed.

Lemma total_bind_ret {A B} (a : A) (k : A → M B) w R :
  total (k a) w R → total (bind (ret a) k) w R.
Proof. done. Qed.

Lemma total_gets {A} (g : World → A) w (Q : A → World → Prop) :
  Q (g w) w → total (gets g) w Q.
Proof. intros H. exists (g w), w. split; [done |]. split; [reflexivity | done]. Qed.

End files.

Section opening.
Import MessageFolderInfo.

(** Opening a folder that is a directory, over readable registries,
    returns. *)
Lemma __init___total folder_path w :
  db_ok (fs w) →
  os.path_isdir (fs w) folder_path = true →
  total (__init__ folder_path) w (λ self _, _path self = folder_path).
Proof.
  intros Hok [Hp Hdir]%isdir_inv.
  destruct (_FOLDER_CACHE w !! folder_path) as [r|] eqn:Ec.
  { exists {| _path := folder_path; _config := r |}, w.
    split; [by apply __init___hit |]. split; [reflexivity | done]. }
  set (reg_path := posixpath.join folder_path ".db").
  set (k := os.resolve folder_path ++ [".db"]).
  assert (os.resolve reg_path = k) as Hk by (by apply resolve_join_entry).
  assert (reg_path ≠ "") as Hreg by (by apply join_nonempty).
  assert (last k = Some ".db") as Hlast by apply last_snoc.
  assert (k ≠ []) as Hne by (subst k; by destruct (os.resolve folder_path)).
  assert (os.parent_error (fs w) k = None) as Hpar.
  { unfold os.parent_error. subst k. rewrite removelast_last. by rewrite Hdir. }
  unfold total, __init__. run. rewrite Ec. simpl.
  unfold os.path_exists, config_read, _save, os.write_file, os.stat. run. simpl.
  fold reg_path. rewrite !(bool_decide_eq_false_2 (reg_path = "")) by done.
  rewrite Hk. unfold os.node_at. rewrite !(bool_decide_eq_false_2 (k = [])) by done.
  wsimpl.
  destruct (fs w !! k) as [n|] eqn:En.
  - destruct (Hok k n Hlast En) as [c ->].
    rewrite bool_decide_eq_true_2 by done.
    repeat (progress (rewrite ?En; wsimpl)).
    eexists _, _. split; [done |]. split; [|done]. wsimpl.
    apply fs_le_insert_db; [done | by rewrite En].
  - rewrite bool_decide_eq_false_2 by (by intros [? ?]).
    repeat (progress (rewrite ?En, ?Hpar; wsimpl)).
    eexists _, _. split; [done |]. split; [|done]. wsimpl.
    apply fs_le_insert_db; [done | by rewrite En].
Qed.

End opening.

Section listing.
Import MessageFolderInfo.
Implicit Types (f : gmap (list string) node) (k : list string).


Lemma resolve_pattern_dir path : os.resolve (pattern_dir path) = os.resolve path.
Proof. by apply split_path_join. Qed.

Lemma removelast_snoc_inv k k' n :
  last k' = Some n → removelast k' = k → k' = k ++ [n].
Proof.
  intros Hl <-. destruct k' as [|x k'] using rev_ind; [done |].
  rewrite last_snoc in Hl. injection Hl as ->. by rewrite removelast_last.
Qed.

Lemma listdir_elem f k n :
  os.node_at f k = Some Dir → is_Some (f !! (k ++ [n])) →
  glob.entry_name n = true → n ∈ glob.listdir f k.
Proof.
  intros Hd [x Hx] Hn. unfold glob.listdir. rewrite Hd.
  apply list_elem_of_omap. exists (k ++ [n], x). split.
  - by apply elem_of_map_to_list.
  - simpl. rewrite last_snoc, removelast_last.
    by rewrite bool_decide_eq_true_2, Hn.
Qed.

Lemma listdir_inv f k n :
  n ∈ glob.listdir f k →
  glob.entry_name n = true ∧ is_Some (f !! (k ++ [n])).
Proof.
  unfold glob.listdir. destruct (os.node_at f k) as [[|]|]; try by intros ?%elem_of_nil.
  intros ([k' x] & Hin & Hsome)%list_elem_of_omap. simpl in Hsome.
  apply elem_of_map_to_list in Hin.
  destruct (last k') as [m|] eqn:El; [|done].
  destruct (bool_decide (removelast k' = k)) eqn:Ek; [|done].
  destruct (glob.entry_name m) eqn:Em; [|done].
  injection Hsome as ->. apply bool_decide_eq_true in Ek.
  split; [done |]. rewrite <-(removelast_snoc_inv k k' n) by done. by exists x.
Qed.

Lemma glob_star_elem f path n :
  os.node_at f (os.resolve path) = Some Dir →
  is_Some (f !! (os.resolve path ++ [n])) →
  glob.entry_name n = true → startswith "." n = false →
  posixpath.join (pattern_dir path) n ∈ glob.glob_star f path.
Proof.
  intros Hd Hx Hn Hh. unfold glob.glob_star. fold (pattern_dir path).
  apply list_elem_of_fmap_2, list_elem_of_filter. split; [done |].
  rewrite resolve_pattern_dir. by apply listdir_elem.
Qed.

Lemma glob_star_inv f path e :
  e ∈ glob.glob_star f path →
  ∃ n, e = posixpath.join (pattern_dir path) n ∧
       glob.entry_name n = true ∧ startswith "." n = false ∧
       is_Some (f !! (os.resolve path ++ [n])).
Proof.
  unfold glob.glob_star. fold (pattern_dir path).
  intros (n & -> & [Hh Hin]%list_elem_of_filter)%list_elem_of_fmap.
  rewrite resolve_pattern_dir in Hin. apply listdir_inv in Hin as [Hn Hx].
  by exists n.
Qed.

Lemma entry_nosep n : glob.entry_name n = true → contains posixpath.sep n = false.
Proof. by intros (_ & ? & _)%entry_name_spec. Qed.

Lemma entry_path_facts d n :
  glob.entry_name n = true →
  let e := posixpath.join d n in
  posixpath.basename e = n ∧ os.resolve e = os.resolve d ++ [n] ∧
  e ≠ "" ∧ e ≠ "." ∧ e ≠ "..".
Proof.
  intros Hn e. pose proof (entry_nosep n Hn) as Hs.
  assert (posixpath.basename e = n) as Hb by (by apply basename_join).
  apply entry_name_spec in Hn as Hn'. destruct Hn' as (H1 & _ & H2 & H3).
  split; [done |]. split; [by apply resolve_join_entry |].
  split_and!; intros He; rewrite He in Hb; by subst n.
Qed.

Lemma subfolders_loop_total entries acc w :
  db_ok (fs w) →
  total (subfolders_loop entries acc) w (λ l w',
    (∀ i, i ∈ acc → i ∈ l) ∧
    (∀ e, e ∈ entries → e ≠ "." → e ≠ ".." →
          os.path_isdir (fs w) e = true → ∃ i, i ∈ l ∧ _path i = e) ∧
    (∀ i, i ∈ l → i ∈ acc ∨ _path i ∈ entries)).
Proof.
  revert acc w. induction entries as [|entry rest IH]; intros acc w Hok.
  { apply total_ret. split_and!; [done | | by left].
    by intros e ?%elem_of_nil. }
  simpl. case_bool_decide as Hdot.
  { eapply total_mono; [by apply IH |]. intros l w' (H1 & H2 & H3).
    split_and!; [done | |].
    - intros e [->|He]%elem_of_cons ???; [tauto | by apply H2].
    - intros i [?|?]%H3; [by left | right; by apply elem_of_cons; right]. }
  apply total_bind_gets.
  destruct (os.path_isdir (fs w) entry) eqn:Ed.
  - eapply total_bind; [by apply __init___total |]. simpl.
    intros i w1 Hle Hi.
    eapply total_mono; [apply IH; by eapply fs_le_db_ok |].
    intros l w' (H1 & H2 & H3). split_and!.
    + intros i' Hi'. apply H1, elem_of_app. by left.
    + intros e [->|He]%elem_of_cons Hd1 Hd2 Hdir.
      * exists i. split; [|done]. apply H1, elem_of_app. right. by apply list_elem_of_singleton.
      * apply H2; [done..|]. by eapply fs_le_isdir.
    + intros i' [[?|Hs%list_elem_of_singleton]%elem_of_app|?]%H3.
      * by left.
      * right. subst i'. rewrite Hi. by apply elem_of_cons; left.
      * right. by apply elem_of_cons; right.
  - eapply total_mono; [by apply IH |]. intros l w' (H1 & H2 & H3).
    split_and!; [done | |].
    + intros e [->|He]%elem_of_cons ???; [congruence | by apply H2].
    + intros i [?|?]%H3; [by left | right; by apply elem_of_cons; right].
Qed.

Lemma subfolders_total self w :
  db_ok (fs w) →
  total (subfolders self) w (λ l w',
    (∀ e, e ∈ glob.glob_star (fs w) (_path self) →
          os.path_isdir (fs w) e = true → ∃ i, i ∈ l ∧ _path i = e) ∧
    (∀ i, i ∈ l → _path i ∈ glob.glob_star (fs w) (_path self))).
Proof.
  intros Hok. unfold subfolders.
  apply total_bind_gets.
  eapply total_mono; [by apply subfolders_loop_total |].
  intros l w' (_ & H2 & H3). split.
  - intros e He Hd.
    destruct (glob_star_inv _ _ _ He) as (n & -> & Hn & _).
    destruct (entry_path_facts (pattern_dir (_path self)) n Hn) as (_ & _ & _ & ? & ?).
    apply H2; [|done..]. by rewrite merge_sort_Permutation.
  - intros i [Hi|Hi]%H3; [by apply elem_of_nil in Hi |].
    by rewrite merge_sort_Permutation in Hi.
Qed.

(** Looking up a subfolder that exists, by a plain visible name. *)
Lemma get_subfolder_total self name_ w :
  db_ok (fs w) →
  os.path_isdir (fs w) (_path self) = true →
  glob.entry_name name_ = true → startswith "." name_ = false →
  os.node_at (fs w) (os.resolve (_path self) ++ [name_]) = Some Dir →
  total (get_subfolder self name_) w (λ r w',
    ∃ i, r = Some i ∧ name i = name_ ∧ _path i ≠ "" ∧
         os.resolve (_path i) = os.resolve (_path self) ++ [name_]).
Proof.
  intros Hok [Hp Hd]%isdir_inv Hn Hh Hsub. unfold get_subfolder.
  eapply total_bind; [by apply subfolders_total |]. simpl.
  intros l w1 Hle [H1 H2]. apply total_ret.
  set (e := posixpath.join (pattern_dir (_path self)) name_).
  destruct (entry_path_facts (pattern_dir (_path self)) name_ Hn)
    as (Hb & Hr & Hne & _). fold e in Hb, Hr, Hne.
  rewrite resolve_pattern_dir in Hr.
  assert (e ∈ glob.glob_star (fs w) (_path self)) as He.
  { apply glob_star_elem; [done | | done..].
    unfold os.node_at in Hsub. case_bool_decide; [by destruct (os.resolve (_path self)) |].
    by rewrite Hsub. }
  destruct (H1 e He) as (i0 & Hi0 & Hpi0).
  { apply isdir_intro; [done |]. by rewrite Hr. }
  destruct (find (λ folder, bool_decide (name folder = name_)) l) as [i|] eqn:Ef.
  - apply find_some in Ef as [Hin Hname]. apply bool_decide_eq_true in Hname.
    apply list_elem_of_In, H2, glob_star_inv in Hin as (m & Hm & Hem & _).
    exists i. split; [done |]. split; [done |].
    destruct (entry_path_facts (pattern_dir (_path self)) m Hem) as (Hb' & Hr' & Hne' & _).
    rewrite <-Hm in Hb', Hr', Hne'. unfold name in Hname.
    rewrite Hname in Hb'. subst m.
    split; [done |]. by rewrite Hr', resolve_pattern_dir.
  - eapply find_none in Ef; [|by apply list_elem_of_In].
    apply bool_decide_eq_false in Ef. unfold name in Ef. by rewrite Hpi0 in Ef.
Qed.

Lemma mkdir_new p w :
  p ≠ "" → os.node_at (fs w) (os.resolve p) = None →
  os.node_at (fs w) (removelast (os.resolve p)) = Some Dir →
  os.mkdir p w = (Ok tt, set_fs (<[os.resolve p := Dir]> (fs w)) w).
Proof.
  intros Hp Hn Hd. unfold os.mkdir, os.parent_error.
  by rewrite bool_decide_eq_false_2, Hn, Hd.
Qed.

Lemma mkdir_exists p w :
  p ≠ "" → is_Some (os.node_at (fs w) (os.resolve p)) →
  os.mkdir p w = (Raise (OSError EEXIST), w).
Proof.
  intros Hp [n Hn]. unfold os.mkdir. by rewrite bool_decide_eq_false_2, Hn.
Qed.

(** Creating a subfolder with a plain name, where nothing or a
    directory is. *)
Lemma create_subfolder_total self name_ w :
  db_ok (fs w) →
  os.path_isdir (fs w) (_path self) = true →
  glob.entry_name name_ = true → name_ ≠ ".db" →
  free_or_dir (fs w) (os.resolve (_path self) ++ [name_]) →
  total (create_subfolder self name_) w (λ i w',
    _path i = posixpath.join (_path self) name_ ∧
    os.path_isdir (fs w') (_path i) = true).
Proof.
  intros Hok [Hp Hd]%isdir_inv Hn Hdb Hfree. unfold create_subfolder.
  set (path := posixpath.join (_path self) name_).
  destruct (entry_path_facts (_path self) name_ Hn) as (_ & Hr & Hne & _).
  fold path in Hr, Hne.
  assert (last (os.resolve path) ≠ Some ".db") as Hlast.
  { rewrite Hr, last_snoc. congruence. }
  assert (os.resolve path ≠ []) as Hnil.
  { rewrite Hr. by destruct (os.resolve (_path self)). }
  assert (∃ w1, try_except (os.mkdir path)
            (λ e, match e with
                  | OSError errno =>
                      if bool_decide (errno ≠ 17) then None else Some (ret tt)
                  | _ => None
                  end) w = (Ok tt, w1) ∧
          fs_le (fs w) (fs w1) ∧ os.path_isdir (fs w1) path = true)
    as (w1 & Hmk & Hle & Hdir).
  { unfold try_except. destruct Hfree as [Hnone|Hdir].
    - rewrite mkdir_new; [|done | by rewrite Hr | by rewrite Hr, removelast_last].
      eexists. split; [done |]. wsimpl. split.
      + apply fs_le_insert_dir; [done |]. unfold os.node_at in Hnone.
        rewrite <-Hr in Hnone. by rewrite bool_decide_eq_false_2 in Hnone.
      + apply isdir_intro; [done |]. unfold os.node_at.
        rewrite bool_decide_eq_false_2 by done. apply lookup_insert_eq.
    - rewrite mkdir_exists; [|done | by rewrite Hr, Hdir]. simpl.
      exists w. split; [done |]. split; [reflexivity |].
      apply isdir_intro; [done | by rewrite Hr]. }
  eapply (total_bind _ _ _ (λ _ w', os.path_isdir (fs w') path = true)).
  { exists tt, w1. split; [exact Hmk |]. split; [done |]. exact Hdir. }
  simpl. intros [] w2 Hle2 Hdir2.
  destruct (__init___total path w2) as (i & w3 & Hi & Hle3 & Hpi);
    [by eapply fs_le_db_ok | done |].
  exists i, w3. split; [done |]. split; [done |]. split; [done |].
  rewrite Hpi. by eapply fs_le_isdir.
Qed.

End listing.

Section creating.
Import MessageFolderInfo.
Implicit Types (f : gmap (list string) node) (k : list string).


Lemma exists_false_inv f p :
  p ≠ "" → os.path_exists f p = false → os.node_at f (os.resolve p) = None.
Proof.
  unfold os.path_exists, os.stat. intros Hp H%bool_decide_eq_false.
  rewrite bool_decide_eq_false_2 in H by done.
  destruct (os.node_at f (os.resolve p)); [|done]. by destruct H.
Qed.

Lemma free_or_dir_path_inv f d n :
  glob.entry_name n = true →
  free_or_dir_path f (posixpath.join d n) → free_or_dir f (os.resolve d ++ [n]).
Proof.
  intros Hn. destruct (entry_path_facts d n Hn) as (_ & Hr & Hne & _).
  intros [H|H].
  - left. rewrite <-Hr. by apply exists_false_inv.
  - right. rewrite <-Hr. by apply isdir_inv in H as [_ ?].
Qed.

Lemma total_try {A} (m : M A) handler w Q :
  total m w Q → total (try_except m handler) w Q.
Proof.
  intros (a & w' & Hm & Hle & HQ). exists a, w'.
  split; [|done]. unfold try_except. by rewrite Hm.
Qed.

(** [_create_folder] with a plain name: a folder directly under the
    root. *)
Lemma _create_folder_plain root name_ w :
  db_ok (fs w) →
  os.path_isdir (fs w) (_path root) = true →
  glob.entry_name name_ = true → name_ ≠ ".db" →
  free_or_dir (fs w) (os.resolve (_path root) ++ [name_]) →
  total (MessageFolders._create_folder root name_) w (λ r w',
    ∃ i, r = Some i ∧ _path i = posixpath.join (_path root) name_ ∧
         os.path_isdir (fs w') (_path i) = true).
Proof.
  intros Hok Hd Hn Hdb Hfree. unfold MessageFolders._create_folder.
  pose proof (entry_nosep name_ Hn) as Hs.
  rewrite split_nosep, basename_nosep by done. simpl.
  apply total_bind_ret. apply total_try.
  eapply total_bind; [by apply create_subfolder_total |]. simpl.
  intros i w1 Hle [Hi Hdi]. apply total_ret. by exists i.
Qed.

(** [_create_folder] with a name of two elements: a folder inside an
    existing folder of the root. *)
Lemma _create_folder_nested root d x w :
  db_ok (fs w) →
  os.path_isdir (fs w) (_path root) = true →
  glob.entry_name d = true → startswith "." d = false →
  glob.entry_name x = true → x ≠ ".db" →
  os.node_at (fs w) (os.resolve (_path root) ++ [d]) = Some Dir →
  free_or_dir (fs w) ((os.resolve (_path root) ++ [d]) ++ [x]) →
  total (MessageFolders._create_folder root (d +:+ String posixpath.sep x)) w
    (λ r w', ∃ i, r = Some i ∧ name i = x ∧
                  os.resolve (_path i) = (os.resolve (_path root) ++ [d]) ++ [x] ∧
                  os.path_isdir (fs w') (_path i) = true).
Proof.
  intros Hok Hd Hnd Hhd Hnx Hdb Hsub Hfree. unfold MessageFolders._create_folder.
  pose proof (entry_nosep d Hnd) as Hsd. pose proof (entry_nosep x Hnx) as Hsx.
  rewrite split_app_sep, !split_nosep, basename_app_sep by done. simpl.
  eapply total_bind.
  { eapply total_bind; [by apply get_subfolder_total |]. simpl.
    intros r w1 Hle (i & -> & Hname & Hne & Hr). apply total_ret.
    instantiate (1 := λ r w', ∃ i, r = Some i ∧ _path i ≠ "" ∧
      os.resolve (_path i) = os.resolve (_path root) ++ [d]). simpl. by exists i. }
  simpl. intros r w1 Hle (i & -> & Hne & Hr). apply total_try.
  assert (os.path_isdir (fs w1) (_path i) = true) as Hdi.
  { apply isdir_intro; [done |]. rewrite Hr. by eapply fs_le_dir. }
  eapply total_bind.
  { apply create_subfolder_total; [by eapply fs_le_db_ok | done.. |].
    rewrite Hr. eapply fs_le_free_or_dir; [done | | done].
    rewrite last_snoc. congruence. }
  simpl. intros j w2 Hle2 [Hj Hdj]. apply total_ret. exists j.
  split; [done |].
  destruct (entry_path_facts (_path i) x Hnx) as (Hb & Hrx & _).
  rewrite <-Hj in Hb, Hrx. split; [done |]. split; [by rewrite Hrx, Hr | done].
Qed.

(** C4 (amended): creating folder ["Drafts/X"] when ["Drafts"] exists
    but ["X"] does not returns the new folder [X], made inside
    [Drafts]; creating ["NewFolder"] directly under an existing root
    returns the new folder, and ["NewFolder"] then appears in
    [subfolders()] of the root.  (The root path has none of the magic
    characters of [glob], which is what [glob_star] models, and the registry
    files are readable.) *)
Theorem C4_create_folder root w :
  glob.has_magic (_path root) = false →
  db_ok (fs w) →
  os.path_isdir (fs w) (_path root) = true →
  (os.path_isdir (fs w) (posixpath.join (_path root) "Drafts") = true →
   os.path_exists (fs w)
     (posixpath.join (posixpath.join (_path root) "Drafts") "X") = false →
   ∃ info w',
     MessageFolders._create_folder root "Drafts/X" w = (Ok (Some info), w') ∧
     name info = "X" ∧
     os.path_isdir (fs w') (_path info) = true ∧
     os.path_isdir (fs w')
       (posixpath.join (posixpath.join (_path root) "Drafts") "X") = true) ∧
  (os.path_exists (fs w) (posixpath.join (_path root) "NewFolder") = false →
   ∃ info w' l w'',
     MessageFolders._create_folder root "NewFolder" w = (Ok (Some info), w') ∧
     name info = "NewFolder" ∧
     subfolders root w' = (Ok l, w'') ∧
     ∃ i, i ∈ l ∧ name i = "NewFolder").
Proof.
  intros _ Hok Hd. split.
  - intros Hdrafts Hx.
    assert (glob.entry_name "Drafts" = true) as Hnd by done.
    assert (glob.entry_name "X" = true) as Hnx by done.
    destruct (entry_path_facts (_path root) "Drafts" Hnd) as (_ & Hrd & _).
    destruct (entry_path_facts (posixpath.join (_path root) "Drafts") "X" Hnx)
      as (_ & Hrx & Hnex & _).
    simpl in Hrd, Hrx, Hnex. rewrite Hrd in Hrx.
    destruct (_create_folder_nested root "Drafts" "X" w)
      as (r & w' & Hrun & Hle & i & -> & Hname & Hr & Hdi); try done.
    + rewrite <-Hrd. by apply isdir_inv in Hdrafts as [_ ?].
    + left. rewrite <-Hrx. by apply exists_false_inv.
    + exists i, w'. split; [exact Hrun |]. split; [done |]. split; [done |].
      apply isdir_intro; [done |]. rewrite Hrx, <-Hr.
      by apply isdir_inv in Hdi as [_ ?].
  - intros Hnew.
    assert (glob.entry_name "NewFolder" = true) as Hn by done.
    destruct (entry_path_facts (_path root) "NewFolder" Hn) as (Hb & Hr & Hne & _).
    simpl in Hb, Hr, Hne.
    destruct (_create_folder_plain root "NewFolder" w)
      as (r & w' & Hrun & Hle & i & -> & Hi & Hdi); try done.
    { left. rewrite <-Hr. by apply exists_false_inv. }
    destruct (subfolders_total root w') as (l & w'' & Hsub & _ & Hl & _);
      [by eapply fs_le_db_ok |].
    exists i, w', l, w''. split; [exact Hrun |].
    split; [unfold name; by rewrite Hi |]. split; [exact Hsub |].
    set (e := posixpath.join (pattern_dir (_path root)) "NewFolder").
    destruct (entry_path_facts (pattern_dir (_path root)) "NewFolder" Hn)
      as (Hbe & Hre & Hnee & _). fold e in Hbe, Hre, Hnee.
    rewrite resolve_pattern_dir in Hre.
    assert (os.node_at (fs w') (os.resolve (_path root) ++ ["NewFolder"]) = Some Dir)
      as Hnode.
    { rewrite <-Hr, <-Hi. by apply isdir_inv in Hdi as [_ ?]. }
    destruct (Hl e) as (j & Hj & Hpj).
    + apply glob_star_elem; [| |done..].
      * eapply fs_le_dir; [done |]. by apply isdir_inv in Hd as [_ ?].
      * unfold os.node_at in Hnode.
        rewrite bool_decide_eq_false_2 in Hnode
          by (by destruct (os.resolve (_path root))).
        by rewrite Hnode.
    + apply isdir_intro; [done |]. by rewrite Hre.
    + exists j. split; [done |]. unfold name. by rewrite Hpj.
Qed.

Lemma db_ok_checked f : db_ok_check f = true → db_ok f.
Proof.
  intros H%bool_decide_eq_true k n Hk Hn. specialize (H k n Hn Hk).
  destruct n as [|[|c]]; try done. by exists c.
Qed.

Lemma C4_create_folder_witness :
  (∃ info w',
     MessageFolders._create_folder Scenario.root "Drafts/X" Scenario.root_opened
       = (Ok (Some info), w') ∧
     name info = "X" ∧
     os.path_isdir (fs w') "/cfg/messages/Drafts/X" = true) ∧
  (∃ info w' l w'',
     MessageFolders._create_folder Scenario.root "NewFolder" Scenario.root_opened
       = (Ok (Some info), w') ∧
     name info = "NewFolder" ∧
     subfolders Scenario.root w' = (Ok l, w'') ∧
     ∃ i, i ∈ l ∧ name i = "NewFolder").
Proof.
  destruct (C4_create_folder Scenario.root Scenario.root_opened) as [H1 H2].
  - reflexivity.
  - apply db_ok_checked. vm_compute. reflexivity.
  - vm_compute. reflexivity.
  - split.
    + destruct H1 as (info & w' & Hrun & Hname & _ & Hdir);
        [vm_compute; reflexivity .. |].
      exists info, w'. split; [exact Hrun |]. split; [exact Hname | exact Hdir].
    + apply H2. vm_compute. reflexivity.
Defined.

(** C4 as stated fails in its first half: with [Drafts] there and [X]
    not, creating ["Drafts/X"] does not raise [FolderError]; it returns
    the new folder. *)
Lemma C4_counterexample :
  os.path_isdir (fs Scenario.root_opened) "/cfg/messages/Drafts" = true ∧
  os.path_exists (fs Scenario.root_opened) "/cfg/messages/Drafts/X" = false ∧
  (MessageFolders._create_folder Scenario.root "Drafts/X" Scenario.root_opened).1
    = Ok (Some {| _path := "/cfg/messages/Drafts/X"; _config := 4 |}) ∧
  os.path_isdir
    (fs (MessageFolders._create_folder Scenario.root "Drafts/X" Scenario.root_opened).2)
    "/cfg/messages/Drafts/X" = true.
Proof. split_and!; vm_compute; reflexivity. Qed.

(** When the intermediate folder is missing the loop breaks on [None],
    and the call on it raises [AttributeError], which the handler for
    [OSError] lets through. *)
Example _create_folder_missing_intermediate :
  (MessageFolders._create_folder Scenario.root "Nowhere/X" Scenario.root_opened).1
    = Raise AttributeError.
Proof. vm_compute. reflexivity. Qed.

End creating.

Section defaults.
Import MessageFolderInfo.
Implicit Types (f : gmap (list string) node) (k : list string).

Lemma base_folder_name folder :
  folder ∈ BASE_FOLDERS → glob.entry_name folder = true ∧ folder ≠ ".db".
Proof.
  unfold BASE_FOLDERS, gettext.
  rewrite !elem_of_cons, elem_of_nil. intros [->|[->|[->|[->|[->|[]]]]]]; done.
Qed.

Lemma ensure_folder_total root folder w :
  db_ok (fs w) →
  os.path_isdir (fs w) (_path root) = true →
  glob.entry_name folder = true → folder ≠ ".db" →
  free_or_dir (fs w) (os.resolve (_path root) ++ [folder]) →
  total (MessageFolders.ensure_folder root folder) w (λ _ w',
    os.path_isdir (fs w') (posixpath.join (_path root) folder) = true).
Proof.
  intros Hok Hd Hn Hdb Hfree. unfold MessageFolders.ensure_folder.
  apply total_try.
  eapply total_bind; [by apply _create_folder_plain |]. simpl.
  intros r w1 Hle (i & -> & Hi & Hdi).
  eapply total_bind; [apply subfolders_total; by eapply fs_le_db_ok |]. simpl.
  intros l w2 Hle2 _. apply total_ret.
  rewrite <-Hi. by eapply fs_le_isdir.
Qed.

Lemma ensure_loop_total root folders w :
  db_ok (fs w) →
  os.path_isdir (fs w) (_path root) = true →
  (∀ folder, folder ∈ folders →
     glob.entry_name folder = true ∧ folder ≠ ".db" ∧
     free_or_dir (fs w) (os.resolve (_path root) ++ [folder])) →
  total (MessageFolders.ensure_loop root folders) w (λ _ w',
    ∀ folder, folder ∈ folders →
      os.path_isdir (fs w') (posixpath.join (_path root) folder) = true).
Proof.
  revert w. induction folders as [|folder rest IH]; intros w Hok Hd Hall; simpl.
  { apply total_ret. by intros folder ?%elem_of_nil. }
  destruct (Hall folder) as (Hn & Hdb & Hfree); [by apply elem_of_cons; left |].
  eapply total_bind; [by apply ensure_folder_total |]. simpl.
  intros [] w1 Hle Hdone.
  destruct (IH w1) as ([] & w2 & Hrun & Hle2 & Hrest).
  { by eapply fs_le_db_ok. }
  { by eapply fs_le_isdir. }
  { intros folder' Hin.
    destruct (Hall folder') as (Hn' & Hdb' & Hfree'); [by apply elem_of_cons; right |].
    split_and!; [done.. |].
    eapply fs_le_free_or_dir; [done | | done]. rewrite last_snoc. congruence. }
  exists tt, w2. split; [done |]. split; [done |].
  intros folder' [->|Hin]%elem_of_cons; [by eapply fs_le_isdir | by apply Hrest].
Qed.

(** The messages directory is there, or is made below an existing
    configuration directory. *)
Lemma _folders_path_total self w :
  let path := posixpath.join (MessageFolders.config_dir self) "messages" in
  os.path_isdir (fs w) path = true ∨
  (os.path_exists (fs w) path = false ∧
   os.path_isdir (fs w) (MessageFolders.config_dir self) = true) →
  total (MessageFolders._folders_path self) w (λ r w',
    r = path ∧ os.path_isdir (fs w') path = true).
Proof.
  intros path Hcase. unfold MessageFolders._folders_path. fold path.
  apply total_bind_gets.
  destruct Hcase as [Hd|[Hnone Hcfg]].
  { rewrite Hd. apply total_bind_ret, total_ret. done. }
  assert (glob.entry_name "messages" = true) as Hn by done.
  destruct (entry_path_facts (MessageFolders.config_dir self) "messages" Hn)
    as (_ & Hr & Hne & _). fold path in Hr, Hne.
  apply isdir_inv in Hcfg as [Hcne Hcdir].
  assert (os.path_isdir (fs w) path = false) as ->.
  { unfold os.path_isdir, os.path_exists in *.
    apply bool_decide_eq_false in Hnone. apply bool_decide_eq_false_2.
    intros E. apply Hnone. by rewrite E. }
  assert (os.makedirs path w = os.mkdir path w) as Hmk.
  { unfold os.makedirs.
    destruct (split_path_join (MessageFolders.config_dir self) "messages")
      as (Htail & Hhead & Hempty); [done |]. fold path in Htail, Hhead, Hempty.
    assert (∀ fuel, os.makedirs_rec fuel path w = os.mkdir path w) as Hrec; [|apply Hrec].
    intros fuel.
    assert (os.makedirs_rec fuel path =
              let '(head, tail) := posixpath.split_path path in
              let '(head, tail) :=
                if bool_decide (tail = "") then posixpath.split_path head
                else (head, tail) in
              ex <- gets (λ w, os.path_exists (fs w) head);;
              if negb (bool_decide (head = "")) && negb (bool_decide (tail = ""))
                 && negb ex
              then
                match fuel with
                | 0 => os.mkdir path
                | S fuel' =>
                    try_except (os.makedirs_rec fuel' head)
                      (λ e, if bool_decide (e = OSError EEXIST)
                            then Some (ret tt) else None);;
                    if bool_decide (tail = ".") then ret tt else os.mkdir path
                end
              else os.mkdir path) as -> by (by destruct fuel).
    destruct (posixpath.split_path path) as [head tail]. simpl in *. subst tail.
    simpl. run.
    assert (os.path_exists (fs w) head = true) as ->.
    { unfold os.path_exists, os.stat. apply bool_decide_eq_true.
      rewrite bool_decide_eq_false_2 by (intros E; by apply Hempty in E).
      by rewrite Hhead, Hcdir. }
    by rewrite andb_false_r. }
  assert (os.mkdir path w = (Ok tt, set_fs (<[os.resolve path := Dir]> (fs w)) w)) as Hrun.
  { apply mkdir_new; [done | by apply exists_false_inv |].
    by rewrite Hr, removelast_last. }
  assert (os.resolve path ≠ []) as Hnil.
  { rewrite Hr. by destruct (os.resolve (MessageFolders.config_dir self)). }
  eapply (total_bind _ _ _ (λ _ w', os.path_isdir (fs w') path = true)).
  - eexists _, _. split; [rewrite Hmk; exact Hrun |]. wsimpl. split.
    + apply fs_le_insert_dir; [rewrite Hr, last_snoc; congruence |].
      apply exists_false_inv in Hnone; [|done].
      unfold os.node_at in Hnone. by rewrite bool_decide_eq_false_2 in Hnone.
    + apply isdir_intro; [done |]. unfold os.node_at.
      rewrite bool_decide_eq_false_2 by done. apply lookup_insert_eq.
  - simpl. intros [] w1 _ Hd1. by apply total_ret.
Qed.

Lemma _ensure_default_folders_total self w :
  let root := posixpath.join (MessageFolders.config_dir self) "messages" in
  db_ok (fs w) →
  os.path_isdir (fs w) root = true ∨
  (os.path_exists (fs w) root = false ∧
   os.path_isdir (fs w) (MessageFolders.config_dir self) = true) →
  (∀ folder, folder ∈ BASE_FOLDERS →
     free_or_dir_path (fs w) (posixpath.join root folder)) →
  total (MessageFolders._ensure_default_folders self) w (λ _ w',
    os.path_isdir (fs w') root = true ∧
    ∀ folder, folder ∈ BASE_FOLDERS →
      os.path_isdir (fs w') (posixpath.join root folder) = true).
Proof.
  intros root Hok Hcase Hfree. unfold MessageFolders._ensure_default_folders.
  eapply total_bind; [by apply _folders_path_total |]. cbv beta.
  intros r w1 Hle1 [-> Hd1]. fold root in Hd1 |- *.
  eapply total_bind; [apply __init___total; [by eapply fs_le_db_ok | done] |]. cbv beta.
  intros i w2 Hle2 Hi.
  assert (fs_le (fs w) (fs w2)) as Hle by (by etrans).
  eapply total_mono_le.
  - apply ensure_loop_total; [by eapply fs_le_db_ok | | ].
    + rewrite Hi. by apply (fs_le_isdir (fs w1)).
    + intros folder Hin. destruct (base_folder_name folder Hin) as [Hn Hdb].
      split_and!; [done.. |]. rewrite Hi.
      eapply fs_le_free_or_dir; [exact Hle | rewrite last_snoc; congruence |].
      apply free_or_dir_path_inv; [done |]. by apply Hfree.
  - cbv beta. intros [] w3 Hle3. rewrite Hi. intros Hdone. split; [|done].
    apply (fs_le_isdir (fs w1)); [by etrans | done].
Qed.

(** C8: the store part of the construction of the message-folders UI
    is [_ensure_default_folders].  Over readable registry files, with the
    messages root present (or its parent, the configuration directory)
    and each of the five default names free or already a directory, it
    returns, and afterwards Inbox, Outbox, Sent, Trash and Drafts are
    directories under the messages root; running it again in the world
    it left returns as well, without raising, and the five are still
    directories.  (The root path has none of the magic characters of
    [glob], which is what [glob_star] models.) *)
Theorem C8_default_folders self w :
  let root := posixpath.join (MessageFolders.config_dir self) "messages" in
  glob.has_magic root = false →
  db_ok (fs w) →
  os.path_isdir (fs w) root = true ∨
  (os.path_exists (fs w) root = false ∧
   os.path_isdir (fs w) (MessageFolders.config_dir self) = true) →
  (∀ folder, folder ∈ BASE_FOLDERS →
     free_or_dir_path (fs w) (posixpath.join root folder)) →
  ∃ w' w'',
    MessageFolders._ensure_default_folders self w = (Ok tt, w') ∧
    (∀ folder, folder ∈ BASE_FOLDERS →
       os.path_isdir (fs w') (posixpath.join root folder) = true) ∧
    MessageFolders._ensure_default_folders self w' = (Ok tt, w'') ∧
    (∀ folder, folder ∈ BASE_FOLDERS →
       os.path_isdir (fs w'') (posixpath.join root folder) = true).
Proof.
  intros root _ Hok Hcase Hfree.
  destruct (_ensure_default_folders_total self w Hok Hcase Hfree)
    as ([] & w' & Hrun & Hle & Hroot & Hdirs).
  destruct (_ensure_default_folders_total self w') as ([] & w'' & Hrun' & _ & _ & Hdirs').
  - by eapply fs_le_db_ok.
  - by left.
  - intros folder Hin. right. by apply Hdirs.
  - by exists w', w''.
Qed.

Lemma C8_default_folders_witness :
  ∃ w' w'',
    MessageFolders._ensure_default_folders Scenario.folders Scenario.fresh = (Ok tt, w') ∧
    (∀ folder, folder ∈ BASE_FOLDERS →
       os.path_isdir (fs w') (posixpath.join "/cfg/messages" folder) = true) ∧
    MessageFolders._ensure_default_folders Scenario.folders w' = (Ok tt, w'') ∧
    (∀ folder, folder ∈ BASE_FOLDERS →
       os.path_isdir (fs w'') (posixpath.join "/cfg/messages" folder) = true).
Proof.
  apply (C8_default_folders Scenario.folders Scenario.fresh).
  - reflexivity.
  - apply db_ok_checked. vm_compute. reflexivity.
  - right. split; vm_compute; reflexivity.
  - intros folder Hin. left. revert Hin. unfold BASE_FOLDERS, gettext.
    rewrite !elem_of_cons, elem_of_nil.
    intros [->|[->|[->|[->|[->|[]]]]]]; vm_compute; reflexivity.
Defined.

(** A regular file in the place of a default folder is swallowed as a
    [FolderError]: nothing is raised, and [Inbox] is not a directory. *)
Example default_folder_taken_by_file :
  let w := set_fs (<[ ["cfg"; "messages"; "Inbox"] := File (Form "") ]>
                     (fs Scenario.start)) Scenario.start in
  (MessageFolders._ensure_default_folders Scenario.folders w).1 = Ok tt ∧
  os.path_isdir (fs (MessageFolders._ensure_default_folders Scenario.folders w).2)
    "/cfg/messages/Inbox" = false.
Proof. split; vm_compute; reflexivity. Qed.

End defaults.

(** * Further properties *)

(** ** Message ids *)

Section ids.
Implicit Types (a b s : string) (c : ascii).

Lemma append_inj_l a s1 s2 : a +:+ s1 = a +:+ s2 → s1 = s2.
Proof. induction a as [|x a IH]; sapp; [done | intros [=]; auto]. Qed.

Lemma of_pos_no_dot p rest :
  contains "." (HexString.Raw.of_pos p rest) = contains "." rest.
Proof.
  revert p rest. fix IH 1. intros p rest.
  do 4 try destruct p as [p|p|]; try reflexivity; cbn; rewrite IH; reflexivity.
Qed.

Lemma of_pos_no_minus p rest :
  startswith "-" rest = false → startswith "-" (HexString.Raw.of_pos p rest) = false.
Proof.
  revert p rest. fix IH 1. intros p rest Hrest.
  do 4 try destruct p as [p|p|]; try reflexivity; cbn; apply IH; reflexivity.
Qed.

Lemma format_x_no_dot z : contains "." (format_x z) = false.
Proof. destruct z as [|p|p]; simpl; [done | by rewrite of_pos_no_dot..]. Qed.

Lemma format_x_inj z1 z2 : format_x z1 = format_x z2 → z1 = z2.
Proof.
  assert (∀ p, HexString.Raw.to_N (HexString.Raw.of_pos p "") 0 = N.pos p) as Hto.
  { intros p. by rewrite HexString.Raw.to_N_of_pos. }
  assert (∀ p, startswith "-" (HexString.Raw.of_pos p "") = false) as Hminus.
  { intros p. by apply of_pos_no_minus. }
  destruct z1 as [|p|p], z2 as [|q|q]; simpl; intros E; try done;
    try (apply (f_equal (startswith "-")) in E; simpl in E;
         rewrite ?Hminus in E; done);
    try injection E as E;
    apply (f_equal (λ s, HexString.Raw.to_N s 0)) in E;
    rewrite ?Hto in E; vm_compute in E; congruence.
Qed.

(** X1: two message ids of one station are equal only when they were made
    in the same second with the same random number: [mkmsgid] is injective
    in the clock and in the number drawn. *)
Theorem X1_mkmsgid_injective callsign now1 r_num1 now2 r_num2 :
  mkmsgid callsign now1 r_num1 = mkmsgid callsign now2 r_num2 →
  now1 = now2 ∧ r_num1 = r_num2.
Proof.
  unfold mkmsgid. intros E. apply append_inj_l in E.
  sapp_in E. injection E as E.
  apply (f_equal (split ".")) in E.
  rewrite !split_app_sep in E.
  rewrite !split_nosep in E by apply format_x_no_dot.
  simpl in E. injection E as E1 E2.
  apply format_x_inj in E1, E2. split; [lia | done].
Qed.

Lemma X1_mkmsgid_injective_witness :
  (1700000000 = 1700000000 ∧ 42 = 42)%Z.
Proof. apply (X1_mkmsgid_injective "K1ABC" 1700000000 42 1700000000 42). reflexivity. Defined.

End ids.

(** ** Dragging messages: the text that is handed over *)

Section dragging.
Import MessageList.
Implicit Types (a b s : string) (c : ascii) (r : row).

Lemma string_take_drop n s : string_take n s +:+ string_drop n s = s.
Proof.
  revert s. induction n as [|n IH]; intros [|x s]; simpl; try done.
  rewrite append_cons. by rewrite IH.
Qed.

Lemma contains_take c n s : contains c s = false → contains c (string_take n s) = false.
Proof.
  intros H. rewrite <- (string_take_drop n s), contains_app in H.
  by apply orb_false_iff in H as [? _].
Qed.

Lemma contains_rstrip c d s : contains c s = false → contains c (rstrip d s) = false.
Proof.
  intros H. destruct (rstrip_decomp d s) as (t & Hs & _).
  rewrite Hs, contains_app in H. by apply orb_false_iff in H as [? _].
Qed.

Lemma contains_dirname c p : contains c p = false → contains c (posixpath.dirname p) = false.
Proof.
  intros H. unfold posixpath.dirname.
  destruct (_ && _); [apply contains_rstrip|]; by apply contains_take.
Qed.

Lemma split_str_join c (l : list string) :
  l ≠ [] → Forall (λ x, contains c x = false) l → split c (str_join c l) = l.
Proof.
  intros Hne Hall. induction Hall as [|x l Hx Hl IH]; [done |].
  destruct l as [|y l]; [by apply split_nosep |].
  change (str_join c (x :: y :: l)) with (x +:+ String c (str_join c (y :: l))).
  rewrite split_app_sep, split_nosep by done. simpl. f_equal. by apply IH.
Qed.

Lemma format_row_free r : row_free "001" r → contains "001" (format_row r) = false.
Proof.
  intros (Hf & Hs & Ht & Hse & Hr). unfold format_row.
  repeat (rewrite contains_app; cbn [contains]).
  rewrite Hf, Hs, Ht, Hse, Hr. by destruct (ML_COL_READ r).
Qed.

(** X2: the text built by [_dragged_from] for rows whose texts hold no
    character of code 1 splits on that character, as [_dragged_to] does
    it, into the folder of the first row followed by one record for each
    row, in the order of the rows. *)
Theorem X2_drag_text_split rows data :
  Forall (row_free "001") rows →
  _dragged_from rows = Some data →
  ∃ first,
    head rows = Some first ∧
    hd "" (split "001" data) = posixpath.dirname (ML_COL_FILE first) ∧
    tail (split "001" data) = format_row <$> rows.
Proof.
  intros Hfree Hdata. destruct rows as [|first rest]; [done |].
  exists first. split; [done |].
  assert (data = str_join "001"
            (posixpath.dirname (ML_COL_FILE first) :: (format_row <$> first :: rest)))
    as -> by (unfold _dragged_from in Hdata; congruence).
  rewrite split_str_join; [done.. |].
  constructor.
  - apply contains_dirname. by apply Forall_inv in Hfree as (? & _).
  - apply Forall_fmap. eapply Forall_impl; [exact Hfree |].
    intros r. apply format_row_free.
Qed.

Lemma X2_drag_text_split_witness :
  ∃ first,
    head [ {| ML_COL_FILE := "/cfg/messages/Inbox/m1"; ML_COL_SUBJ := "Hello";
              ML_COL_TYPE := "note"; ML_COL_READ := true;
              ML_COL_SEND := "K1ABC"; ML_COL_RECP := "W2XYZ" |} ] = Some first ∧
    hd "" (split "001"
             ("/cfg/messages/Inbox" +:+ String "001"
                (format_row {| ML_COL_FILE := "/cfg/messages/Inbox/m1"; ML_COL_SUBJ := "Hello";
                               ML_COL_TYPE := "note"; ML_COL_READ := true;
                               ML_COL_SEND := "K1ABC"; ML_COL_RECP := "W2XYZ" |})))
      = posixpath.dirname (ML_COL_FILE first) ∧
    tail (split "001"
             ("/cfg/messages/Inbox" +:+ String "001"
                (format_row {| ML_COL_FILE := "/cfg/messages/Inbox/m1"; ML_COL_SUBJ := "Hello";
                               ML_COL_TYPE := "note"; ML_COL_READ := true;
                               ML_COL_SEND := "K1ABC"; ML_COL_RECP := "W2XYZ" |})))
      = format_row <$> [ {| ML_COL_FILE := "/cfg/messages/Inbox/m1"; ML_COL_SUBJ := "Hello";
              ML_COL_TYPE := "note"; ML_COL_READ := true;
              ML_COL_SEND := "K1ABC"; ML_COL_RECP := "W2XYZ" |} ].
Proof.
  apply (X2_drag_text_split
           [ {| ML_COL_FILE := "/cfg/messages/Inbox/m1"; ML_COL_SUBJ := "Hello";
                ML_COL_TYPE := "note"; ML_COL_READ := true;
                ML_COL_SEND := "K1ABC"; ML_COL_RECP := "W2XYZ" |} ]).
  - repeat constructor.
  - reflexivity.
Defined.

Lemma split_length_app c a b :
  length (split c (a +:+ String c b)) = length (split c a) + length (split c b).
Proof. by rewrite split_app_sep, length_app. Qed.

Lemma split_length_pos c s : 1 ≤ length (split c s).
Proof. pose proof (split_nonempty c s). destruct (split c s); simpl; [done | lia]. Qed.

Lemma split_length_contains c s : contains c s = true → 2 ≤ length (split c s).
Proof.
  induction s as [|x s IH]; [done |]. simpl. case_bool_decide as Hx; simpl.
  - intros _. pose proof (split_length_pos c s). lia.
  - intros H%IH. destruct (split c s); simpl in *; lia.
Qed.

(** X3: a record, as [_dragged_from] formats it for a row, is unpacked by
    [_dragged_to] into the six fields of the row when none of the five
    texts holds a NUL character, with the read flag recovered by the
    comparison with ["True"]; when one of them holds a NUL, unpacking
    raises [ValueError]. *)
Theorem X3_drag_record r :
  (row_free "000" r →
   MessageFolders.unpack_record (format_row r)
     = Ok (ML_COL_FILE r, ML_COL_SUBJ r, ML_COL_TYPE r,
           MessageFolderInfo.str_bool (ML_COL_READ r), ML_COL_SEND r, ML_COL_RECP r) ∧
   bool_decide (MessageFolderInfo.str_bool (ML_COL_READ r) = "True") = ML_COL_READ r) ∧
  (¬ row_free "000" r →
   MessageFolders.unpack_record (format_row r) = Raise ValueError).
Proof.
  split.
  - intros (Hf & Hs & Ht & Hse & Hr). split; [|by destruct (ML_COL_READ r)].
    unfold MessageFolders.unpack_record, format_row.
    rewrite !split_app_sep.
    rewrite !split_nosep by (done || by destruct (ML_COL_READ r)). done.
  - intros Hnot. unfold MessageFolders.unpack_record.
    assert (7 ≤ length (split "000" (format_row r))) as Hlen.
    { unfold format_row. rewrite !split_length_app.
      pose proof (split_length_pos "000" (ML_COL_FILE r)).
      pose proof (split_length_pos "000" (ML_COL_SUBJ r)).
      pose proof (split_length_pos "000" (ML_COL_TYPE r)).
      pose proof (split_length_pos "000" (MessageFolderInfo.str_bool (ML_COL_READ r))).
      pose proof (split_length_pos "000" (ML_COL_SEND r)).
      pose proof (split_length_pos "000" (ML_COL_RECP r)).
      destruct (contains "000" (ML_COL_FILE r)) eqn:Ef;
        [apply split_length_contains in Ef; lia |].
      destruct (contains "000" (ML_COL_SUBJ r)) eqn:Es;
        [apply split_length_contains in Es; lia |].
      destruct (contains "000" (ML_COL_TYPE r)) eqn:Et;
        [apply split_length_contains in Et; lia |].
      destruct (contains "000" (ML_COL_SEND r)) eqn:Ese;
        [apply split_length_contains in Ese; lia |].
      destruct (contains "000" (ML_COL_RECP r)) eqn:Er;
        [apply split_length_contains in Er; lia |].
      by destruct Hnot. }
    destruct (split "000" (format_row r)) as [|? [|? [|? [|? [|? [|? [|? ?]]]]]]];
      simpl in Hlen; try lia; done.
Qed.

Lemma X3_drag_record_witness :
  MessageFolders.unpack_record
    (format_row {| ML_COL_FILE := "/cfg/messages/Inbox/m1"; ML_COL_SUBJ := "Hello";
                   ML_COL_TYPE := "note"; ML_COL_READ := true;
                   ML_COL_SEND := "K1ABC"; ML_COL_RECP := "W2XYZ" |})
    = Ok ("/cfg/messages/Inbox/m1", "Hello", "note", "True", "K1ABC", "W2XYZ") ∧
  MessageFolders.unpack_record
    (format_row {| ML_COL_FILE := "/cfg/messages/Inbox/m1";
                   ML_COL_SUBJ := String "H" (String "000" "i");
                   ML_COL_TYPE := "note"; ML_COL_READ := true;
                   ML_COL_SEND := "K1ABC"; ML_COL_RECP := "W2XYZ" |})
    = Raise ValueError.
Proof.
  split.
  - apply (X3_drag_record
             {| ML_COL_FILE := "/cfg/messages/Inbox/m1"; ML_COL_SUBJ := "Hello";
                ML_COL_TYPE := "note"; ML_COL_READ := true;
                ML_COL_SEND := "K1ABC"; ML_COL_RECP := "W2XYZ" |}).
    repeat split.
  - apply (X3_drag_record
             {| ML_COL_FILE := "/cfg/messages/Inbox/m1";
                ML_COL_SUBJ := String "H" (String "000" "i");
                ML_COL_TYPE := "note"; ML_COL_READ := true;
                ML_COL_SEND := "K1ABC"; ML_COL_RECP := "W2XYZ" |}).
    intros (_ & Hs & _). discriminate Hs.
Defined.

End dragging.

(** ** The registry: what a set changes and what it leaves *)

Section registry.
Import MessageFolderInfo.

Lemma cache_valid_checked w : cache_valid_check w = true → cache_valid w.
Proof. intros H%bool_decide_eq_true p r Hp. by apply (H p r). Qed.

#[global] Instance agree_off_preorder section : PreOrder (agree_off section).
Proof.
  split.
  - by intros c.
  - intros c1 c2 c3 [Hd1 Hs1] [Hd2 Hs2]. split; [congruence |].
    intros s Hs. by rewrite Hs1, Hs2.
Qed.

Lemma heap_insert_agree (h : list ConfigParser) r c section r' :
  agree_off section c (h !!! r) → agree_off section (<[r := c]> h !!! r') (h !!! r').
Proof.
  intros Hc. destruct (decide (r = r')) as [<-|Hne].
  - destruct (decide (r < length h)) as [Hlt|Hge].
    + by rewrite list_lookup_total_insert_eq.
    + by rewrite list_insert_ge by lia.
  - by rewrite list_lookup_total_insert_ne.
Qed.

Lemma parser_get_agree section c1 c0 s option :
  agree_off section c1 c0 → s ≠ section →
  configparser.get c1 s option = configparser.get c0 s option.
Proof.
  intros [Hd Hs] Hne. unfold configparser.get, configparser.unify_values.
  by rewrite Hs, Hd.
Qed.

Lemma _save_heap self w : heap (_save self w).2 = heap w.
Proof.
  unfold _save. run.
  apply (write_file_heap (posixpath.join (_path self) ".db")
           (Ini (heap w !!! _config self)) w).
Qed.

(** What a set does to the registries in memory, whatever comes of it. *)
Lemma _set_prop_agree self filename prop value w r' :
  posixpath.basename filename ≠ "" →
  posixpath.basename filename ≠ configparser.default_section →
  agree_off (posixpath.basename filename)
    (heap (_set_prop self filename prop value w).2 !!! r') (heap w !!! r').
Proof.
  intros Hne Hdef. unfold _set_prop. set (section := posixpath.basename filename).
  set (r := _config self). run. fold r.
  assert (∀ h c, agree_off section c (h !!! r) →
            agree_off section
              (heap (match configparser.set c section prop value with
                     | Ok c' => _save self (set_heap (<[r := c']> h) w)
                     | Raise e => (Raise e, set_heap h w)
                     end).2 !!! r') (h !!! r')) as Hset.
  { intros h c Hc. unfold configparser.set.
    destruct (if bool_decide (value = "") then _ else _) as [v|e]; [|done].
    rewrite (bool_decide_eq_false_2 (section = "")) by done.
    rewrite (bool_decide_eq_false_2 (section = _)) by done. simpl.
    destruct (_sections c !! section) as [sd|] eqn:E; [|done].
    rewrite _save_heap. wsimpl.
    apply heap_insert_agree. etrans; [|exact Hc]. split; [done |].
    intros s Hs. simpl. by rewrite lookup_insert_ne. }
  destruct (configparser.has_section (heap w !!! r) section) eqn:Hhas.
  - wsimpl. specialize (Hset (heap w) (heap w !!! r)).
    destruct (configparser.set _ _ _ _); by apply Hset.
  - unfold configparser.add_section.
    rewrite (bool_decide_eq_false_2 (section = _)) by done. rewrite Hhas. wsimpl.
    set (c1 := {| _sections := <[section := ∅]> (_sections (heap w !!! r));
                  _defaults := _defaults (heap w !!! r) |}).
    assert (agree_off section c1 (heap w !!! r)) as Hc1.
    { split; [done |]. intros s Hs. simpl. by rewrite lookup_insert_ne. }
    specialize (Hset (<[r := c1]> (heap w)) (<[r := c1]> (heap w) !!! r)).
    etrans; [|by apply (heap_insert_agree (heap w) r c1 section r')].
    specialize (Hset ltac:(done)).
    destruct (configparser.set _ _ _ _) as [c2|e]; exact Hset.
Qed.

(** X4: setting a property of one message changes no property that a
    getter reads for a message with another basename, through any folder
    object, whether the set returns or raises; the basename of the file
    that is set is neither empty nor ["DEFAULT"]. *)
Theorem X4_set_prop_frame self filename prop value other g prop' w :
  posixpath.basename filename ≠ "" →
  posixpath.basename filename ≠ "DEFAULT" →
  posixpath.basename g ≠ posixpath.basename filename →
  (_get_prop other g prop' (_set_prop self filename prop value w).2).1
  = (_get_prop other g prop' w).1.
Proof.
  intros Hne Hdef Hg.
  pose proof (_set_prop_agree self filename prop value w (_config other) Hne Hdef) as Hag.
  unfold _get_prop. run.
  rewrite (parser_get_agree _ _ _ _ prop' Hag Hg).
  by destruct (configparser.get _ _ _) as [v|[]].
Qed.

Lemma X4_set_prop_frame_witness :
  (get_msg_subject Scenario.inbox "m1"
     (set_msg_subject Scenario.inbox "/cfg/messages/Inbox/m2" "Other" Scenario.registered).2).1
  = (get_msg_subject Scenario.inbox "m1" Scenario.registered).1.
Proof.
  apply (X4_set_prop_frame Scenario.inbox "/cfg/messages/Inbox/m2" "subject" "Other"
           Scenario.inbox "m1" "subject" Scenario.registered); vm_compute; congruence.
Defined.

Lemma db_key (path : string) :
  posixpath.join path ".db" ≠ "" ∧
  os.resolve (posixpath.join path ".db") = os.resolve path ++ [".db"].
Proof. split; [by apply join_nonempty | by apply resolve_join_entry]. Qed.

Lemma isdir_false_inv f p :
  p ≠ "" → os.path_isdir f p = false → os.node_at f (os.resolve p) ≠ Some Dir.
Proof.
  intros Hp H. unfold os.path_isdir, os.stat in H.
  rewrite (bool_decide_eq_false_2 (p = "")) in H by done.
  by apply bool_decide_eq_false in H.
Qed.

Lemma node_at_snoc f k n : os.node_at f (k ++ [n]) = f !! (k ++ [n]).
Proof. unfold os.node_at. rewrite bool_decide_eq_false_2; [done | by destruct k]. Qed.

(** Saving the registry of a folder that is a directory, with no
    directory in the place of its registry file. *)
Lemma _save_ok self w :
  os.path_isdir (fs w) (_path self) = true →
  os.path_isdir (fs w) (posixpath.join (_path self) ".db") = false →
  _save self w
  = (Ok tt, set_fs (<[os.resolve (_path self) ++ [".db"] :=
                        File (Ini (heap w !!! _config self))]> (fs w)) w).
Proof.
  intros Hd Hdb. destruct (db_key (_path self)) as [Hne Hk].
  apply isdir_inv in Hd as [_ Hd]. apply isdir_false_inv in Hdb; [|done].
  unfold _save. run. unfold os.write_file.
  rewrite bool_decide_eq_false_2 by done. rewrite Hk in Hdb |- *.
  destruct (os.node_at (fs w) (os.resolve (_path self) ++ [".db"]))
    as [[|data]|] eqn:E; [done.. |].
  unfold os.parent_error. by rewrite removelast_last, Hd.
Qed.

Lemma _set_prop_ok self filename prop value w :
  let section := posixpath.basename filename in
  let c' := with_prop (heap w !!! _config self) section prop value in
  _config self < length (heap w) →
  section ≠ "" → section ≠ configparser.default_section →
  contains "%" value = false →
  os.path_isdir (fs w) (_path self) = true →
  os.path_isdir (fs w) (posixpath.join (_path self) ".db") = false →
  _set_prop self filename prop value w
  = (Ok tt, set_fs (<[os.resolve (_path self) ++ [".db"] := File (Ini c')]> (fs w))
              (set_heap (<[_config self := c']> (heap w)) w)).
Proof.
  intros section c' Hr H1 H2 Hv Hd Hdb. unfold _set_prop. fold section. run.
  set (c := heap w !!! _config self) in *.
  unfold configparser.has_section, configparser.add_section.
  rewrite (bool_decide_eq_false_2 (section = _)) by done.
  unfold configparser.has_section.
  destruct (_sections c !! section) as [sectdict|] eqn:E.
  - rewrite bool_decide_eq_true_2 by done. fold c.
    rewrite (parser_set_plain c section prop value sectdict) by done.
    rewrite _save_ok by done. wsimpl.
    rewrite list_lookup_total_insert_eq by done.
    unfold c', with_prop. by rewrite E.
  - rewrite bool_decide_eq_false_2 by (by intros [? ?]). simpl.
    rewrite list_lookup_total_insert_eq by done.
    erewrite parser_set_plain; [|done..|by apply lookup_insert_eq].
    rewrite _save_ok by done. wsimpl.
    rewrite list_insert_insert_eq.
    rewrite list_lookup_total_insert_eq by done.
    unfold c', with_prop. rewrite E. simpl. by rewrite insert_insert_eq.
Qed.

(** After a set, the folder is still a directory with a registry file. *)
Lemma set_db_dir f path data :
  os.path_isdir f path = true →
  let f' := <[os.resolve path ++ [".db"] := File data]> f in
  os.path_isdir f' path = true ∧
  os.path_isdir f' (posixpath.join path ".db") = false ∧
  os.stat f' (posixpath.join path ".db") = Some (File data).
Proof.
  intros Hd f'. destruct (db_key path) as [Hne Hk].
  apply isdir_inv in Hd as [Hp Hd].
  assert (os.stat f' (posixpath.join path ".db") = Some (File data)) as Hst.
  { unfold os.stat. rewrite bool_decide_eq_false_2 by done.
    rewrite Hk, node_at_snoc. apply lookup_insert_eq. }
  split_and!; [| |done].
  - apply isdir_intro; [done |]. unfold os.node_at in *.
    case_bool_decide; [done |]. unfold f'. rewrite lookup_insert_ne; [done |].
    intros E. apply (f_equal length) in E. rewrite length_app in E. simpl in E. lia.
  - unfold os.path_isdir. rewrite Hst. by apply bool_decide_eq_false.
Qed.

Lemma with_prop_lookup c section prop value :
  ∃ sd, _sections (with_prop c section prop value) !! section = Some sd ∧
        sd !! configparser.optionxform prop = Some value.
Proof. eexists. split; [apply lookup_insert_eq | apply lookup_insert_eq]. Qed.

Lemma with_prop_lookup_ne c section prop value s :
  s ≠ section → _sections (with_prop c section prop value) !! s = _sections c !! s.
Proof. intros Hs. simpl. by rewrite lookup_insert_ne. Qed.

Lemma mrk_loop_total self sel read w :
  let info := MessagesTab.current_info self in
  _config info < length (heap w) →
  os.path_isdir (fs w) (_path info) = true →
  os.path_isdir (fs w) (posixpath.join (_path info) ".db") = false →
  Forall (λ f, posixpath.basename f ≠ "" ∧ posixpath.basename f ≠ "DEFAULT") sel →
  ∃ w', MessagesTab.mrk_loop self sel read w = (Ok tt, w') ∧
        length (heap w') = length (heap w) ∧
        (∀ s sd, _sections (heap w !!! _config info) !! s = Some sd →
                 sd !! "read" = Some (str_bool read) →
                 ∃ sd', _sections (heap w' !!! _config info) !! s = Some sd' ∧
                        sd' !! "read" = Some (str_bool read)) ∧
        (∀ f, f ∈ sel →
              ∃ sd', _sections (heap w' !!! _config info) !! posixpath.basename f = Some sd' ∧
                     sd' !! "read" = Some (str_bool read)).
Proof.
  intros info Hr Hd Hdb Hsel. revert w Hr Hd Hdb.
  induction Hsel as [|f rest [Hf1 Hf2] _ IH]; intros w Hr Hd Hdb.
  { exists w. split_and!; [done | done | by eauto | by intros ? ?%elem_of_nil]. }
  simpl. fold info. unfold set_msg_read.
  pose proof (_set_prop_ok info f "read" (str_bool read) w Hr Hf1 Hf2
                ltac:(by destruct read) Hd Hdb) as Hset.
  cbv zeta in Hset.
  set (c' := with_prop (heap w !!! _config info) (posixpath.basename f) "read"
               (str_bool read)) in *.
  set (w1 := set_fs _ _) in Hset.
  destruct (set_db_dir (fs w) (_path info) (Ini c') Hd) as (Hd1 & Hdb1 & Hst1).
  assert (heap w1 !!! _config info = c') as Hc1.
  { unfold w1. wsimpl. by rewrite list_lookup_total_insert_eq. }
  destruct (IH w1) as (w' & Hrun & Hlen & Hkeep & Hall).
  { unfold w1. wsimpl. by rewrite length_insert. }
  { done. }
  { done. }
  exists w'. split_and!.
  - by rewrite (bind_ok _ _ _ _ _ Hset).
  - rewrite Hlen. unfold w1. wsimpl. by rewrite length_insert.
  - intros s sd Hs Hread. apply Hkeep with (sd := if decide (s = posixpath.basename f)
        then <["read" := str_bool read]> (default ∅ (_sections (heap w !!! _config info) !! s))
        else sd).
    + rewrite Hc1. destruct (decide _) as [->|Hne].
      * apply lookup_insert_eq.
      * unfold c'. by rewrite with_prop_lookup_ne.
    + destruct (decide _); [apply lookup_insert_eq | done].
  - intros g [->|Hin]%elem_of_cons; [|by apply Hall].
    destruct (with_prop_lookup (heap w !!! _config info) (posixpath.basename f)
                "read" (str_bool read)) as (sd & Hs & Hread).
    apply (Hkeep _ sd); by rewrite ?Hc1.
Qed.

(** X5: marking the selected messages read or unread, in a folder that is
    a directory with no directory in the place of its registry file and
    for file names whose basename is neither empty nor ["DEFAULT"],
    returns; what [_mrk_msg] does is then the refresh of the list, and
    in the world that the refresh starts in [get_msg_read] gives the new
    flag for every selected message. *)
Theorem X5_mrk_msg refresh self sel read w :
  let info := MessagesTab.current_info self in
  _config info < length (heap w) →
  os.path_isdir (fs w) (_path info) = true →
  os.path_isdir (fs w) (posixpath.join (_path info) ".db") = false →
  Forall (λ f, posixpath.basename f ≠ "" ∧ posixpath.basename f ≠ "DEFAULT") sel →
  ∃ w', MessagesTab.mrk_loop self sel read w = (Ok tt, w') ∧
        MessagesTab._mrk_msg refresh self (Some sel) read w = refresh w' ∧
        (∀ f, f ∈ sel → get_msg_read info f w' = (Ok read, w')).
Proof.
  intros info Hr Hd Hdb Hsel.
  destruct (mrk_loop_total self sel read w Hr Hd Hdb Hsel)
    as (w' & Hrun & _ & _ & Hall).
  exists w'. split_and!; [done | |].
  - unfold MessagesTab._mrk_msg. by rewrite (bind_ok _ _ _ _ _ Hrun).
  - intros f Hin. destruct (Hall f Hin) as (sd & Hs & Hread).
    unfold get_msg_read, _get_prop. run. fold info.
    rewrite (parser_get_plain _ _ "read" (str_bool read) sd);
      [| by destruct read | done | done].
    by destruct read.
Qed.

Lemma X5_mrk_msg_witness :
  ∃ w',
    MessagesTab.mrk_loop
      {| MessagesTab._folders := Scenario.folders;
         MessagesTab._messages := Scenario.message_list;
         MessagesTab.current_info := Scenario.inbox |}
      ["/cfg/messages/Inbox/m1"; "/cfg/messages/Inbox/m2"] true Scenario.registered
      = (Ok tt, w') ∧
    MessagesTab._mrk_msg (ret tt)
      {| MessagesTab._folders := Scenario.folders;
         MessagesTab._messages := Scenario.message_list;
         MessagesTab.current_info := Scenario.inbox |}
      (Some ["/cfg/messages/Inbox/m1"; "/cfg/messages/Inbox/m2"]) true Scenario.registered
      = ret tt w' ∧
    (∀ f, f ∈ ["/cfg/messages/Inbox/m1"; "/cfg/messages/Inbox/m2"] →
          get_msg_read Scenario.inbox f w' = (Ok true, w')).
Proof.
  apply (X5_mrk_msg (ret tt)
           {| MessagesTab._folders := Scenario.folders;
              MessagesTab._messages := Scenario.message_list;
              MessagesTab.current_info := Scenario.inbox |}
           ["/cfg/messages/Inbox/m1"; "/cfg/messages/Inbox/m2"] true Scenario.registered).
  - vm_compute. lia.
  - vm_compute. reflexivity.
  - vm_compute. reflexivity.
  - repeat constructor; vm_compute; congruence.
Defined.

End registry.

Section registry_edges.
Import MessageFolderInfo.

(** X6: a set for a file name with an empty basename (a name that ends in
    the separator) goes to the defaults of the registry: afterwards the
    getter returns the value for every message that has a section
    without this property. *)
Theorem X6_empty_basename_default self filename prop value g sd w :
  posixpath.basename filename = "" →
  contains "%" value = false →
  _config self < length (heap w) →
  posixpath.basename g ≠ "" →
  _sections (heap w !!! _config self) !! posixpath.basename g = Some sd →
  sd !! configparser.optionxform prop = None →
  let w' := (_set_prop self filename prop value w).2 in
  _get_prop self g prop w' = (Ok value, w').
Proof.
  intros Hempty Hv Hr Hg Hsd Hprop w'.
  assert (∃ c', heap w' !!! _config self = c' ∧
                _sections c' !! posixpath.basename g = Some sd ∧
                _defaults c' !! configparser.optionxform prop = Some value)
    as (c' & Hc' & Hs' & Hd').
  { unfold w', _set_prop. rewrite Hempty. run.
    set (c := heap w !!! _config self) in *.
    assert (∀ h c0, _config self < length h →
              _sections c0 !! posixpath.basename g = Some sd →
              ∃ c', heap (match configparser.set c0 "" prop value with
                          | Ok c' => _save self (set_heap (<[_config self := c']> h) w)
                          | Raise e => (Raise e, set_heap h w)
                          end).2 !!! _config self = c' ∧
                    _sections c' !! posixpath.basename g = Some sd ∧
                    _defaults c' !! configparser.optionxform prop = Some value) as Hset.
    { intros h c0 Hh Hc0. unfold configparser.set.
      rewrite before_set_plain by done.
      replace (if bool_decide (value = "") then Ok value else Ok value)
        with (@Ok string value) by (by destruct (bool_decide _)).
      simpl. rewrite _save_heap. wsimpl.
      rewrite list_lookup_total_insert_eq by done.
      eexists. split; [done |]. split; [done | apply lookup_insert_eq]. }
    destruct (configparser.has_section c "") eqn:Hhas.
    - wsimpl. destruct (Hset (heap w) c Hr Hsd) as (c' & H1 & H2 & H3).
      exists c'. split; [|done]. rewrite <- H1.
      subst c. by destruct (configparser.set _ "" prop value).
    - unfold configparser.add_section. rewrite Hhas. simpl. wsimpl.
      rewrite list_lookup_total_insert_eq by done.
      set (c1 := {| _sections := <["" := ∅]> (_sections c); _defaults := _defaults c |}).
      destruct (Hset (<[_config self := c1]> (heap w)) c1) as (c' & H1 & H2 & H3).
      { by rewrite length_insert. }
      { simpl. by rewrite lookup_insert_ne. }
      exists c'. split; [|done]. rewrite <- H1.
      subst c1 c. by destruct (configparser.set _ "" prop value). }
  unfold _get_prop. run. rewrite Hc'.
  unfold configparser.get, configparser.unify_values. rewrite Hs'.
  assert ((sd ∪ _defaults c') !! configparser.optionxform prop = Some value) as ->.
  { apply lookup_union_Some_raw. right. done. }
  unfold configparser.before_get, configparser.MAX_INTERPOLATION_DEPTH.
  by rewrite interpolate_plain.
Qed.

Lemma X6_empty_basename_default_witness :
  let w' := (set_msg_subject Scenario.inbox "/cfg/messages/Inbox/" "Lost"
               (Scenario.after (create_msg Scenario.inbox "m2") Scenario.opened)).2 in
  get_msg_subject Scenario.inbox "/cfg/messages/Inbox/m2" w' = (Ok "Lost", w').
Proof.
  apply (X6_empty_basename_default Scenario.inbox "/cfg/messages/Inbox/" "subject" "Lost"
           "/cfg/messages/Inbox/m2" ∅
           (Scenario.after (create_msg Scenario.inbox "m2") Scenario.opened)).
  - reflexivity.
  - reflexivity.
  - vm_compute. lia.
  - vm_compute. congruence.
  - vm_compute. reflexivity.
  - reflexivity.
Defined.

(** X7: deleting a message whose file is not in the folder raises
    [OSError] with [ENOENT] and leaves the files as they are, but the
    section of the message is already gone from the registry in
    memory. *)
Theorem X7_delete_missing_file self filename w :
  let section := posixpath.basename filename in
  os.path_exists (fs w) (posixpath.join (_path self) section) = false →
  ∃ w',
    delete self filename w = (Raise (OSError ENOENT), w') ∧
    fs w' = fs w ∧
    _FOLDER_CACHE w' = _FOLDER_CACHE w ∧
    heap w' = <[_config self :=
                  configparser.remove_section (heap w !!! _config self) section]> (heap w) ∧
    (_config self < length (heap w) →
     configparser.has_section (heap w' !!! _config self) section = false).
Proof.
  intros section Hex. unfold delete. fold section. run. unfold os.remove. wsimpl.
  unfold os.path_exists in Hex. apply bool_decide_eq_false in Hex.
  destruct (os.stat (fs w) _) as [n|] eqn:E; [by destruct Hex |].
  eexists. split; [done |]. wsimpl. split_and!; [done.. |].
  intros Hr. rewrite list_lookup_total_insert_eq by done.
  unfold configparser.has_section, configparser.remove_section. simpl.
  apply bool_decide_eq_false. rewrite lookup_delete_eq. by intros [? ?].
Qed.

Lemma X7_delete_missing_file_witness :
  os.path_exists (fs Scenario.lost) "/cfg/messages/Inbox/m1" = false ∧
  configparser.has_section (heap Scenario.lost !!! 0) "m1" = true ∧
  ∃ w',
    delete Scenario.inbox "/cfg/messages/Inbox/m1" Scenario.lost
      = (Raise (OSError ENOENT), w') ∧
    fs w' = fs Scenario.lost ∧
    _FOLDER_CACHE w' = _FOLDER_CACHE Scenario.lost ∧
    heap w' = <[0 := configparser.remove_section (heap Scenario.lost !!! 0) "m1"]>
                (heap Scenario.lost) ∧
    configparser.has_section (heap w' !!! 0) "m1" = false.
Proof.
  split; [vm_compute; reflexivity |]. split; [vm_compute; reflexivity |].
  destruct (X7_delete_missing_file Scenario.inbox "/cfg/messages/Inbox/m1" Scenario.lost)
    as (w' & Hrun & Hfs & Hcache & Hheap & Hgone).
  { vm_compute. reflexivity. }
  exists w'. split; [exact Hrun |]. split; [exact Hfs |]. split; [exact Hcache |].
  split; [exact Hheap |]. apply Hgone. vm_compute. lia.
Defined.



Lemma stat_delete_ne (f : gmap (list string) node) k p :
  os.resolve p ≠ k → os.stat (base.delete k f) p = os.stat f p.
Proof.
  intros Hne. unfold os.stat, os.node_at.
  repeat case_bool_decide; try done. by rewrite lookup_delete_ne.
Qed.

Lemma isfile_inv (f : gmap (list string) node) p :
  os.path_isfile f p = true →
  p ≠ "" ∧ os.resolve p ≠ [] ∧ ∃ data, f !! os.resolve p = Some (File data).
Proof.
  unfold os.path_isfile, os.stat, os.node_at. intros H.
  repeat case_bool_decide; try done.
  destruct (f !! os.resolve p) as [[|data]|]; try done. eauto.
Qed.

Lemma delete_ok self filename w :
  let section := posixpath.basename filename in
  let p := posixpath.join (_path self) section in
  os.path_isfile (fs w) p = true →
  delete self filename w
  = (Ok tt, set_fs (base.delete (os.resolve p) (fs w))
              (set_heap (<[_config self :=
                             configparser.remove_section (heap w !!! _config self) section]>
                           (heap w)) w)).
Proof.
  intros section p Hfile. unfold delete. fold section p. run. unfold os.remove. wsimpl.
  unfold os.path_isfile in Hfile.
  by destruct (os.stat (fs w) p) as [[|data]|].
Qed.

(** X8: deleting by file name, as the form editor asks for it, removes
    the file when it is a regular file and goes on to the refresh of the
    list whatever [os.remove] did: a missing file or a directory raises
    nothing.  No registry is touched, so the section of the message
    stays. *)
Theorem X8_del_msg_by_name refresh refresh_if_current self selected file_name w :
  file_name ≠ "" →
  ∃ w1,
    MessagesTab._del_msg refresh refresh_if_current self selected (Some file_name) w
      = refresh w1 ∧
    heap w1 = heap w ∧
    _FOLDER_CACHE w1 = _FOLDER_CACHE w ∧
    os.path_isfile (fs w1) file_name = false ∧
    (∀ k, k ≠ os.resolve file_name → fs w1 !! k = fs w !! k) ∧
    (os.path_isfile (fs w) file_name = false → w1 = w).
Proof.
  intros Hne. unfold MessagesTab._del_msg.
  rewrite bool_decide_eq_false_2 by done. run. unfold os.remove.
  destruct (os.stat (fs w) file_name) as [[|data]|] eqn:E; simpl.
  - exists w. split_and!; try done. unfold os.path_isfile. by rewrite E.
  - eexists. split; [done |]. wsimpl. split_and!; try done.
    + unfold os.path_isfile, os.stat, os.node_at in *.
      repeat case_bool_decide; try done. by rewrite lookup_delete_eq.
    + intros k Hk. by rewrite lookup_delete_ne.
    + unfold os.path_isfile. by rewrite E.
  - exists w. split_and!; try done. unfold os.path_isfile. by rewrite E.
Qed.

Lemma X8_del_msg_by_name_witness :
  ∃ w1,
    MessagesTab._del_msg (ret tt) no_refresh
      {| MessagesTab._folders := Scenario.folders;
         MessagesTab._messages := Scenario.message_list;
         MessagesTab.current_info := Scenario.inbox |}
      [] (Some "/cfg/messages/Inbox/m1") Scenario.registered = ret tt w1 ∧
    heap w1 = heap Scenario.registered ∧
    _FOLDER_CACHE w1 = _FOLDER_CACHE Scenario.registered ∧
    os.path_isfile (fs w1) "/cfg/messages/Inbox/m1" = false ∧
    (∀ k, k ≠ os.resolve "/cfg/messages/Inbox/m1" →
          fs w1 !! k = fs Scenario.registered !! k) ∧
    (os.path_isfile (fs Scenario.registered) "/cfg/messages/Inbox/m1" = false →
     w1 = Scenario.registered).
Proof.
  apply (X8_del_msg_by_name (ret tt) no_refresh
           {| MessagesTab._folders := Scenario.folders;
              MessagesTab._messages := Scenario.message_list;
              MessagesTab.current_info := Scenario.inbox |}
           [] "/cfg/messages/Inbox/m1" Scenario.registered).
  congruence.
Defined.

Lemma delete_selected_total info sel w :
  let key := λ f, os.resolve (posixpath.join (_path info) (posixpath.basename f)) in
  _config info < length (heap w) →
  NoDup (key <$> sel) →
  (∀ f, f ∈ sel →
        os.path_isfile (fs w) (posixpath.join (_path info) (posixpath.basename f)) = true) →
  ∃ w',
    MessageList.delete_selected_messages info sel w = (Ok tt, w') ∧
    length (heap w') = length (heap w) ∧
    _FOLDER_CACHE w' = _FOLDER_CACHE w ∧
    (∀ k, fs w' !! k = if bool_decide (k ∈ key <$> sel) then None else fs w !! k) ∧
    (∀ s, _sections (heap w' !!! _config info) !! s
          = if bool_decide (s ∈ posixpath.basename <$> sel)
            then None else _sections (heap w !!! _config info) !! s).
Proof.
  intros key Hr Hnd Hfiles. revert w Hr Hnd Hfiles.
  induction sel as [|f rest IH]; intros w Hr Hnd Hfiles.
  { exists w. split_and!; done. }
  rewrite fmap_cons in Hnd. apply NoDup_cons in Hnd as [Hf Hnd].
  assert (os.path_isfile (fs w)
            (posixpath.join (_path info) (posixpath.basename f)) = true) as Hfile
    by (apply Hfiles; left).
  change (MessageList.delete_selected_messages info (f :: rest))
    with (bind (delete info f) (λ _, MessageList.delete_selected_messages info rest)).
  rewrite (bind_ok _ _ _ _ _ (delete_ok info f w Hfile)).
  set (w1 := set_fs _ _).
  assert (heap w1 = <[_config info := configparser.remove_section
                        (heap w !!! _config info) (posixpath.basename f)]> (heap w))
    as Hh1 by done.
  assert (fs w1 = base.delete (key f) (fs w)) as Hf1 by done.
  destruct (IH w1) as (w' & Hrun & Hlen & Hcache & Hfs & Hsec); [| done | |].
  { by rewrite Hh1, length_insert. }
  { intros g Hg. specialize (Hfiles g ltac:(by right)).
    unfold os.path_isfile in *. rewrite Hf1, stat_delete_ne; [done |].
    intros E. apply Hf. rewrite <- E. apply (list_elem_of_fmap_2 key _ _ Hg). }
  exists w'. split_and!; [done | | done | |].
  - by rewrite Hlen, Hh1, length_insert.
  - intros k. rewrite Hfs, Hf1, fmap_cons.
    destruct (decide (k = key f)) as [->|Hne].
    + rewrite (bool_decide_eq_true_2 (_ ∈ _ :: _)) by left.
      rewrite lookup_delete_eq. by destruct (bool_decide _).
    + rewrite lookup_delete_ne by done.
      destruct (decide (k ∈ key <$> rest)) as [Hin|Hnin].
      * rewrite !bool_decide_eq_true_2; [done | by right | done].
      * rewrite !bool_decide_eq_false_2; [done | | done].
        by intros [?|?]%elem_of_cons.
  - intros s. rewrite Hsec, Hh1, fmap_cons.
    rewrite list_lookup_total_insert_eq by done. simpl.
    destruct (decide (s = posixpath.basename f)) as [->|Hne].
    + rewrite (bool_decide_eq_true_2 (_ ∈ _ :: _)) by left.
      rewrite lookup_delete_eq. by destruct (bool_decide _).
    + rewrite lookup_delete_ne by done.
      destruct (decide (s ∈ posixpath.basename <$> rest)) as [Hin|Hnin].
      * rewrite !bool_decide_eq_true_2; [done | by right | done].
      * rewrite !bool_decide_eq_false_2; [done | | done].
        by intros [?|?]%elem_of_cons.
Qed.

(** X9: deleting the selected messages of a folder, when each of them is
    a regular file of the folder and no two of them are the same file,
    returns; afterwards none of them exists or has a section in the
    registry in memory, every other file is as it was (the registry file
    among them, unless it was selected), and so is every other
    section. *)
Theorem X9_delete_selected_messages info sel w :
  let path_of := λ f, posixpath.join (_path info) (posixpath.basename f) in
  _config info < length (heap w) →
  NoDup (os.resolve ∘ path_of <$> sel) →
  (∀ f, f ∈ sel → os.path_isfile (fs w) (path_of f) = true) →
  ∃ w',
    MessageList.delete_selected_messages info sel w = (Ok tt, w') ∧
    (∀ f, f ∈ sel →
          os.path_exists (fs w') (path_of f) = false ∧
          configparser.has_section (heap w' !!! _config info)
            (posixpath.basename f) = false) ∧
    (∀ k, k ∉ os.resolve ∘ path_of <$> sel → fs w' !! k = fs w !! k) ∧
    (∀ s, s ∉ posixpath.basename <$> sel →
          _sections (heap w' !!! _config info) !! s
          = _sections (heap w !!! _config info) !! s).
Proof.
  intros path_of Hr Hnd Hfiles.
  destruct (delete_selected_total info sel w Hr Hnd Hfiles)
    as (w' & Hrun & _ & _ & Hfs & Hsec).
  exists w'. split_and!; [done | | |].
  - intros f Hin. split.
    + destruct (isfile_inv _ _ (Hfiles f Hin)) as (Hp & Hk & _).
      unfold os.path_exists, os.stat, os.node_at.
      rewrite (bool_decide_eq_false_2 (path_of f = "")) by done.
      rewrite (bool_decide_eq_false_2 (os.resolve (path_of f) = [])) by done.
      rewrite Hfs, (bool_decide_eq_true_2 (_ ∈ _)).
      * apply bool_decide_eq_false. by intros [? ?].
      * apply (list_elem_of_fmap_2 (os.resolve ∘ path_of) _ _ Hin).
    + unfold configparser.has_section. rewrite Hsec, (bool_decide_eq_true_2 (_ ∈ _)).
      * apply bool_decide_eq_false. by intros [? ?].
      * by apply list_elem_of_fmap_2.
  - intros k Hk. rewrite Hfs. by rewrite bool_decide_eq_false_2.
  - intros s Hs. rewrite Hsec. by rewrite bool_decide_eq_false_2.
Qed.

Lemma X9_delete_selected_messages_witness :
  ∃ w',
    MessageList.delete_selected_messages Scenario.inbox ["/cfg/messages/Inbox/m1"]
      Scenario.registered = (Ok tt, w') ∧
    (∀ f, f ∈ ["/cfg/messages/Inbox/m1"] →
          os.path_exists (fs w')
            (posixpath.join "/cfg/messages/Inbox" (posixpath.basename f)) = false ∧
          configparser.has_section (heap w' !!! 0) (posixpath.basename f) = false) ∧
    (∀ k, k ∉ [ ["cfg"; "messages"; "Inbox"; "m1"] ] →
          fs w' !! k = fs Scenario.registered !! k) ∧
    (∀ s, s ∉ ["m1"] →
          _sections (heap w' !!! 0) !! s = _sections (heap Scenario.registered !!! 0) !! s).
Proof.
  apply (X9_delete_selected_messages Scenario.inbox ["/cfg/messages/Inbox/m1"]
           Scenario.registered).
  - vm_compute. lia.
  - apply NoDup_singleton.
  - intros f ->%list_elem_of_singleton. vm_compute. reflexivity.
Defined.

End registry_edges.

(** ** Moving a message: the steps *)

Section steps.
Import MessageFolderInfo.
Implicit Types (f : gmap (list string) node) (k : list string).

Lemma _folders_path_dir self w :
  os.path_isdir (fs w) (posixpath.join (MessageFolders.config_dir self) "messages") = true →
  MessageFolders._folders_path self w
  = (Ok (posixpath.join (MessageFolders.config_dir self) "messages"), w).
Proof. intros Hd. unfold MessageFolders._folders_path. run. by rewrite Hd. Qed.

(** Opening a folder that is a directory with a readable registry: the
    object holds the registry, and of the files only the registry file
    can have changed. *)
Lemma __init___open folder_path c w :
  cache_valid w →
  os.path_isdir (fs w) folder_path = true →
  os.path_isdir (fs w) (posixpath.join folder_path ".db") = false →
  folder_registry w folder_path = Some c →
  ∃ self w',
    __init__ folder_path w = (Ok self, w') ∧
    _path self = folder_path ∧
    heap w' !!! _config self = c ∧
    _config self < length (heap w') ∧
    cache_valid w' ∧
    _FOLDER_CACHE w' = <[folder_path := _config self]> (_FOLDER_CACHE w) ∧
    length (heap w) ≤ length (heap w') ∧
    (∀ r, r < length (heap w) → heap w' !!! r = heap w !!! r) ∧
    (fs w' = fs w ∨
     (_FOLDER_CACHE w !! folder_path = None ∧
      fs w' = <[os.resolve folder_path ++ [".db"] := File (Ini c)]> (fs w))).
Proof.
  intros Hvalid Hd Hdb Hreg. unfold folder_registry in Hreg.
  destruct (_FOLDER_CACHE w !! folder_path) as [r|] eqn:Ec.
  { injection Hreg as <-. eexists _, w. rewrite (__init___hit _ r) by done.
    split_and!; try done.
    - by apply (Hvalid folder_path).
    - by rewrite insert_id.
    - by left. }
  destruct (db_key folder_path) as [Hne Hk].
  set (self := {| _path := folder_path; _config := length (heap w) |}).
  set (w0 := set_heap (heap w ++ [configparser.new]) w).
  assert (∃ w1, (if os.path_exists (fs w) (posixpath.join folder_path ".db")
                 then config_read (length (heap w)) (posixpath.join folder_path ".db")
                 else ret tt) w0 = (Ok tt, w1) ∧
                fs w1 = fs w ∧ _FOLDER_CACHE w1 = _FOLDER_CACHE w ∧
                heap w1 = heap w ++ [c]) as (w1 & Hread & Hfs1 & Hc1 & Hh1).
  { unfold os.path_exists, config_read. run. subst w0. wsimpl.
    assert (<[length (heap w) := c]> (heap w ++ [configparser.new]) = heap w ++ [c]) as Hins.
    { rewrite insert_app_r_alt by lia. by rewrite Nat.sub_diag. }
    destruct (os.stat (fs w) _) as [[|[text|c']]|] eqn:Est.
    - rewrite bool_decide_eq_true_2 by done. simpl. rewrite ?Est.
      injection Hreg as <-. by eexists.
    - rewrite bool_decide_eq_true_2 by done. simpl. rewrite ?Est.
      case_bool_decide; [|done]. injection Hreg as <-. by eexists.
    - rewrite bool_decide_eq_true_2 by done. simpl. rewrite ?Est.
      injection Hreg as <-.
      eexists. split; [done |]. wsimpl. by rewrite Hins.
    - rewrite bool_decide_eq_false_2 by (by intros [? ?]). simpl.
      injection Hreg as <-. by eexists. }
  assert (heap w1 !!! length (heap w) = c) as Hc.
  { rewrite Hh1. by rewrite lookup_total_app_r, Nat.sub_diag by lia. }
  pose proof (_save_ok self w1) as Hsave. rewrite Hfs1 in Hsave.
  specialize (Hsave Hd Hdb). simpl in Hsave. rewrite Hc in Hsave.
  set (w2 := set_fs _ w1) in Hsave.
  exists self, (set_cache (<[folder_path := length (heap w)]> (_FOLDER_CACHE w1)) w2).
  split.
  { unfold __init__.
    rewrite (bind_ok _ _ w None w) by (unfold gets; by rewrite Ec).
    rewrite (bind_ok _ _ w (length (heap w)) w0) by done. cbv beta zeta.
    rewrite (bind_ok _ _ w0 (os.path_exists (fs w) (posixpath.join folder_path ".db")) w0)
      by done. cbv beta.
    rewrite (bind_ok _ _ w0 tt w1 Hread).
    rewrite (bind_ok _ _ w1 tt w2 Hsave).
    done. }
  assert (heap w2 = heap w ++ [c]) as Hh2 by (by rewrite <- Hh1).
  wsimpl. rewrite Hh2, Hc1. change (_config self) with (length (heap w)).
  split_and!; try done.
  - by rewrite lookup_total_app_r, Nat.sub_diag by lia.
  - rewrite length_app. simpl. lia.
  - intros p r. wsimpl. rewrite length_app. simpl.
    intros [[<- <-]|[_ Hp]]%lookup_insert_Some.
    + lia.
    + apply Hvalid in Hp. lia.
  - rewrite length_app. lia.
  - intros r Hr. by rewrite lookup_total_app_l.
  - right. done.
Qed.

(** [create_msg] for a name that is not both registered and present. *)
Lemma create_msg_ok self name_ w :
  name_ ≠ configparser.default_section →
  configparser.has_section (heap w !!! _config self) name_ = false ∨
  os.path_exists (fs w) (posixpath.join (_path self) name_) = false →
  ∃ h',
    create_msg self name_ w = (Ok (posixpath.join (_path self) name_), set_heap h' w) ∧
    length h' = length (heap w) ∧
    (∀ r, r ≠ _config self → h' !!! r = heap w !!! r) ∧
    agree_off name_ (h' !!! _config self) (heap w !!! _config self) ∧
    (_config self < length (heap w) →
     _sections (h' !!! _config self) !! name_
     = Some (default ∅ (_sections (heap w !!! _config self) !! name_))).
Proof.
  intros Hdef Hcase. unfold create_msg. run. unfold configparser.add_section.
  rewrite (bool_decide_eq_false_2 (name_ = _)) by done.
  set (c := heap w !!! _config self) in *.
  destruct (configparser.has_section c name_) eqn:Hhas.
  - destruct Hcase as [|Hex]; [done |]. rewrite Hex. simpl.
    exists (heap w). split_and!; try done.
    + by destruct w.
    + intros _. unfold configparser.has_section in Hhas.
      apply bool_decide_eq_true in Hhas as [sd Hsd]. by rewrite Hsd.
  - simpl. eexists. split; [done |]. split_and!.
    + by rewrite length_insert.
    + intros r Hr. by rewrite list_lookup_total_insert_ne.
    + apply heap_insert_agree. split; [done |]. intros s Hs. simpl.
      by rewrite lookup_insert_ne.
    + intros Hr. rewrite list_lookup_total_insert_eq by done. simpl.
      rewrite lookup_insert_eq. unfold configparser.has_section in Hhas.
      apply bool_decide_eq_false in Hhas.
      destruct (_sections c !! name_) eqn:E; [by destruct Hhas |]. done.
Qed.

(** [shutil.copy] of a regular file onto a name that is no directory, in
    a directory. *)
Lemma copy_ok src dst data w :
  os.stat (fs w) src = Some (File data) →
  dst ≠ "" →
  os.path_isdir (fs w) dst = false →
  os.resolve src ≠ os.resolve dst →
  os.node_at (fs w) (removelast (os.resolve dst)) = Some Dir →
  shutil.copy src dst w
  = (Ok dst, set_fs (<[os.resolve dst := File data]> (fs w)) w).
Proof.
  intros Hsrc Hne Hnd Hdiff Hpar. unfold shutil.copy. run. rewrite Hnd, Hsrc.
  assert (os.write_file dst data w
          = (Ok tt, set_fs (<[os.resolve dst := File data]> (fs w)) w)) as Hw.
  { unfold os.write_file. rewrite bool_decide_eq_false_2 by done.
    apply isdir_false_inv in Hnd; [|done].
    destruct (os.node_at (fs w) (os.resolve dst)) as [[|d]|]; [done | done |].
    unfold os.parent_error. by rewrite Hpar. }
  destruct (os.stat (fs w) dst) as [n|].
  - rewrite bool_decide_eq_false_2 by done. simpl. by rewrite Hw.
  - simpl. by rewrite Hw.
Qed.

Lemma stat_insert_ne f k n p :
  os.resolve p ≠ k → os.stat (<[k := n]> f) p = os.stat f p.
Proof.
  intros Hne. unfold os.stat, os.node_at.
  repeat case_bool_decide; try done. by rewrite lookup_insert_ne.
Qed.

Lemma stat_insert_eq f n p :
  p ≠ "" → os.resolve p ≠ [] → os.stat (<[os.resolve p := n]> f) p = Some n.
Proof.
  intros Hp Hk. unfold os.stat, os.node_at.
  rewrite !bool_decide_eq_false_2 by done. apply lookup_insert_eq.
Qed.

Lemma stat_delete_eq f p : os.resolve p ≠ [] → os.stat (base.delete (os.resolve p) f) p = None.
Proof.
  intros Hk. unfold os.stat, os.node_at. case_bool_decide; [done |].
  rewrite bool_decide_eq_false_2 by done. apply lookup_delete_eq.
Qed.

Lemma entry_path d n :
  glob.entry_name n = true →
  posixpath.join d n ≠ "" ∧
  os.resolve (posixpath.join d n) = os.resolve d ++ [n] ∧
  os.resolve (posixpath.join d n) ≠ [].
Proof.
  intros Hn. pose proof (Hn' := Hn). apply entry_name_spec in Hn' as (Hne & _).
  split_and!; [by apply join_nonempty | by apply resolve_join_entry |].
  rewrite resolve_join_entry by done. by destruct (os.resolve d).
Qed.

(** The three steps that carry a message file from the folder of [src]
    into the folder of [dst]: [dst.create_msg], [shutil.copy] and
    [src.delete]. *)
Lemma transfer_ok dst src path data w :
  let section := posixpath.basename path in
  let newfn := posixpath.join (_path dst) section in
  glob.entry_name section = true →
  section ≠ configparser.default_section →
  os.path_isdir (fs w) (_path dst) = true →
  configparser.has_section (heap w !!! _config dst) section = false ∨
  os.path_exists (fs w) newfn = false →
  os.path_isdir (fs w) newfn = false →
  os.stat (fs w) path = Some (File data) →
  os.resolve path = os.resolve (posixpath.join (_path src) section) →
  os.resolve path ≠ os.resolve newfn →
  ∃ w1 w2 w',
    create_msg dst section w = (Ok newfn, w1) ∧
    shutil.copy path newfn w1 = (Ok newfn, w2) ∧
    delete src path w2 = (Ok tt, w') ∧
    fs w' = base.delete (os.resolve path) (<[os.resolve newfn := File data]> (fs w)) ∧
    _FOLDER_CACHE w' = _FOLDER_CACHE w ∧
    length (heap w') = length (heap w) ∧
    (∀ r, agree_off section (heap w' !!! r) (heap w !!! r)) ∧
    (∀ r, r ≠ _config dst → r ≠ _config src → heap w' !!! r = heap w !!! r) ∧
    (_config src < length (heap w) →
     configparser.has_section (heap w' !!! _config src) section = false) ∧
    (_config dst < length (heap w) → _config dst ≠ _config src →
     _sections (heap w' !!! _config dst) !! section
     = Some (default ∅ (_sections (heap w !!! _config dst) !! section))).
Proof.
  intros section newfn Hn Hdef Hd Hcase Hnd Hsrc Hkey Hdiff.
  destruct (entry_path (_path dst) section Hn) as (Hne & Hkn & Hkn').
  destruct (entry_path (_path src) section Hn) as (Hnes & Hks & Hks').
  fold newfn in Hne, Hkn, Hkn'.
  destruct (create_msg_ok dst section w Hdef Hcase)
    as (h1 & Hcreate & Hlen1 & Hother1 & Hag1 & Hsec1).
  fold newfn in Hcreate.
  set (w1 := set_heap h1 w) in *.
  assert (shutil.copy path newfn w1
          = (Ok newfn, set_fs (<[os.resolve newfn := File data]> (fs w1)) w1)) as Hcopy.
  { apply copy_ok; try done.
    rewrite Hkn, removelast_last. by apply isdir_inv in Hd as [_ Hd]. }
  set (w2 := set_fs _ w1) in Hcopy.
  assert (os.path_isfile (fs w2) (posixpath.join (_path src) section) = true) as Hfile.
  { unfold os.path_isfile, w2, w1. wsimpl.
    rewrite stat_insert_ne by (by rewrite <- Hkey).
    assert (os.stat (fs w) (posixpath.join (_path src) section) = Some (File data)) as ->;
      [|done].
    revert Hsrc. unfold os.stat. rewrite Hkey.
    rewrite (bool_decide_eq_false_2 (posixpath.join _ _ = "")) by done.
    case_bool_decide; [done | by intros <-]. }
  pose proof (delete_ok src path w2 Hfile) as Hdel. cbv zeta in Hdel.
  fold section in Hdel. rewrite <- Hkey in Hdel.
  eexists w1, w2, _. split_and!; [done | done | exact Hdel | ..];
    unfold w2, w1; wsimpl.
  - done.
  - done.
  - by rewrite length_insert.
  - intros r. etrans; [apply heap_insert_agree|].
    + split; [done |]. intros s Hs. simpl. by rewrite lookup_delete_ne.
    + destruct (decide (r = _config dst)) as [->|Hr]; [done |].
      by rewrite Hother1.
  - intros r Hr1 Hr2. rewrite list_lookup_total_insert_ne by done. by apply Hother1.
  - intros Hr. rewrite list_lookup_total_insert_eq by (by rewrite Hlen1).
    unfold configparser.has_section. simpl. apply bool_decide_eq_false.
    rewrite lookup_delete_eq. by intros [? ?].
  - intros Hr Hrne. rewrite list_lookup_total_insert_ne by done. by apply Hsec1.
Qed.

End steps.

(** ** Moving a message into another folder *)

Section moved.
Import MessageFolderInfo.
Implicit Types (f : gmap (list string) node) (k : list string).

Lemma open_lookup f f' kd (n : node) k (P : Prop) :
  f' = f ∨ (P ∧ f' = <[kd ++ [".db"] := n]> f) →
  k ≠ kd ++ [".db"] → f' !! k = f !! k.
Proof. intros [->|[_ ->]] Hk; [done | by rewrite lookup_insert_ne]. Qed.

Lemma open_stat f f' kd (n : node) p (P : Prop) :
  f' = f ∨ (P ∧ f' = <[kd ++ [".db"] := n]> f) →
  os.resolve p ≠ kd ++ [".db"] → os.stat f' p = os.stat f p.
Proof. intros [->|[_ ->]] Hk; [done | by apply stat_insert_ne]. Qed.

Lemma open_isdir f f' p (d : content) q (P : Prop) :
  f' = f ∨ (P ∧ f' = <[os.resolve p ++ [".db"] := File d]> f) →
  os.path_isdir f (posixpath.join p ".db") = false →
  os.path_isdir f q = true → os.path_isdir f' q = true.
Proof.
  intros Hfs Hdb Hq. unfold os.path_isdir. erewrite open_stat; [exact Hq | exact Hfs |].
  intros E. destruct (db_key p) as [Hne Hk].
  apply isdir_false_inv in Hdb; [|done]. apply isdir_inv in Hq as [_ Hq].
  by rewrite Hk, <- E in Hdb.
Qed.

Lemma open_isdir_false f f' p (d : content) q (P : Prop) :
  f' = f ∨ (P ∧ f' = <[os.resolve p ++ [".db"] := File d]> f) →
  os.path_isdir f q = false → os.path_isdir f' q = false.
Proof.
  intros [->|[_ ->]] Hq; [done |].
  destruct (decide (os.resolve q = os.resolve p ++ [".db"])) as [E|E].
  - unfold os.path_isdir, os.stat, os.node_at. apply bool_decide_eq_false.
    case_bool_decide; [done |]. rewrite E.
    rewrite bool_decide_eq_false_2 by (by destruct (os.resolve p)).
    by rewrite lookup_insert_eq.
  - unfold os.path_isdir in *. by rewrite stat_insert_ne.
Qed.

Lemma snoc_ne_db k kd n : n ≠ ".db" → k ++ [n] ≠ kd ++ [".db"].
Proof. intros Hn E. apply app_inj_2 in E as [_ [=]]; done. Qed.

Lemma snoc_ne_self k n : k ≠ k ++ [n].
Proof.
  intros E. apply (f_equal length) in E. rewrite length_app in E. simpl in E. lia.
Qed.

(** X10: moving a message into another folder when the destination does
    not have the name both registered and present: [move_message] gets as
    far as the refresh of the list with the path in the destination as
    its result.  By then the file is in the destination with the content
    it had, and gone from the source; the section of the message is gone
    from the registry of the source, and the destination has a section
    for it that holds what the destination had registered for this name
    before, nothing for a new name: no property is carried over.  No other
    file changes, the registry file of the destination apart, and no other
    section of any registry. *)
Theorem X10_move_message refresh_if_current self info path new_folder data c w :
  let dest := posixpath.join
                (posixpath.join (MessageList.config_dir self) "messages") new_folder in
  let section := posixpath.basename path in
  let newfn := posixpath.join dest section in
  cache_valid w →
  _config info < length (heap w) →
  os.path_isdir (fs w) dest = true →
  os.path_isdir (fs w) (posixpath.join dest ".db") = false →
  folder_registry w dest = Some c →
  glob.entry_name section = true →
  section ≠ "DEFAULT" → section ≠ ".db" →
  configparser.has_section c section = false ∨ os.path_exists (fs w) newfn = false →
  os.path_isdir (fs w) newfn = false →
  os.stat (fs w) path = Some (File data) →
  os.resolve path = os.resolve (posixpath.join (_path info) section) →
  os.resolve path ≠ os.resolve newfn →
  ∃ w' r_dest,
    MessageList.move_message refresh_if_current self info path new_folder w
      = (refresh_if_current info;; ret newfn) w' ∧
    _FOLDER_CACHE w' !! dest = Some r_dest ∧
    os.stat (fs w') newfn = Some (File data) ∧
    os.path_exists (fs w') path = false ∧
    configparser.has_section (heap w' !!! _config info) section = false ∧
    (r_dest ≠ _config info →
     _sections (heap w' !!! r_dest) !! section
     = Some (default ∅ (_sections c !! section))) ∧
    (∀ k, k ≠ os.resolve path → k ≠ os.resolve newfn →
          k ≠ os.resolve dest ++ [".db"] → fs w' !! k = fs w !! k) ∧
    (∀ r, r < length (heap w) → agree_off section (heap w' !!! r) (heap w !!! r)).
Proof.
  intros dest section newfn Hvalid Hr Hd Hdb Hreg Hn Hdef Hndb Hcase Hnd Hsrc Hkey Hdiff.
  destruct (__init___open dest c w Hvalid Hd Hdb Hreg)
    as ([p r_dest] & w1 & Hinit & Hp & Hc & Hrd & Hvalid1 & Hcache1 & Hlen1 & Hheap1 & Hfs1).
  simpl in Hp, Hc, Hrd, Hcache1. subst p.
  pose (dst := {| _path := dest; _config := r_dest |}).
  destruct (entry_path dest section Hn) as (Hne & Hkn & Hkn').
  destruct (entry_path (_path info) section Hn) as (Hnes & Hks & Hks').
  fold newfn in Hne, Hkn, Hkn'.
  assert (os.stat (fs w1) newfn = os.stat (fs w) newfn) as Hst_new.
  { eapply open_stat; [exact Hfs1 |]. rewrite Hkn. by apply snoc_ne_db. }
  assert (os.stat (fs w1) path = os.stat (fs w) path) as Hst_path.
  { eapply open_stat; [exact Hfs1 |]. rewrite Hkey, Hks. by apply snoc_ne_db. }
  assert (os.stat (fs w1) dest = os.stat (fs w) dest) as Hst_dest.
  { eapply open_stat; [exact Hfs1 |]. apply snoc_ne_self. }
  destruct (transfer_ok dst info path data w1)
    as (w2 & w3 & w' & Hcreate & Hcopy & Hdel & Hfs' & Hcache' & Hlen' & Hag' & Hother'
        & Hsrc' & Hdst'); try done.
  { change (os.path_isdir (fs w1) dest = true).
    unfold os.path_isdir. by rewrite Hst_dest. }
  { change (configparser.has_section (heap w1 !!! r_dest) section = false ∨
            os.path_exists (fs w1) newfn = false).
    rewrite Hc. destruct Hcase as [?|Hex]; [by left | right].
    unfold os.path_exists. by rewrite Hst_new. }
  { change (os.path_isdir (fs w1) newfn = false).
    unfold os.path_isdir. by rewrite Hst_new. }
  { by rewrite Hst_path. }
  change (create_msg dst section w1 = (Ok newfn, w2)) in Hcreate.
  change (shutil.copy path newfn w2 = (Ok newfn, w3)) in Hcopy.
  change (fs w' = base.delete (os.resolve path) (<[os.resolve newfn := File data]> (fs w1)))
    in Hfs'.
  change (r_dest < length (heap w1) → r_dest ≠ _config info →
          _sections (heap w' !!! r_dest) !! section
          = Some (default ∅ (_sections (heap w1 !!! r_dest) !! section))) in Hdst'.
  exists w', r_dest. split_and!.
  - assert (MessageList._folder_path self new_folder w = (Ok (Some dest), w)) as Hfp.
    { unfold MessageList._folder_path. run. fold dest. by rewrite Hd. }
    unfold MessageList.move_message.
    rewrite (bind_ok _ _ w (Some dest) w Hfp).
    rewrite (bind_ok _ _ w dst w1 Hinit).
    rewrite (bind_ok _ _ w1 (Some newfn) w2).
    + rewrite (bind_ok _ _ _ _ _ Hcopy). by rewrite (bind_ok _ _ _ _ _ Hdel).
    + unfold try_except. fold section. by rewrite (bind_ok _ _ _ _ _ Hcreate).
  - rewrite Hcache', Hcache1. apply lookup_insert_eq.
  - rewrite Hfs'. rewrite stat_delete_ne by done. by apply stat_insert_eq.
  - rewrite Hfs'. unfold os.path_exists. apply bool_decide_eq_false.
    unfold os.stat. case_bool_decide; [by intros [? ?] |].
    unfold os.node_at. rewrite Hkey, Hks in *.
    rewrite bool_decide_eq_false_2 by (by destruct (os.resolve (_path info))).
    rewrite lookup_delete_eq. by intros [? ?].
  - apply Hsrc'. lia.
  - intros Hrne. rewrite Hdst' by done. by rewrite Hc.
  - intros k Hk1 Hk2 Hk3. rewrite Hfs'.
    rewrite lookup_delete_ne, lookup_insert_ne by done.
    by eapply open_lookup.
  - intros r Hr'. etrans; [apply Hag' |]. by rewrite Hheap1.
Qed.

Lemma X10_move_message_witness :
  ∃ w',
    MessageList.move_message no_refresh Scenario.message_list Scenario.inbox
      Scenario.m1 "Sent" Scenario.registered = (Ok "/cfg/messages/Sent/m1", w') ∧
    os.stat (fs w') "/cfg/messages/Sent/m1" = Some (File (Form "<xml>m1</xml>")) ∧
    os.path_exists (fs w') Scenario.m1 = false ∧
    configparser.has_section (heap w' !!! 0) "m1" = false.
Proof.
  destruct (X10_move_message no_refresh Scenario.message_list Scenario.inbox
              Scenario.m1 "Sent" (Form "<xml>m1</xml>") configparser.new
              Scenario.registered)
    as (w' & r_dest & Hrun & _ & Hnew & Hgone & Hsec & _).
  - apply cache_valid_checked. vm_compute. reflexivity.
  - vm_compute. lia.
  - vm_compute. reflexivity.
  - vm_compute. reflexivity.
  - vm_compute. reflexivity.
  - vm_compute. reflexivity.
  - vm_compute. congruence.
  - vm_compute. congruence.
  - left. vm_compute. reflexivity.
  - vm_compute. reflexivity.
  - vm_compute. reflexivity.
  - vm_compute. reflexivity.
  - vm_compute. congruence.
  - exists w'. split_and!; [exact Hrun | exact Hnew | exact Hgone | exact Hsec].
Defined.

End moved.

(** ** Dropping dragged messages on a folder *)

Section dropping.
Import MessageFolderInfo.
Implicit Types (f : gmap (list string) node) (k : list string).

Lemma startswith_app c a b : startswith c a = true → startswith c (a +:+ b) = true.
Proof. by destruct a. Qed.

Lemma join_abs_r a b : startswith posixpath.sep b = true → posixpath.join a b = b.
Proof. intros H. unfold posixpath.join. by rewrite H. Qed.

Lemma join_abs_l a b :
  startswith posixpath.sep a = true → startswith posixpath.sep (posixpath.join a b) = true.
Proof.
  intros H. unfold posixpath.join. destruct (startswith posixpath.sep b) eqn:E; [done |].
  destruct (_ || _); by apply startswith_app.
Qed.

Lemma startswith_nonempty c a : startswith c a = true → a ≠ "".
Proof. by destruct a. Qed.

Lemma join_nonempty_l a b : a ≠ "" → posixpath.join a b ≠ "".
Proof.
  intros Ha. unfold posixpath.join. destruct (startswith posixpath.sep b) eqn:E.
  - by apply startswith_nonempty in E.
  - destruct (_ || _); by destruct a.
Qed.

(** X11: dropping a message on the folder that it is in already.  The
    dragged text names the folder by its full path and the drop target
    by its name under the messages root, so the two are never found
    equal, and with an absolute configuration directory both folder
    objects are the same folder: the file is deleted as the destination
    copy, the copy then finds no source, [_dragged_to] raises [OSError]
    with [ENOENT], and the message file is gone. *)
Theorem X11_dragged_to_own_folder self dst_folder data record rest
    fname subj msg_type read send recp c w :
  let root := posixpath.join (MessageFolders.config_dir self) "messages" in
  let p := posixpath.join root dst_folder in
  let section := posixpath.basename fname in
  startswith "/" (MessageFolders.config_dir self) = true →
  startswith "/" dst_folder = false →
  split "001" data = p :: record :: rest →
  MessageFolders.unpack_record record = Ok (fname, subj, msg_type, read, send, recp) →
  cache_valid w →
  os.path_isdir (fs w) root = true →
  os.path_isdir (fs w) p = true →
  os.path_isdir (fs w) (posixpath.join p ".db") = false →
  folder_registry w p = Some c →
  section ≠ "DEFAULT" →
  os.path_isfile (fs w) fname = true →
  os.resolve fname = os.resolve (posixpath.join p section) →
  ∃ w',
    MessageFolders._dragged_to self dst_folder data w = (Raise (OSError ENOENT), w') ∧
    os.path_exists (fs w') fname = false.
Proof.
  intros root p section Habs Hrel Hsplit Hunpack Hvalid Hroot Hd Hdb Hreg Hdef Hfile Hkey.
  assert (startswith "/" root = true) as Hroot_abs by (by apply join_abs_l).
  assert (startswith "/" p = true) as Hp_abs by (by apply join_abs_l).
  assert (p ≠ dst_folder) as Hne by (intros E; rewrite E in Hp_abs; congruence).
  assert (p ≠ "") as Hp by (by apply startswith_nonempty in Hp_abs).
  destruct (isfile_inv _ _ Hfile) as (Hfname & Hks & data0 & Hdata0).
  destruct (__init___open p c w Hvalid Hd Hdb Hreg)
    as ([p' r] & w1 & Hinit & Hp' & Hc & Hrd & Hvalid1 & Hcache1 & Hlen1 & Hheap1 & Hfs1).
  simpl in Hp', Hc, Hrd, Hcache1. subst p'.
  pose (dst := {| _path := p; _config := r |}).
  assert (os.resolve root = os.resolve (MessageFolders.config_dir self) ++ ["messages"])
    as Hkroot by (by apply resolve_join_entry).
  assert (os.path_isdir (fs w1) root = true) as Hroot1.
  { unfold os.path_isdir. erewrite open_stat; [exact Hroot | exact Hfs1 |].
    rewrite Hkroot. by apply snoc_ne_db. }
  assert (∃ data1, fs w1 !! os.resolve fname = Some (File data1)) as [data1 Hdata1].
  { destruct Hfs1 as [->|[_ ->]]; [by eauto |].
    destruct (decide (os.resolve fname = os.resolve p ++ [".db"])) as [->|Hk].
    - rewrite lookup_insert_eq. by eauto.
    - rewrite lookup_insert_ne by done. by eauto. }
  assert (os.path_isfile (fs w1) (posixpath.join p (posixpath.basename section)) = true)
    as Hfile1.
  { unfold section. rewrite basename_idemp. fold section.
    unfold os.path_isfile, os.stat, os.node_at. rewrite <- Hkey.
    rewrite bool_decide_eq_false_2 by (by apply join_nonempty_l).
    rewrite bool_decide_eq_false_2 by done. by rewrite Hdata1. }
  pose proof (delete_ok dst section w1 Hfile1) as Hdel. cbv zeta in Hdel.
  change (_path dst) with p in Hdel. change (_config dst) with r in Hdel.
  unfold section in Hdel. rewrite basename_idemp in Hdel. fold section in Hdel.
  rewrite <- Hkey in Hdel.
  set (w2 := set_fs _ _) in Hdel.
  assert (fs w2 = base.delete (os.resolve fname) (fs w1)) as Hfs2 by done.
  assert (os.stat (fs w2) fname = None) as Hgone.
  { rewrite Hfs2. by apply stat_delete_eq. }
  assert (os.stat (fs w2) (posixpath.join p section) = None) as Hgone'.
  { rewrite Hfs2. unfold os.stat. case_bool_decide; [done |].
    rewrite <- Hkey. unfold os.node_at. rewrite bool_decide_eq_false_2 by done.
    apply lookup_delete_eq. }
  destruct (create_msg_ok dst section w2 Hdef) as (h3 & Hcreate & _).
  { right. unfold os.path_exists. change (_path dst) with p. rewrite Hgone'.
    apply bool_decide_eq_false. by intros [? ?]. }
  change (_path dst) with p in Hcreate.
  set (w3 := set_heap h3 w2) in Hcreate.
  assert (shutil.copy fname (posixpath.join p section) w3 = (Raise (OSError ENOENT), w3))
    as Hcopy.
  { unfold shutil.copy. run. change (fs w3) with (fs w2).
    unfold os.path_isdir. by rewrite Hgone', Hgone. }
  exists w3. split.
  - unfold MessageFolders._dragged_to. rewrite Hsplit. cbv zeta. simpl hd. simpl tail.
    rewrite bool_decide_eq_false_2 by done. fold root.
    rewrite (bind_ok _ _ w root w) by (by apply _folders_path_dir).
    cbv beta. fold p. rewrite (bind_ok _ _ w dst w1 Hinit). cbv beta.
    rewrite (bind_ok _ _ w1 root w1) by (by apply _folders_path_dir).
    cbv beta. cbn [hd tail]. rewrite (join_abs_r root p) by done.
    rewrite (bind_ok _ _ w1 dst w1).
    2:{ apply __init___hit. rewrite Hcache1. apply lookup_insert_eq. }
    change (MessageFolders.drop_loop dst dst (record :: rest))
      with (bind (MessageFolders.drop_record dst dst record)
              (λ _, MessageFolders.drop_loop dst dst rest)).
    apply bind_raise. unfold MessageFolders.drop_record. rewrite Hunpack.
    rewrite (bind_ok _ _ w1 (fname, subj, msg_type, read, send, recp) w1) by done.
    cbv beta iota. fold section.
    rewrite (bind_ok _ _ w1 tt w2) by (unfold try_except; by rewrite Hdel).
    rewrite (bind_ok _ _ w2 _ w3 Hcreate).
    by apply bind_raise.
  - unfold os.path_exists. change (fs w3) with (fs w2). rewrite Hgone.
    apply bool_decide_eq_false. by intros [? ?].
Qed.

Lemma X11_dragged_to_own_folder_witness :
  ∃ w',
    MessageFolders._dragged_to Scenario.folders "Inbox"
      ("/cfg/messages/Inbox" +:+ String "001"
         (MessageList.format_row
            {| MessageList.ML_COL_FILE := "/cfg/messages/Inbox/m1";
               MessageList.ML_COL_SUBJ := "Hello";
               MessageList.ML_COL_TYPE := "note";
               MessageList.ML_COL_READ := true;
               MessageList.ML_COL_SEND := "K1ABC";
               MessageList.ML_COL_RECP := "W2XYZ" |}))
      Scenario.registered = (Raise (OSError ENOENT), w') ∧
    os.path_exists (fs w') "/cfg/messages/Inbox/m1" = false.
Proof.
  apply (X11_dragged_to_own_folder Scenario.folders "Inbox"
           ("/cfg/messages/Inbox" +:+ String "001"
              (MessageList.format_row
              {| MessageList.ML_COL_FILE := "/cfg/messages/Inbox/m1";
                 MessageList.ML_COL_SUBJ := "Hello";
                 MessageList.ML_COL_TYPE := "note";
                 MessageList.ML_COL_READ := true;
                 MessageList.ML_COL_SEND := "K1ABC";
                 MessageList.ML_COL_RECP := "W2XYZ" |}))
           (MessageList.format_row
              {| MessageList.ML_COL_FILE := "/cfg/messages/Inbox/m1";
                 MessageList.ML_COL_SUBJ := "Hello";
                 MessageList.ML_COL_TYPE := "note";
                 MessageList.ML_COL_READ := true;
                 MessageList.ML_COL_SEND := "K1ABC";
                 MessageList.ML_COL_RECP := "W2XYZ" |}) []
           "/cfg/messages/Inbox/m1" "Hello" "note" "True" "K1ABC" "W2XYZ"
           (heap Scenario.registered !!! 0) Scenario.registered).
  - reflexivity.
  - reflexivity.
  - vm_compute. reflexivity.
  - vm_compute. reflexivity.
  - apply cache_valid_checked. vm_compute. reflexivity.
  - vm_compute. reflexivity.
  - vm_compute. reflexivity.
  - vm_compute. reflexivity.
  - vm_compute. reflexivity.
  - vm_compute. congruence.
  - vm_compute. reflexivity.
  - vm_compute. reflexivity.
Defined.

(** The five sets at the end of a drop, in a folder that is a directory. *)
Lemma set_all_ok dst fname read subj msg_type send recp w :
  let section := posixpath.basename fname in
  let c5 := with_prop (with_prop (with_prop (with_prop (with_prop
              (heap w !!! _config dst) section "read" (str_bool read))
              section "subject" subj) section "type" msg_type)
              section "sender" send) section "recip" recp in
  _config dst < length (heap w) →
  section ≠ "" → section ≠ configparser.default_section →
  contains "%" subj = false → contains "%" msg_type = false →
  contains "%" send = false → contains "%" recp = false →
  os.path_isdir (fs w) (_path dst) = true →
  os.path_isdir (fs w) (posixpath.join (_path dst) ".db") = false →
  (set_msg_read dst fname read;;
   set_msg_subject dst fname subj;;
   set_msg_type dst fname msg_type;;
   set_msg_sender dst fname send;;
   set_msg_recip dst fname recp) w
  = (Ok tt, set_fs (<[os.resolve (_path dst) ++ [".db"] := File (Ini c5)]> (fs w))
              (set_heap (<[_config dst := c5]> (heap w)) w)).
Proof.
  intros section c5 Hr H1 H2 Hsubj Htype Hsend Hrecp Hd Hdb.
  assert (∀ prop value c0 d0 (k : unit → M unit),
            contains "%" value = false →
            bind (_set_prop dst fname prop value) k
              (set_fs (<[os.resolve (_path dst) ++ [".db"] := File d0]> (fs w))
                 (set_heap (<[_config dst := c0]> (heap w)) w))
            = k tt (set_fs (<[os.resolve (_path dst) ++ [".db"] :=
                               File (Ini (with_prop c0 section prop value))]> (fs w))
                      (set_heap (<[_config dst := with_prop c0 section prop value]>
                                   (heap w)) w))) as Hstep.
  { intros prop value c0 d0 k Hv.
    destruct (set_db_dir (fs w) (_path dst) d0 Hd) as (Hd1 & Hdb1 & _).
    erewrite bind_ok;
      [|apply _set_prop_ok; wsimpl;
        [by rewrite length_insert | done | done | done | exact Hd1 | exact Hdb1]].
    wsimpl. rewrite list_lookup_total_insert_eq by done.
    by rewrite insert_insert_eq, list_insert_insert_eq. }
  unfold set_msg_read, set_msg_subject, set_msg_type, set_msg_sender, set_msg_recip.
  erewrite bind_ok;
    [|apply _set_prop_ok; [done | done | done | by destruct read | done | done]].
  fold section. rewrite !Hstep by done.
  match goal with |- _set_prop _ _ _ _ ?w0 = _ =>
    match w0 with
    | set_fs (<[_ := File ?d0]> _) (set_heap (<[_ := ?c0]> _) _) =>
        pose proof (Hstep "recip" recp c0 d0 ret Hrecp) as Hlast
    end
  end.
  unfold bind in Hlast.
  destruct (_set_prop dst fname "recip" recp _) as [[[]|e] w'];
    [exact Hlast | discriminate Hlast].
Qed.

Lemma delete_missing self filename w :
  os.path_exists (fs w) (posixpath.join (_path self) (posixpath.basename filename)) = false →
  delete self filename w
  = (Raise (OSError ENOENT),
     set_heap (<[_config self := configparser.remove_section (heap w !!! _config self)
                                   (posixpath.basename filename)]> (heap w)) w).
Proof.
  intros Hex. unfold delete. run. unfold os.remove. wsimpl.
  unfold os.path_exists in Hex. apply bool_decide_eq_false in Hex.
  destruct (os.stat (fs w) _) as [n|] eqn:E; [by destruct Hex | done].
Qed.

Lemma stat_none_exists f p : os.path_exists f p = false → os.stat f p = None.
Proof.
  unfold os.path_exists. intros H%bool_decide_eq_false.
  destruct (os.stat f p); [by destruct H | done].
Qed.

End dropping.

Section dropped.
Import MessageFolderInfo.
Implicit Types (f : gmap (list string) node) (k : list string).

Lemma five_props c section rd subj msg_type send recp :
  let c5 := with_prop (with_prop (with_prop (with_prop (with_prop
              c section "read" rd) section "subject" subj) section "type" msg_type)
              section "sender" send) section "recip" recp in
  ∃ sd, _sections c5 !! section = Some sd ∧
        sd !! "read" = Some rd ∧ sd !! "subject" = Some subj ∧
        sd !! "type" = Some msg_type ∧ sd !! "sender" = Some send ∧
        sd !! "recip" = Some recp.
Proof.
  intros c5. eexists. split; [apply lookup_insert_eq |].
  cbn [with_prop _sections]. rewrite !lookup_insert_eq. cbn [default from_option]. unfold id.
  change (configparser.optionxform "read") with "read".
  change (configparser.optionxform "subject") with "subject".
  change (configparser.optionxform "type") with "type".
  change (configparser.optionxform "sender") with "sender".
  change (configparser.optionxform "recip") with "recip".
  split_and!.
  - do 4 (rewrite lookup_insert_ne by (by intros [=])). apply lookup_insert_eq.
  - do 3 (rewrite lookup_insert_ne by (by intros [=])). apply lookup_insert_eq.
  - do 2 (rewrite lookup_insert_ne by (by intros [=])). apply lookup_insert_eq.
  - do 1 (rewrite lookup_insert_ne by (by intros [=])). apply lookup_insert_eq.
  - done.
Qed.

Lemma _get_prop_plain self filename prop value sd w :
  contains "%" value = false →
  _sections (heap w !!! _config self) !! posixpath.basename filename = Some sd →
  sd !! configparser.optionxform prop = Some value →
  _get_prop self filename prop w = (Ok value, w).
Proof.
  intros Hv Hsd Hp. unfold _get_prop. run.
  by rewrite (parser_get_plain _ _ prop value sd).
Qed.

(** The registry of a folder that was not opened yet is not changed by
    opening another folder with other files. *)
Lemma folder_registry_open w w1 p r c q :
  cache_valid w →
  _FOLDER_CACHE w1 = <[p := r]> (_FOLDER_CACHE w) →
  (∀ r', r' < length (heap w) → heap w1 !!! r' = heap w !!! r') →
  (fs w1 = fs w ∨
   (_FOLDER_CACHE w !! p = None ∧
    fs w1 = <[os.resolve p ++ [".db"] := File (Ini c)]> (fs w))) →
  q ≠ p → os.resolve q ≠ os.resolve p →
  folder_registry w1 q = folder_registry w q.
Proof.
  intros Hvalid Hcache Hheap Hfs Hq Hkq. unfold folder_registry.
  rewrite Hcache, lookup_insert_ne by done.
  destruct (_FOLDER_CACHE w !! q) as [r'|] eqn:E.
  - rewrite Hheap; [done |]. by apply (Hvalid q).
  - erewrite open_stat; [done | exact Hfs |].
    destruct (db_key q) as [_ ->]. intros [? _]%app_inj_2; done.
Qed.

(** X12: dropping one dragged message on another folder, for a message
    file that the destination does not have yet and texts without ['%']:
    [_dragged_to] returns; the file is in the destination with the
    content it had and gone from the source, and the registry of the
    destination gives back the five properties that were dragged
    along. *)
Theorem X12_dragged_to_moves self dst_folder src_folder data record
    fname subj msg_type read send recp filedata c_dst c_src w :
  let root := posixpath.join (MessageFolders.config_dir self) "messages" in
  let p := posixpath.join root dst_folder in
  let section := posixpath.basename fname in
  let newfn := posixpath.join p section in
  startswith "/" src_folder = true →
  src_folder ≠ dst_folder →
  split "001" data = [src_folder; record] →
  MessageFolders.unpack_record record = Ok (fname, subj, msg_type, read, send, recp) →
  cache_valid w →
  os.path_isdir (fs w) root = true →
  os.path_isdir (fs w) p = true →
  os.path_isdir (fs w) (posixpath.join p ".db") = false →
  folder_registry w p = Some c_dst →
  os.path_isdir (fs w) src_folder = true →
  os.path_isdir (fs w) (posixpath.join src_folder ".db") = false →
  folder_registry w src_folder = Some c_src →
  glob.entry_name section = true →
  section ≠ "DEFAULT" → section ≠ ".db" →
  os.path_exists (fs w) newfn = false →
  os.stat (fs w) fname = Some (File filedata) →
  os.resolve fname = os.resolve (posixpath.join src_folder section) →
  contains "%" subj = false → contains "%" msg_type = false →
  contains "%" send = false → contains "%" recp = false →
  ∃ w' r,
    MessageFolders._dragged_to self dst_folder data w = (Ok tt, w') ∧
    _FOLDER_CACHE w' !! p = Some r ∧
    os.stat (fs w') newfn = Some (File filedata) ∧
    os.path_exists (fs w') fname = false ∧
    get_msg_subject {| _path := p; _config := r |} fname w' = (Ok subj, w') ∧
    get_msg_type {| _path := p; _config := r |} fname w' = (Ok msg_type, w') ∧
    get_msg_read {| _path := p; _config := r |} fname w'
      = (Ok (bool_decide (read = "True")), w') ∧
    get_msg_sender {| _path := p; _config := r |} fname w' = (Ok send, w') ∧
    get_msg_recip {| _path := p; _config := r |} fname w' = (Ok recp, w').
Proof.
  intros root p section newfn Habs Hne Hsplit Hunpack Hvalid Hroot Hd Hdb Hreg
    Hds Hdbs Hregs Hn Hdef Hndb Hfree Hsrc Hkey Hsubj Htype Hsend Hrecp.
  destruct (entry_path p section Hn) as (Hnewfn & Hkn & Hkn').
  destruct (entry_path src_folder section Hn) as (Hsfn & Hks & Hks').
  fold newfn in Hnewfn, Hkn, Hkn'.
  pose proof (Hn' := Hn). apply entry_name_spec in Hn' as (Hsec & _).
  assert (os.stat (fs w) newfn = None) as Hnone by (by apply stat_none_exists).
  assert (os.resolve fname ≠ os.resolve newfn) as Hdiff.
  { intros E. revert Hsrc Hnone. unfold os.stat. rewrite E.
    rewrite (bool_decide_eq_false_2 (newfn = "")) by done.
    case_bool_decide; [done |]. congruence. }
  assert (os.resolve src_folder ≠ os.resolve p) as Hkdiff.
  { intros E. apply Hdiff. by rewrite Hkey, Hks, Hkn, E. }
  assert (src_folder ≠ p) as Hpdiff by (intros E; apply Hkdiff; by rewrite E).
  (* the destination is opened *)
  destruct (__init___open p c_dst w Hvalid Hd Hdb Hreg)
    as ([p' r] & w1 & Hinit & Hp' & Hc & Hrd & Hvalid1 & Hcache1 & Hlen1 & Hheap1 & Hfs1).
  simpl in Hp', Hc, Hrd, Hcache1. subst p'.
  pose (dst := {| _path := p; _config := r |}).
  assert (os.resolve root = os.resolve (MessageFolders.config_dir self) ++ ["messages"])
    as Hkroot by (by apply resolve_join_entry).
  assert (os.path_isdir (fs w1) root = true) as Hroot1.
  { unfold os.path_isdir. erewrite open_stat; [exact Hroot | exact Hfs1 |].
    rewrite Hkroot. by apply snoc_ne_db. }
  (* the source is opened *)
  destruct (__init___open src_folder c_src w1) as ([ps r_s] & w2 & Hinit2 & Hps & Hcs & Hrs
      & Hvalid2 & Hcache2 & Hlen2 & Hheap2 & Hfs2); [done | | | |].
  { by eapply open_isdir. }
  { by eapply open_isdir_false. }
  { erewrite folder_registry_open; done. }
  simpl in Hps, Hcs, Hrs, Hcache2. subst ps.
  pose (src := {| _path := src_folder; _config := r_s |}).
  assert (∀ q, os.resolve q ≠ os.resolve p ++ [".db"] →
               os.resolve q ≠ os.resolve src_folder ++ [".db"] →
               os.stat (fs w2) q = os.stat (fs w) q) as Hstat2.
  { intros q Hq1 Hq2. erewrite open_stat; [|exact Hfs2 | done].
    by erewrite open_stat; [|exact Hfs1 | done]. }
  assert (heap w2 !!! r = c_dst) as Hc2 by (by rewrite Hheap2).
  assert (os.path_isdir (fs w2) p = true) as Hd2.
  { eapply open_isdir; [exact Hfs2 | by eapply open_isdir_false | by eapply open_isdir]. }
  assert (os.path_isdir (fs w2) (posixpath.join p ".db") = false) as Hdb2.
  { eapply open_isdir_false; [exact Hfs2 |]. by eapply open_isdir_false. }
  assert (os.stat (fs w2) newfn = None) as Hnone2.
  { rewrite Hstat2; [done | rewrite Hkn; by apply snoc_ne_db ..]. }
  assert (os.stat (fs w2) fname = Some (File filedata)) as Hsrc2.
  { rewrite Hstat2; [done | rewrite Hkey, Hks; by apply snoc_ne_db ..]. }
  (* the destination copy is deleted first: there is none *)
  assert (delete dst (posixpath.basename fname) w2
          = (Raise (OSError ENOENT),
             set_heap (<[r := configparser.remove_section c_dst section]> (heap w2)) w2))
    as Hdel0.
  { rewrite delete_missing.
    - rewrite basename_idemp. fold section. change (_config dst) with r. by rewrite Hc2.
    - rewrite basename_idemp. fold section. change (_path dst) with p. fold newfn.
      unfold os.path_exists. rewrite Hnone2. apply bool_decide_eq_false. by intros [? ?]. }
  set (w3 := set_heap _ w2) in Hdel0.
  destruct (transfer_ok dst src fname filedata w3)
    as (w4 & w5 & w6 & Hcreate & Hcopy & Hdel & Hfs6 & Hcache6 & Hlen6 & _); try done.
  { right. change (os.path_exists (fs w2) newfn = false).
    unfold os.path_exists. rewrite Hnone2. apply bool_decide_eq_false. by intros [? ?]. }
  { change (os.path_isdir (fs w2) newfn = false).
    unfold os.path_isdir. by rewrite Hnone2. }
  change (create_msg dst section w3 = (Ok newfn, w4)) in Hcreate.
  change (shutil.copy fname newfn w4 = (Ok newfn, w5)) in Hcopy.
  change (fs w6 = base.delete (os.resolve fname) (<[os.resolve newfn := File filedata]> (fs w2)))
    in Hfs6.
  change (_FOLDER_CACHE w6 = _FOLDER_CACHE w2) in Hcache6.
  assert (length (heap w6) = length (heap w2)) as Hlen6'.
  { rewrite Hlen6. unfold w3. wsimpl. by rewrite length_insert. }
  assert (∀ q, os.resolve q ≠ os.resolve fname → os.resolve q ≠ os.resolve newfn →
               os.stat (fs w6) q = os.stat (fs w2) q) as Hstat6.
  { intros q Hq1 Hq2. rewrite Hfs6. rewrite stat_delete_ne by done.
    by rewrite stat_insert_ne. }
  assert (os.resolve p ≠ os.resolve fname) as Hpf.
  { intros E. apply isdir_inv in Hd2 as [_ Hd2]. revert Hsrc2. unfold os.stat.
    case_bool_decide; [done |]. rewrite <- E, Hd2. done. }
  assert (os.path_isdir (fs w6) p = true) as Hd6.
  { unfold os.path_isdir. rewrite Hstat6; [exact Hd2 | done |].
    rewrite Hkn. apply snoc_ne_self. }
  destruct (db_key p) as [Hdbne Hkdb].
  assert (os.path_isdir (fs w6) (posixpath.join p ".db") = false) as Hdb6.
  { unfold os.path_isdir. rewrite Hstat6; [exact Hdb2 | |].
    - rewrite Hkdb, Hkey, Hks. intros E. symmetry in E. by apply snoc_ne_db in E.
    - rewrite Hkdb, Hkn. intros E. symmetry in E. by apply snoc_ne_db in E. }
  pose proof (set_all_ok dst fname (bool_decide (read = "True")) subj msg_type send recp w6)
    as Hset.
  cbv zeta in Hset. change (_config dst) with r in Hset. change (_path dst) with p in Hset.
  fold section in Hset.
  specialize (Hset ltac:(lia) Hsec Hdef Hsubj Htype Hsend Hrecp Hd6 Hdb6).
  destruct (five_props (heap w6 !!! r) section (str_bool (bool_decide (read = "True")))
              subj msg_type send recp) as (sd & Hsd & Hp1 & Hp2 & Hp3 & Hp4 & Hp5).
  cbv zeta in Hsd.
  set (c5 := with_prop _ section "recip" recp) in Hset, Hsd.
  set (w7 := set_fs _ _) in Hset.
  assert (heap w7 !!! r = c5) as Hc7.
  { unfold w7. wsimpl. rewrite list_lookup_total_insert_eq; [done | lia]. }
  assert (fs w7 = <[os.resolve p ++ [".db"] := File (Ini c5)]> (fs w6)) as Hfs7 by done.
  exists w7, r. split_and!.
  - unfold MessageFolders._dragged_to. rewrite Hsplit. cbv zeta. cbn [hd tail].
    rewrite bool_decide_eq_false_2 by done. fold root.
    rewrite (bind_ok _ _ w root w) by (by apply _folders_path_dir).
    cbv beta. fold p. rewrite (bind_ok _ _ w dst w1 Hinit). cbv beta.
    rewrite (bind_ok _ _ w1 root w1) by (by apply _folders_path_dir).
    cbv beta. rewrite (join_abs_r root src_folder) by done.
    rewrite (bind_ok _ _ w1 src w2 Hinit2).
    change (MessageFolders.drop_loop dst src [record])
      with (bind (MessageFolders.drop_record dst src record) (λ _, ret tt)).
    rewrite (bind_ok _ _ w2 tt w7); [done |].
    unfold MessageFolders.drop_record. rewrite Hunpack.
    rewrite (bind_ok _ _ w2 (fname, subj, msg_type, read, send, recp) w2) by done.
    cbv beta iota. fold section.
    rewrite (bind_ok _ _ w2 tt w3).
    2:{ unfold try_except.
        change (delete dst section w2) with (delete dst (posixpath.basename fname) w2).
        by rewrite Hdel0. }
    rewrite (bind_ok _ _ w3 newfn w4 Hcreate).
    rewrite (bind_ok _ _ w4 newfn w5 Hcopy).
    rewrite (bind_ok _ _ w5 tt w6 Hdel).
    exact Hset.
  - change (_FOLDER_CACHE w7) with (_FOLDER_CACHE w6).
    rewrite Hcache6, Hcache2, Hcache1, lookup_insert_ne by done. apply lookup_insert_eq.
  - rewrite Hfs7, stat_insert_ne by (rewrite Hkn; by apply snoc_ne_db).
    rewrite Hfs6, stat_delete_ne by done. by apply stat_insert_eq.
  - unfold os.path_exists. rewrite Hfs7, stat_insert_ne
      by (rewrite Hkey, Hks; by apply snoc_ne_db).
    rewrite Hfs6, stat_delete_eq; [|by rewrite Hkey]. apply bool_decide_eq_false.
    by intros [? ?].
  - apply (_get_prop_plain _ _ "subject" subj sd); [done | cbn [_config]; by rewrite Hc7 | done].
  - apply (_get_prop_plain _ _ "type" msg_type sd); [done | cbn [_config]; by rewrite Hc7 | done].
  - unfold get_msg_read.
    rewrite (bind_ok _ _ w7 (str_bool (bool_decide (read = "True"))) w7).
    + unfold ret. by destruct (bool_decide (read = "True")).
    + apply (_get_prop_plain _ _ "read" _ sd);
        [by destruct (bool_decide (read = "True")) | cbn [_config]; by rewrite Hc7 | done].
  - apply (_get_prop_plain _ _ "sender" send sd); [done | cbn [_config]; by rewrite Hc7 | done].
  - apply (_get_prop_plain _ _ "recip" recp sd); [done | cbn [_config]; by rewrite Hc7 | done].
Qed.

Lemma X12_dragged_to_moves_witness :
  ∃ w' r,
    MessageFolders._dragged_to Scenario.folders "Sent"
      ("/cfg/messages/Inbox" +:+ String "001"
         (MessageList.format_row
              {| MessageList.ML_COL_FILE := "/cfg/messages/Inbox/m1";
                 MessageList.ML_COL_SUBJ := "Hello";
                 MessageList.ML_COL_TYPE := "note";
                 MessageList.ML_COL_READ := true;
                 MessageList.ML_COL_SEND := "K1ABC";
                 MessageList.ML_COL_RECP := "W2XYZ" |}))
      Scenario.registered = (Ok tt, w') ∧
    os.stat (fs w') "/cfg/messages/Sent/m1" = Some (File (Form "<xml>m1</xml>")) ∧
    os.path_exists (fs w') "/cfg/messages/Inbox/m1" = false ∧
    get_msg_subject {| _path := "/cfg/messages/Sent"; _config := r |}
      "/cfg/messages/Inbox/m1" w' = (Ok "Hello", w') ∧
    get_msg_read {| _path := "/cfg/messages/Sent"; _config := r |}
      "/cfg/messages/Inbox/m1" w' = (Ok true, w').
Proof.
  destruct (X12_dragged_to_moves Scenario.folders "Sent" "/cfg/messages/Inbox"
              ("/cfg/messages/Inbox" +:+ String "001"
                 (MessageList.format_row
              {| MessageList.ML_COL_FILE := "/cfg/messages/Inbox/m1";
                 MessageList.ML_COL_SUBJ := "Hello";
                 MessageList.ML_COL_TYPE := "note";
                 MessageList.ML_COL_READ := true;
                 MessageList.ML_COL_SEND := "K1ABC";
                 MessageList.ML_COL_RECP := "W2XYZ" |}))
              (MessageList.format_row
              {| MessageList.ML_COL_FILE := "/cfg/messages/Inbox/m1";
                 MessageList.ML_COL_SUBJ := "Hello";
                 MessageList.ML_COL_TYPE := "note";
                 MessageList.ML_COL_READ := true;
                 MessageList.ML_COL_SEND := "K1ABC";
                 MessageList.ML_COL_RECP := "W2XYZ" |})
              "/cfg/messages/Inbox/m1" "Hello" "note" "True" "K1ABC" "W2XYZ"
              (Form "<xml>m1</xml>") configparser.new (heap Scenario.registered !!! 0)
              Scenario.registered)
    as (w' & r & Hrun & _ & Hnew & Hgone & Hsubj & _ & Hread & _).
  - reflexivity.
  - congruence.
  - vm_compute. reflexivity.
  - vm_compute. reflexivity.
  - apply cache_valid_checked. vm_compute. reflexivity.
  - vm_compute. reflexivity.
  - vm_compute. reflexivity.
  - vm_compute. reflexivity.
  - vm_compute. reflexivity.
  - vm_compute. reflexivity.
  - vm_compute. reflexivity.
  - vm_compute. reflexivity.
  - vm_compute. reflexivity.
  - vm_compute. congruence.
  - vm_compute. congruence.
  - vm_compute. reflexivity.
  - vm_compute. reflexivity.
  - vm_compute. reflexivity.
  - reflexivity.
  - reflexivity.
  - reflexivity.
  - reflexivity.
  - exists w', r. split_and!; [exact Hrun | exact Hnew | exact Hgone | exact Hsubj | exact Hread].
Defined.

End dropped.

(** ** A message was sent: from the Outbox to Sent *)

Section sent.
Import MessageFolderInfo.
Implicit Types (f : gmap (list string) node) (k : list string).

Lemma files_run self w :
  files self w
  = (Ok (filter (λ x_file, os.path_isfile (fs w) x_file = true
                           ∧ startswith "." x_file = false)
           (glob.glob_star (fs w) (_path self))), w).
Proof. done. Qed.

Lemma listed_files self w x :
  listed (fs w) (_path self) x ↔
  x ∈ filter (λ x_file, os.path_isfile (fs w) x_file = true
                        ∧ startswith "." x_file = false)
        (glob.glob_star (fs w) (_path self)).
Proof. unfold listed. rewrite list_elem_of_filter. tauto. Qed.

(** A listed name is the folder's pattern directory joined with the name
    of a visible entry. *)
Lemma listed_inv f path x :
  listed f path x →
  ∃ n, x = posixpath.join (pattern_dir path) n ∧
       glob.entry_name n = true ∧ n ≠ ".db" ∧
       posixpath.basename x = n ∧
       os.resolve x = os.resolve path ++ [n] ∧ x ≠ "".
Proof.
  intros (Hin & _ & _). apply glob_star_inv in Hin as (n & -> & Hn & Hvis & _).
  exists n. destruct (entry_path_facts (pattern_dir path) n Hn) as (Hb & Hk & Hne & _).
  rewrite resolve_pattern_dir in Hk. split_and!; try done.
  intros ->. done.
Qed.

Lemma listed_same f f' path x :
  os.path_isdir f' path = true →
  (∀ n, n ≠ ".db" → f' !! (os.resolve path ++ [n]) = f !! (os.resolve path ++ [n])) →
  listed f path x → listed f' path x.
Proof.
  intros Hd' Hsame Hl.
  destruct (listed_inv _ _ _ Hl) as (n & Hx & Hn & Hndb & Hb & Hk & Hne).
  destruct Hl as (Hin & Hfile & Hvis).
  apply glob_star_inv in Hin as (n' & Hx' & Hn' & Hvis' & Hsome).
  assert (n' = n) as ->.
  { rewrite <- Hb, Hx'. symmetry. by apply basename_join, entry_nosep. }
  split_and!; [| | done].
  - rewrite Hx'. apply glob_star_elem; try done.
    + by apply isdir_inv in Hd' as [_ ?].
    + by rewrite Hsame.
  - revert Hfile. unfold os.path_isfile, os.stat. rewrite Hk, !node_at_snoc.
    by rewrite Hsame.
Qed.

Lemma listed_open f f' p (d : content) path x (P : Prop) :
  f' = f ∨ (P ∧ f' = <[os.resolve p ++ [".db"] := File d]> f) →
  os.path_isdir f (posixpath.join p ".db") = false →
  os.path_isdir f path = true →
  listed f' path x ↔ listed f path x.
Proof.
  intros Hfs Hdb Hd. split; apply listed_same; try done.
  - intros n Hn. symmetry. eapply open_lookup; [exact Hfs | by apply snoc_ne_db].
  - by eapply open_isdir.
  - intros n Hn. eapply open_lookup; [exact Hfs | by apply snoc_ne_db].
Qed.

Lemma get_folder_run self name_ w :
  os.path_isdir (fs w) (posixpath.join (MessageFolders.config_dir self) "messages") = true →
  MessageFolders.get_folder self name_ w
  = __init__ (posixpath.join
                (posixpath.join (MessageFolders.config_dir self) "messages") name_) w.
Proof.
  intros Hd. unfold MessageFolders.get_folder.
  by rewrite (bind_ok _ _ _ _ _ (_folders_path_dir self w Hd)).
Qed.

(** X13: a message that was sent but is not among the files of the Outbox
    (it is no regular file, or not in the Outbox): [message_sent] returns
    without moving anything.  All it did is open the Outbox: no file
    changes but the registry file of the Outbox, and no registry object
    that existed.  (The path of the Outbox has none of the magic
    characters of [glob].) *)
Theorem X13_message_sent_not_in_outbox refresh_if_folder self file_name c w :
  let root := posixpath.join (MessageFolders.config_dir (MessagesTab._folders self))
                "messages" in
  let outbox := posixpath.join root "Outbox" in
  glob.has_magic outbox = false →
  cache_valid w →
  os.path_isdir (fs w) root = true →
  os.path_isdir (fs w) outbox = true →
  os.path_isdir (fs w) (posixpath.join outbox ".db") = false →
  folder_registry w outbox = Some c →
  ¬ listed (fs w) outbox file_name →
  ∃ w',
    MessagesTab.message_sent refresh_if_folder self file_name w = (Ok tt, w') ∧
    (∀ k, k ≠ os.resolve outbox ++ [".db"] → fs w' !! k = fs w !! k) ∧
    (∀ r, r < length (heap w) → heap w' !!! r = heap w !!! r).
Proof.
  intros root outbox _ Hvalid Hroot Hd Hdb Hreg Hnot.
  destruct (__init___open outbox c w Hvalid Hd Hdb Hreg)
    as ([p r] & w1 & Hinit & Hp & Hc & Hrd & Hvalid1 & Hcache1 & Hlen1 & Hheap1 & Hfs1).
  simpl in Hp. subst p.
  exists w1. split_and!; [| intros k Hk; by eapply open_lookup | done].
  unfold MessagesTab.message_sent, gettext.
  rewrite (bind_ok _ _ w {| _path := outbox; _config := r |} w1)
    by (by rewrite get_folder_run).
  rewrite (bind_ok _ _ w1 _ w1 (files_run _ w1)).
  rewrite bool_decide_eq_false_2; [done |].
  intros Hin. apply listed_files in Hin. cbn [_path] in Hin. apply Hnot.
  by apply (listed_open _ _ _ _ _ _ _ Hfs1 Hdb Hd).
Qed.

Lemma X13_message_sent_not_in_outbox_witness :
  ∃ w',
    MessagesTab.message_sent (λ _, ret tt) Outgoing.tab "/cfg/messages/Outbox/none"
      Outgoing.ready = (Ok tt, w') ∧
    (∀ k, k ≠ ["cfg"; "messages"; "Outbox"; ".db"] → fs w' !! k = fs Outgoing.ready !! k) ∧
    (∀ r, r < length (heap Outgoing.ready) → heap w' !!! r = heap Outgoing.ready !!! r).
Proof.
  apply (X13_message_sent_not_in_outbox (λ _, ret tt) Outgoing.tab
           "/cfg/messages/Outbox/none"
           (Outgoing.registry Outgoing.ready "/cfg/messages/Outbox") Outgoing.ready).
  - vm_compute. reflexivity.
  - apply cache_valid_checked. vm_compute. reflexivity.
  - vm_compute. reflexivity.
  - vm_compute. reflexivity.
  - vm_compute. reflexivity.
  - vm_compute. reflexivity.
  - intros (_ & Hfile & _). vm_compute in Hfile. discriminate.
Defined.

Lemma resolve_sibling root a b :
  glob.entry_name a = true → glob.entry_name b = true → a ≠ b →
  os.resolve (posixpath.join root a) ≠ os.resolve (posixpath.join root b) ∧
  posixpath.join root a ≠ posixpath.join root b.
Proof.
  intros Ha Hb Hab.
  assert (os.resolve (posixpath.join root a) ≠ os.resolve (posixpath.join root b)) as Hk.
  { rewrite !resolve_join_entry by done. intros [_ [=]]%app_inj_2; done. }
  split; [done |]. intros E. apply Hk. by rewrite E.
Qed.

(** Both folders of [message_sent] opened, the Outbox first. *)
Lemma open_both self c_out c_sent w :
  let root := posixpath.join (MessageFolders.config_dir self) "messages" in
  let outbox := posixpath.join root "Outbox" in
  let sent := posixpath.join root "Sent" in
  cache_valid w →
  os.path_isdir (fs w) root = true →
  os.path_isdir (fs w) outbox = true →
  os.path_isdir (fs w) (posixpath.join outbox ".db") = false →
  folder_registry w outbox = Some c_out →
  os.path_isdir (fs w) sent = true →
  os.path_isdir (fs w) (posixpath.join sent ".db") = false →
  folder_registry w sent = Some c_sent →
  ∃ r_o r_s w1 w2,
    MessageFolders.get_folder self "Outbox" w
      = (Ok {| _path := outbox; _config := r_o |}, w1) ∧
    MessageFolders.get_folder self "Sent" w1
      = (Ok {| _path := sent; _config := r_s |}, w2) ∧
    (∀ x, listed (fs w1) outbox x ↔ listed (fs w) outbox x) ∧
    heap w2 !!! r_o = c_out ∧ heap w2 !!! r_s = c_sent ∧
    r_o < length (heap w2) ∧ r_s < length (heap w2) ∧
    (∀ r, r < length (heap w) → heap w2 !!! r = heap w !!! r) ∧
    length (heap w) ≤ length (heap w2) ∧
    _FOLDER_CACHE w2 = <[sent := r_s]> (<[outbox := r_o]> (_FOLDER_CACHE w)) ∧
    (∀ k, k ≠ os.resolve outbox ++ [".db"] → k ≠ os.resolve sent ++ [".db"] →
          fs w2 !! k = fs w !! k) ∧
    (∀ q, os.resolve q ≠ os.resolve outbox ++ [".db"] →
          os.resolve q ≠ os.resolve sent ++ [".db"] →
          os.stat (fs w2) q = os.stat (fs w) q) ∧
    os.path_isdir (fs w2) sent = true ∧
    os.path_isdir (fs w2) (posixpath.join sent ".db") = false.
Proof.
  intros root outbox sent Hvalid Hroot Hd Hdb Hreg Hds Hdbs Hregs.
  destruct (resolve_sibling root "Sent" "Outbox") as [Hkdiff Hpdiff]; [done.. |].
  fold sent outbox in Hkdiff, Hpdiff.
  assert (os.resolve root = os.resolve (MessageFolders.config_dir self) ++ ["messages"])
    as Hkroot by (by apply resolve_join_entry).
  destruct (__init___open outbox c_out w Hvalid Hd Hdb Hreg)
    as ([p r_o] & w1 & Hinit & Hp & Hc & Hrd & Hvalid1 & Hcache1 & Hlen1 & Hheap1 & Hfs1).
  simpl in Hp, Hc, Hrd, Hcache1. subst p.
  assert (os.path_isdir (fs w1) root = true) as Hroot1 by (by eapply open_isdir).
  destruct (__init___open sent c_sent w1) as ([ps r_s] & w2 & Hinit2 & Hps & Hcs & Hrs
      & Hvalid2 & Hcache2 & Hlen2 & Hheap2 & Hfs2); [done | | | |].
  { by eapply open_isdir. }
  { by eapply open_isdir_false. }
  { erewrite folder_registry_open; done. }
  simpl in Hps, Hcs, Hrs, Hcache2. subst ps.
  exists r_o, r_s, w1, w2. split_and!; try done.
  - by rewrite get_folder_run.
  - by rewrite get_folder_run.
  - intros x. by eapply listed_open.
  - by rewrite Hheap2.
  - lia.
  - intros r Hr. rewrite Hheap2 by lia. by apply Hheap1.
  - lia.
  - by rewrite Hcache2, Hcache1.
  - intros k Hk1 Hk2. erewrite open_lookup; [|exact Hfs2 | done].
    by erewrite open_lookup; [|exact Hfs1 | done].
  - intros q Hq1 Hq2. erewrite open_stat; [|exact Hfs2 | done].
    by erewrite open_stat; [|exact Hfs1 | done].
  - eapply open_isdir; [exact Hfs2 | by eapply open_isdir_false | by eapply open_isdir].
  - eapply open_isdir_false; [exact Hfs2 |]. by eapply open_isdir_false.
Qed.

(** X14: a message of the Outbox was sent, and Sent already has a file of
    this name with a section in its registry: [message_sent] raises
    [DuplicateSectionError], which nothing catches here; the message is
    still listed in the Outbox, and no file changed but the registry
    files of the two folders, nor any registry object that existed.
    (The path of the Outbox has none of the magic characters of
    [glob].) *)
Theorem X14_message_sent_duplicate refresh_if_folder self file_name c_out c_sent w :
  let root := posixpath.join (MessageFolders.config_dir (MessagesTab._folders self))
                "messages" in
  let outbox := posixpath.join root "Outbox" in
  let sent := posixpath.join root "Sent" in
  let section := posixpath.basename file_name in
  glob.has_magic outbox = false →
  cache_valid w →
  os.path_isdir (fs w) root = true →
  os.path_isdir (fs w) outbox = true →
  os.path_isdir (fs w) (posixpath.join outbox ".db") = false →
  folder_registry w outbox = Some c_out →
  os.path_isdir (fs w) sent = true →
  os.path_isdir (fs w) (posixpath.join sent ".db") = false →
  folder_registry w sent = Some c_sent →
  listed (fs w) outbox file_name →
  _sections c_sent !! "DEFAULT" = None →
  configparser.has_section c_sent section = true →
  os.path_exists (fs w) (posixpath.join sent section) = true →
  ∃ w',
    MessagesTab.message_sent refresh_if_folder self file_name w
      = (Raise DuplicateSectionError, w') ∧
    os.stat (fs w') file_name = os.stat (fs w) file_name ∧
    (∀ k, k ≠ os.resolve outbox ++ [".db"] → k ≠ os.resolve sent ++ [".db"] →
          fs w' !! k = fs w !! k) ∧
    (∀ r, r < length (heap w) → heap w' !!! r = heap w !!! r).
Proof.
  intros root outbox sent section _ Hvalid Hroot Hd Hdb Hreg Hds Hdbs Hregs Hl Hnodef Hhas Hex.
  destruct (open_both (MessagesTab._folders self) c_out c_sent w)
    as (r_o & r_s & w1 & w2 & Hout & Hsent & Hlisted & Hco & Hcs & Hro & Hrs & Hheap & Hlen
        & Hcache & Hfs & Hstat & Hds2 & Hdbs2); try done.
  fold root outbox sent in Hout, Hsent, Hlisted, Hcache, Hfs, Hstat, Hds2, Hdbs2.
  destruct (listed_inv _ _ _ Hl) as (n & Hx & Hn & Hndb & Hb & Hk & Hne).
  fold section in Hb. subst n.
  destruct (entry_path sent section Hn) as (Hnewfn & Hkn & Hkn').
  exists w2. split_and!; [| | done | done].
  - unfold MessagesTab.message_sent, gettext.
    rewrite (bind_ok _ _ _ _ _ Hout). rewrite (bind_ok _ _ w1 _ w1 (files_run _ w1)).
    rewrite bool_decide_eq_true_2.
    2:{ apply listed_files. cbn [_path]. by apply Hlisted. }
    rewrite (bind_ok _ _ _ _ _ Hsent). apply bind_raise. fold section.
    apply create_msg_duplicate; cbn [_path _config]; rewrite ?Hcs; try done.
    unfold os.path_exists in *. rewrite Hstat; [done | rewrite Hkn; by apply snoc_ne_db ..].
  - apply Hstat; rewrite Hk; by apply snoc_ne_db.
Qed.

Lemma X14_message_sent_duplicate_witness :
  ∃ w',
    MessagesTab.message_sent (λ _, ret tt) Outgoing.tab Outgoing.m2 Outgoing.sent_before
      = (Raise DuplicateSectionError, w') ∧
    os.stat (fs w') Outgoing.m2 = os.stat (fs Outgoing.sent_before) Outgoing.m2.
Proof.
  destruct (X14_message_sent_duplicate (λ _, ret tt) Outgoing.tab Outgoing.m2
              (Outgoing.registry Outgoing.sent_before "/cfg/messages/Outbox")
              (Outgoing.registry Outgoing.sent_before "/cfg/messages/Sent")
              Outgoing.sent_before) as (w' & Hrun & Hstat & _).
  - vm_compute. reflexivity.
  - apply cache_valid_checked. vm_compute. reflexivity.
  - vm_compute. reflexivity.
  - vm_compute. reflexivity.
  - vm_compute. reflexivity.
  - vm_compute. reflexivity.
  - vm_compute. reflexivity.
  - vm_compute. reflexivity.
  - vm_compute. reflexivity.
  - split_and!; [|vm_compute; reflexivity..].
    vm_compute. constructor.
  - vm_compute. reflexivity.
  - vm_compute. reflexivity.
  - vm_compute. reflexivity.
  - exists w'. split; [exact Hrun | exact Hstat].
Defined.

(** X15: a message of the Outbox was sent, and Sent does not have its
    name both registered and present: [message_sent] gets as far as the
    two refreshes.  By then the file is in Sent with the content it had
    and gone from the Outbox, the Outbox registry has no section for it,
    and the section in the Sent registry holds what Sent had registered
    for this name before, nothing for a new name: the properties that the
    Outbox had for the message are not carried over.  (The path of the
    Outbox has none of the magic characters of [glob].) *)
Theorem X15_message_sent refresh_if_folder self file_name data c_out c_sent w :
  let root := posixpath.join (MessageFolders.config_dir (MessagesTab._folders self))
                "messages" in
  let outbox := posixpath.join root "Outbox" in
  let sent := posixpath.join root "Sent" in
  let section := posixpath.basename file_name in
  let newfn := posixpath.join sent section in
  glob.has_magic outbox = false →
  cache_valid w →
  os.path_isdir (fs w) root = true →
  os.path_isdir (fs w) outbox = true →
  os.path_isdir (fs w) (posixpath.join outbox ".db") = false →
  folder_registry w outbox = Some c_out →
  os.path_isdir (fs w) sent = true →
  os.path_isdir (fs w) (posixpath.join sent ".db") = false →
  folder_registry w sent = Some c_sent →
  listed (fs w) outbox file_name →
  os.stat (fs w) file_name = Some (File data) →
  section ≠ "DEFAULT" →
  configparser.has_section c_sent section = false ∨ os.path_exists (fs w) newfn = false →
  os.path_isdir (fs w) newfn = false →
  ∃ w' r_o r_s,
    MessagesTab.message_sent refresh_if_folder self file_name w
      = (refresh_if_folder "Outbox";; refresh_if_folder "Sent") w' ∧
    _FOLDER_CACHE w' !! outbox = Some r_o ∧
    _FOLDER_CACHE w' !! sent = Some r_s ∧
    os.stat (fs w') newfn = Some (File data) ∧
    os.path_exists (fs w') file_name = false ∧
    configparser.has_section (heap w' !!! r_o) section = false ∧
    (r_s ≠ r_o →
     _sections (heap w' !!! r_s) !! section
     = Some (default ∅ (_sections c_sent !! section))) ∧
    (∀ k, k ≠ os.resolve file_name → k ≠ os.resolve newfn →
          k ≠ os.resolve outbox ++ [".db"] → k ≠ os.resolve sent ++ [".db"] →
          fs w' !! k = fs w !! k).
Proof.
  intros root outbox sent section newfn _ Hvalid Hroot Hd Hdb Hreg Hds Hdbs Hregs Hl Hdata
    Hdef Hcase Hnd.
  destruct (open_both (MessagesTab._folders self) c_out c_sent w)
    as (r_o & r_s & w1 & w2 & Hout & Hsent & Hlisted & Hco & Hcs & Hro & Hrs & Hheap & Hlen
        & Hcache & Hfs & Hstat & Hds2 & Hdbs2); try done.
  fold root outbox sent in Hout, Hsent, Hlisted, Hcache, Hfs, Hstat, Hds2, Hdbs2.
  destruct (listed_inv _ _ _ Hl) as (n & Hx & Hn & Hndb & Hb & Hk & Hne).
  fold section in Hb. subst n.
  destruct (entry_path sent section Hn) as (Hnewfn & Hkn & Hkn').
  destruct (entry_path outbox section Hn) as (Hsrcfn & Hks & Hks').
  fold newfn in Hnewfn, Hkn, Hkn'.
  destruct (resolve_sibling root "Outbox" "Sent") as [Hkdiff Hpdiff]; [done.. |].
  fold sent outbox in Hkdiff, Hpdiff.
  assert (os.resolve file_name ≠ os.resolve newfn) as Hdiff.
  { rewrite Hk, Hkn. intros [? _]%app_inj_2; done. }
  assert (os.stat (fs w2) newfn = os.stat (fs w) newfn) as Hst_new.
  { apply Hstat; rewrite Hkn; by apply snoc_ne_db. }
  assert (os.stat (fs w2) file_name = os.stat (fs w) file_name) as Hst_src.
  { apply Hstat; rewrite Hk; by apply snoc_ne_db. }
  pose (dst := {| _path := sent; _config := r_s |}).
  pose (src := {| _path := outbox; _config := r_o |}).
  destruct (transfer_ok dst src file_name data w2)
    as (w3 & w4 & w' & Hcreate & Hcopy & Hdel & Hfs' & Hcache' & Hlen' & Hag' & Hother'
        & Hsrc' & Hdst'); try done.
  { change (configparser.has_section (heap w2 !!! r_s) section = false ∨
            os.path_exists (fs w2) newfn = false).
    rewrite Hcs. destruct Hcase as [?|Hex]; [by left | right].
    unfold os.path_exists. by rewrite Hst_new. }
  { change (os.path_isdir (fs w2) newfn = false).
    unfold os.path_isdir. by rewrite Hst_new. }
  { by rewrite Hst_src. }
  { change (os.resolve file_name = os.resolve (posixpath.join outbox section)).
    by rewrite Hk, Hks. }
  change (create_msg dst section w2 = (Ok newfn, w3)) in Hcreate.
  change (shutil.copy file_name newfn w3 = (Ok newfn, w4)) in Hcopy.
  change (fs w' = base.delete (os.resolve file_name)
                    (<[os.resolve newfn := File data]> (fs w2))) in Hfs'.
  change (r_o < length (heap w2) →
          configparser.has_section (heap w' !!! r_o) section = false) in Hsrc'.
  change (r_s < length (heap w2) → r_s ≠ r_o →
          _sections (heap w' !!! r_s) !! section
          = Some (default ∅ (_sections (heap w2 !!! r_s) !! section))) in Hdst'.
  exists w', r_o, r_s. split_and!.
  - unfold MessagesTab.message_sent, gettext.
    rewrite (bind_ok _ _ _ _ _ Hout). rewrite (bind_ok _ _ w1 _ w1 (files_run _ w1)).
    rewrite bool_decide_eq_true_2.
    2:{ apply listed_files. cbn [_path]. by apply Hlisted. }
    rewrite (bind_ok _ _ _ _ _ Hsent). fold section.
    rewrite (bind_ok _ _ _ _ _ Hcreate). rewrite (bind_ok _ _ _ _ _ Hcopy).
    by rewrite (bind_ok _ _ _ _ _ Hdel).
  - rewrite Hcache', Hcache, lookup_insert_ne by done. apply lookup_insert_eq.
  - rewrite Hcache', Hcache. apply lookup_insert_eq.
  - rewrite Hfs'. rewrite stat_delete_ne by done. by apply stat_insert_eq.
  - rewrite Hfs'. unfold os.path_exists. rewrite stat_delete_eq.
    + apply bool_decide_eq_false. by intros [? ?].
    + rewrite Hk. by destruct (os.resolve outbox).
  - by apply Hsrc'.
  - intros Hrne. rewrite Hdst' by done. by rewrite Hcs.
  - intros k Hk1 Hk2 Hk3 Hk4. rewrite Hfs'.
    rewrite lookup_delete_ne, lookup_insert_ne by done. by apply Hfs.
Qed.

Lemma X15_message_sent_witness :
  ∃ w',
    MessagesTab.message_sent (λ _, ret tt) Outgoing.tab Outgoing.m2 Outgoing.ready
      = (Ok tt, w') ∧
    os.stat (fs w') "/cfg/messages/Sent/m2" = Some (File (Form "<xml>m2</xml>")) ∧
    os.path_exists (fs w') Outgoing.m2 = false.
Proof.
  destruct (X15_message_sent (λ _, ret tt) Outgoing.tab Outgoing.m2 (Form "<xml>m2</xml>")
              (Outgoing.registry Outgoing.ready "/cfg/messages/Outbox")
              (Outgoing.registry Outgoing.ready "/cfg/messages/Sent")
              Outgoing.ready) as (w' & r_o & r_s & Hrun & _ & _ & Hnew & Hgone & _).
  - vm_compute. reflexivity.
  - apply cache_valid_checked. vm_compute. reflexivity.
  - vm_compute. reflexivity.
  - vm_compute. reflexivity.
  - vm_compute. reflexivity.
  - vm_compute. reflexivity.
  - vm_compute. reflexivity.
  - vm_compute. reflexivity.
  - vm_compute. reflexivity.
  - split_and!; [|vm_compute; reflexivity..]. vm_compute. constructor.
  - vm_compute. reflexivity.
  - vm_compute. congruence.
  - left. vm_compute. reflexivity.
  - vm_compute. reflexivity.
  - exists w'. split_and!; [exact Hrun | exact Hnew | exact Hgone].
Defined.

End sent.

(** ** Listing and opening folders *)

Section quietly.
Import MessageFolderInfo.
Implicit Types (f : gmap (list string) node) (k : list string).

Lemma quiet_ret {A} (a : A) : quiet (ret a).
Proof. by intros w. Qed.

Lemma quiet_gets {A} (g : World → A) : quiet (gets g).
Proof. by intros w. Qed.

Lemma quiet_bind {A B} (m : M A) (k : A → M B) :
  quiet m → (∀ a, quiet (k a)) → quiet (bind m k).
Proof.
  intros Hm Hk w. unfold bind. destruct (Hm w) as (H1 & H2 & H3).
  destruct (m w) as [[a|e] w1]; simpl in *; [|done].
  destruct (Hk a w1) as (H4 & H5 & H6). split_and!.
  - intros k' Hk'. by rewrite H4, H1.
  - lia.
  - intros r Hr. rewrite H6 by lia. by apply H3.
Qed.

Lemma write_file_db_frame path data w k :
  last k ≠ Some ".db" →
  fs (os.write_file (posixpath.join path ".db") data w).2 !! k = fs w !! k.
Proof.
  intros Hk. destruct (db_key path) as [Hne Hkey].
  unfold os.write_file. rewrite bool_decide_eq_false_2 by done. rewrite Hkey.
  assert (k ≠ os.resolve path ++ [".db"]) as Hdiff.
  { intros ->. by rewrite last_snoc in Hk. }
  destruct (os.node_at _ _) as [[|d]|]; simpl; [done | by rewrite lookup_insert_ne |].
  destruct (os.parent_error _ _); simpl; [done | by rewrite lookup_insert_ne].
Qed.

Lemma quiet___init__ folder_path : quiet (__init__ folder_path).
Proof.
  intros w. unfold __init__.
  destruct (_FOLDER_CACHE w !! folder_path) as [r|] eqn:Ec.
  { rewrite (bind_ok _ _ w (Some r) w) by (unfold gets; by rewrite Ec). done. }
  rewrite (bind_ok _ _ w None w) by (unfold gets; by rewrite Ec).
  set (w0 := set_heap (heap w ++ [configparser.new]) w).
  rewrite (bind_ok _ _ w (length (heap w)) w0) by done. cbv beta zeta.
  rewrite (bind_ok _ _ w0 (os.path_exists (fs w) (posixpath.join folder_path ".db")) w0)
    by done. cbv beta.
  assert (∃ c r0, (if os.path_exists (fs w) (posixpath.join folder_path ".db")
                   then config_read (length (heap w)) (posixpath.join folder_path ".db")
                   else ret tt) w0 = (r0, set_heap (heap w ++ [c]) w)) as (c & r0 & Hread).
  { unfold config_read. run. subst w0. wsimpl.
    assert (∀ c, <[length (heap w) := c]> (heap w ++ [configparser.new]) = heap w ++ [c])
      as Hins.
    { intros c. rewrite insert_app_r_alt by lia. by rewrite Nat.sub_diag. }
    destruct (os.path_exists _ _); [|by eexists _, _].
    destruct (os.stat _ _) as [[|[text|c']]|]; try (by eexists _, _).
    - case_bool_decide; by eexists _, _.
    - eexists c', _. by rewrite Hins. }
  set (w1 := set_heap (heap w ++ [c]) w) in *.
  assert (∀ r, r < length (heap w) → (heap w ++ [c]) !!! r = heap w !!! r) as Hold.
  { intros r Hr. by rewrite lookup_total_app_l. }
  assert (length (heap w) ≤ length (heap w ++ [c])) as Hlen
    by (rewrite length_app; lia).
  destruct r0 as [[]|e].
  2:{ rewrite (bind_raise _ _ _ _ _ Hread). done. }
  rewrite (bind_ok _ _ _ _ _ Hread).
  set (self := {| _path := folder_path; _config := length (heap w) |}).
  assert (_save self w1
          = os.write_file (posixpath.join folder_path ".db")
              (Ini (heap w1 !!! length (heap w))) w1) as Hsave by done.
  pose proof (write_file_db_frame folder_path (Ini (heap w1 !!! length (heap w))) w1) as Hfr.
  pose proof (write_file_heap (posixpath.join folder_path ".db")
                (Ini (heap w1 !!! length (heap w))) w1) as [Hh Hc].
  destruct (os.write_file _ _ w1) as [[[]|e] w2] eqn:Ew; simpl in Hfr, Hh, Hc.
  - rewrite (bind_ok _ _ _ _ _ Hsave). unfold bind, modify, ret. wsimpl. by rewrite Hh.
  - rewrite (bind_raise _ _ _ _ _ Hsave). simpl. by rewrite Hh.
Qed.

Lemma quiet_subfolders_loop entries acc : quiet (subfolders_loop entries acc).
Proof.
  revert acc. induction entries as [|entry rest IH]; intros acc; [apply quiet_ret |].
  simpl. case_bool_decide; [apply IH |].
  apply quiet_bind; [apply quiet_gets |]. intros [].
  - apply quiet_bind; [apply quiet___init__ | intros i; apply IH].
  - apply IH.
Qed.

Lemma quiet_subfolders self : quiet (subfolders self).
Proof.
  apply quiet_bind; [apply quiet_gets | intros entries; apply quiet_subfolders_loop].
Qed.

Lemma quiet_files self : quiet (files self).
Proof. apply quiet_bind; [apply quiet_gets | intros ?; apply quiet_gets]. Qed.

Lemma quiet_get_subfolder self name_ : quiet (get_subfolder self name_).
Proof. apply quiet_bind; [apply quiet_subfolders | intros ?; apply quiet_ret]. Qed.

Lemma quiet_walk info elements : quiet (MessageFolders.walk info elements).
Proof.
  revert info. induction elements as [|d rest IH]; intros info; [apply quiet_ret |].
  simpl. apply quiet_bind; [apply quiet_get_subfolder |].
  intros [i|]; [apply IH | apply quiet_ret].
Qed.

Lemma quiet__get_prop self filename prop : quiet (_get_prop self filename prop).
Proof. intros w. by rewrite _get_prop_world. Qed.

(** X16: opening a folder and listing it only read the store, registry
    files apart: [MessageFolderInfo(path)], [subfolders], [files],
    [get_subfolder], the walk of [_create_folder] through the
    intermediate folders and the getters leave every entry that is not
    named [.db] as it is, and every registry object that exists,
    whether they return or raise. *)
Theorem X16_listing_is_quiet self folder_path name_ elements filename prop :
  quiet (__init__ folder_path) ∧
  quiet (subfolders self) ∧
  quiet (files self) ∧
  quiet (get_subfolder self name_) ∧
  quiet (MessageFolders.walk self elements) ∧
  quiet (_get_prop self filename prop).
Proof.
  split_and!.
  - apply quiet___init__.
  - apply quiet_subfolders.
  - apply quiet_files.
  - apply quiet_get_subfolder.
  - apply quiet_walk.
  - apply quiet__get_prop.
Qed.

Lemma quiet_stat {A} (m : M A) w p :
  quiet m → last (os.resolve p) ≠ Some ".db" →
  os.stat (fs (m w).2) p = os.stat (fs w) p.
Proof.
  intros Hq Hp. destruct (Hq w) as (Hfs & _). unfold os.stat, os.node_at.
  by rewrite Hfs.
Qed.

Lemma __init___path folder_path w self w' :
  __init__ folder_path w = (Ok self, w') → _path self = folder_path.
Proof.
  unfold __init__. intros H. apply bind_inv_ok in H as ([r|] & w1 & _ & H).
  - by injection H as <- _.
  - apply bind_inv_ok in H as (r & w2 & _ & H). cbv zeta in H.
    apply bind_inv_ok in H as (ex & w3 & _ & H).
    apply bind_inv_ok in H as ([] & w4 & _ & H).
    apply bind_inv_ok in H as ([] & w5 & _ & H).
    apply bind_inv_ok in H as ([] & w6 & _ & H).
    by injection H as <- _.
Qed.

Lemma StronglySorted_sublist {A} (R : relation A) (l1 l2 : list A) :
  l1 `sublist_of` l2 → StronglySorted R l2 → StronglySorted R l1.
Proof.
  induction 1 as [|x l1 l2 Hsub IH|x l1 l2 Hsub IH]; intros Hs; [done | |].
  - apply StronglySorted_inv in Hs as [Hs Hall]. constructor; [by apply IH |].
    apply Forall_forall. intros y Hy. rewrite Forall_forall in Hall. apply Hall.
    by eapply elem_of_sublist.
  - apply StronglySorted_inv in Hs as [Hs _]. by apply IH.
Qed.

(** What the loop of [subfolders] adds: objects for some of the entries,
    in their order, each one a directory. *)
Lemma subfolders_loop_inv entries acc w l w' :
  (∀ e, e ∈ entries → last (os.resolve e) ≠ Some ".db") →
  subfolders_loop entries acc w = (Ok l, w') →
  ∃ sub, l = acc ++ sub ∧ (_path <$> sub) `sublist_of` entries ∧
         ∀ i, i ∈ sub → os.path_isdir (fs w) (_path i) = true.
Proof.
  revert acc w. induction entries as [|entry rest IH]; intros acc w Hdb Hrun.
  { injection Hrun as <- <-. exists []. rewrite app_nil_r.
    split_and!; [done | constructor | by intros ? ?%elem_of_nil]. }
  assert (∀ e, e ∈ rest → last (os.resolve e) ≠ Some ".db") as Hdb'.
  { intros e He. apply Hdb. by right. }
  assert (∀ acc' w1, subfolders_loop rest acc' w1 = (Ok l, w') →
            (∀ p, last (os.resolve p) ≠ Some ".db" → os.stat (fs w1) p = os.stat (fs w) p) →
            ∃ sub, l = acc' ++ sub ∧ (_path <$> sub) `sublist_of` rest ∧
                   ∀ i, i ∈ sub → os.path_isdir (fs w) (_path i) = true) as IH'.
  { intros acc' w1 Hrun' Hst. destruct (IH acc' w1 Hdb' Hrun') as (sub & -> & Hsub & Hdir).
    exists sub. split_and!; [done.. |]. intros i Hi.
    unfold os.path_isdir. rewrite <- Hst; [by apply Hdir |].
    apply Hdb'. eapply elem_of_sublist; [|exact Hsub]. by apply list_elem_of_fmap_2. }
  simpl in Hrun. case_bool_decide.
  { destruct (IH' acc w Hrun) as (sub & -> & Hsub & Hdir); [done |].
    exists sub. split_and!; [done | by constructor | done]. }
  apply bind_inv_ok in Hrun as (d & w0 & Hd & Hrun). injection Hd as <- <-.
  destruct (os.path_isdir (fs w) entry) eqn:Hisdir.
  - apply bind_inv_ok in Hrun as (i & w1 & Hinit & Hrun).
    pose proof (__init___path _ _ _ _ Hinit) as Hpi.
    destruct (IH' (acc ++ [i]) w1 Hrun) as (sub & -> & Hsub & Hdir).
    { intros p Hp. replace w1 with (__init__ entry w).2 by (by rewrite Hinit).
      apply quiet_stat; [apply quiet___init__ | done]. }
    exists (i :: sub). split_and!.
    + by rewrite <- app_assoc.
    + rewrite fmap_cons, Hpi. by constructor.
    + intros j [->|Hj]%elem_of_cons; [by rewrite Hpi | by apply Hdir].
  - destruct (IH' acc w Hrun) as (sub & -> & Hsub & Hdir); [done |].
    exists sub. split_and!; [done | by constructor | done].
Qed.

Lemma glob_entry f path e :
  e ∈ glob.glob_star f path →
  ∃ n, e = posixpath.join (pattern_dir path) n ∧ glob.entry_name n = true ∧
       startswith "." n = false ∧ posixpath.basename e = n ∧
       os.resolve e = os.resolve path ++ [n] ∧ e ≠ "" ∧
       last (os.resolve e) ≠ Some ".db".
Proof.
  intros (n & -> & Hn & Hvis & _)%glob_star_inv. exists n.
  destruct (entry_path_facts (pattern_dir path) n Hn) as (Hb & Hk & Hne & _).
  rewrite resolve_pattern_dir in Hk. split_and!; try done.
  rewrite Hk, last_snoc. intros [= ->]. done.
Qed.

(** [subfolders] returns, and what it returns. *)
Lemma subfolders_spec self w :
  db_ok (fs w) →
  ∃ l w',
    subfolders self w = (Ok l, w') ∧
    (∀ p, p ∈ _path <$> l ↔
          p ∈ glob.glob_star (fs w) (_path self) ∧ os.path_isdir (fs w) p = true) ∧
    StronglySorted String.le (_path <$> l).
Proof.
  intros Hok. destruct (subfolders_total self w Hok) as (l & w' & Hrun & _ & Hall & Hin).
  exists l, w'. split; [done |].
  pose proof Hrun as Hrun'. unfold subfolders in Hrun'.
  apply bind_inv_ok in Hrun' as (entries & w0 & Hg & Hloop). injection Hg as <- <-.
  apply subfolders_loop_inv in Hloop as (sub & Hl & Hsub & Hdir).
  2:{ intros e He. rewrite merge_sort_Permutation in He.
      by apply glob_entry in He as (n & _ & _ & _ & _ & _ & _ & ?). }
  simpl in Hl. subst sub. split.
  - intros p. split.
    + intros (i & -> & Hi)%list_elem_of_fmap. split; [by apply Hin | by apply Hdir].
    + intros [Hp Hd]. destruct (Hall p Hp Hd) as (i & Hi & <-).
      by apply list_elem_of_fmap_2.
  - eapply StronglySorted_sublist; [exact Hsub |].
    apply StronglySorted_merge_sort; apply _.
Qed.

(** X17: for a folder path with none of the magic characters of [glob],
    [subfolders] returns when the registry files are readable; the
    paths of the folder objects it returns are exactly the visible
    entries of the folder that are directories, and they come in
    ascending order. *)
Theorem X17_subfolders self w :
  glob.has_magic (_path self) = false →
  db_ok (fs w) →
  ∃ l w',
    subfolders self w = (Ok l, w') ∧
    (∀ p, p ∈ _path <$> l ↔
          p ∈ glob.glob_star (fs w) (_path self) ∧ os.path_isdir (fs w) p = true) ∧
    StronglySorted String.le (_path <$> l).
Proof. intros _. apply subfolders_spec. Qed.

Lemma X17_subfolders_witness :
  ∃ l w',
    subfolders Scenario.root Scenario.root_opened = (Ok l, w') ∧
    (∀ p, p ∈ _path <$> l ↔
          p ∈ glob.glob_star (fs Scenario.root_opened) "/cfg/messages" ∧
          os.path_isdir (fs Scenario.root_opened) p = true) ∧
    StronglySorted String.le (_path <$> l).
Proof.
  apply (X17_subfolders Scenario.root Scenario.root_opened).
  - vm_compute. reflexivity.
  - apply db_ok_checked. vm_compute. reflexivity.
Defined.

(** [get_subfolder] returns, and what it returns. *)
Lemma get_subfolder_spec self name_ w :
  db_ok (fs w) →
  ∃ r w',
    get_subfolder self name_ w = (Ok r, w') ∧
    match r with
    | Some i => name i = name_ ∧ _path i ∈ glob.glob_star (fs w) (_path self) ∧
                os.path_isdir (fs w) (_path i) = true
    | None => ∀ e, e ∈ glob.glob_star (fs w) (_path self) →
                   os.path_isdir (fs w) e = true → posixpath.basename e ≠ name_
    end.
Proof.
  intros Hok. destruct (subfolders_spec self w Hok) as (l & w' & Hrun & Hiff & _).
  exists (find (λ folder, bool_decide (name folder = name_)) l), w'. split.
  { unfold get_subfolder. by rewrite (bind_ok _ _ _ _ _ Hrun). }
  destruct (find _ l) as [i|] eqn:Ef.
  - apply find_some in Ef as [Hin Hname]. apply bool_decide_eq_true in Hname.
    apply list_elem_of_In in Hin.
    destruct (Hiff (_path i)) as [[? ?] _]; [by apply list_elem_of_fmap_2 | done].
  - intros e He Hd Hb. destruct (Hiff e) as [_ Hi]. specialize (Hi (conj He Hd)).
    apply list_elem_of_fmap in Hi as (i & -> & Hi).
    eapply find_none in Ef; [|by apply list_elem_of_In].
    by apply bool_decide_eq_false in Ef.
Qed.

(** X18: for a folder path with none of the magic characters of [glob],
    [get_subfolder] returns when the registry files are readable:
    a folder object whose name is the one asked for and whose path is a
    visible entry of the folder and a directory, or [None] when no
    visible directory entry has this name; a regular file or a hidden
    directory is never found. *)
Theorem X18_get_subfolder self name_ w :
  glob.has_magic (_path self) = false →
  db_ok (fs w) →
  ∃ r w',
    get_subfolder self name_ w = (Ok r, w') ∧
    match r with
    | Some i => name i = name_ ∧ _path i ∈ glob.glob_star (fs w) (_path self) ∧
                os.path_isdir (fs w) (_path i) = true
    | None => ∀ e, e ∈ glob.glob_star (fs w) (_path self) →
                   os.path_isdir (fs w) e = true → posixpath.basename e ≠ name_
    end.
Proof. intros _. apply get_subfolder_spec. Qed.

Lemma X18_get_subfolder_witness :
  ∃ r w',
    get_subfolder Scenario.root "Inbox" Scenario.root_opened = (Ok r, w') ∧
    match r with
    | Some i => name i = "Inbox" ∧
                _path i ∈ glob.glob_star (fs Scenario.root_opened) "/cfg/messages" ∧
                os.path_isdir (fs Scenario.root_opened) (_path i) = true
    | None => ∀ e, e ∈ glob.glob_star (fs Scenario.root_opened) "/cfg/messages" →
                   os.path_isdir (fs Scenario.root_opened) e = true →
                   posixpath.basename e ≠ "Inbox"
    end.
Proof.
  apply (X18_get_subfolder Scenario.root "Inbox" Scenario.root_opened).
  - vm_compute. reflexivity.
  - apply db_ok_checked. vm_compute. reflexivity.
Defined.

End quietly.

(** ** Folders that cannot be opened or made *)

Section failing.
Import MessageFolderInfo.
Implicit Types (f : gmap (list string) node) (k : list string).

(** Opening a path that is no directory, with nothing cached for it and
    nothing in the place of its registry file: saving the new registry
    fails, before the cache is written. *)
Lemma __init___not_dir folder_path w :
  folder_path ≠ "" →
  _FOLDER_CACHE w !! folder_path = None →
  os.path_isdir (fs w) folder_path = false →
  os.path_exists (fs w) (posixpath.join folder_path ".db") = false →
  __init__ folder_path w
  = (Raise (OSError (if os.path_exists (fs w) folder_path then ENOTDIR else ENOENT)),
     set_heap (heap w ++ [configparser.new]) w).
Proof.
  intros Hp Ec Hnd Hnodb. destruct (db_key folder_path) as [Hne Hk].
  unfold __init__.
  rewrite (bind_ok _ _ w None w) by (unfold gets; by rewrite Ec).
  set (w0 := set_heap (heap w ++ [configparser.new]) w).
  rewrite (bind_ok _ _ w (length (heap w)) w0) by done. cbv beta zeta.
  rewrite (bind_ok _ _ w0 false w0)
    by (unfold gets; change (fs w0) with (fs w); by rewrite Hnodb).
  rewrite (bind_ok _ _ w0 tt w0) by done.
  apply bind_raise. unfold _save. run. unfold os.write_file. cbn [_path _config].
  rewrite bool_decide_eq_false_2 by done. rewrite Hk.
  apply stat_none_exists in Hnodb. unfold os.stat in Hnodb.
  rewrite bool_decide_eq_false_2 in Hnodb by done. rewrite Hk in Hnodb.
  change (fs w0) with (fs w). rewrite Hnodb.
  unfold os.parent_error. rewrite removelast_last.
  apply isdir_false_inv in Hnd; [|done].
  unfold os.path_exists, os.stat. rewrite (bool_decide_eq_false_2 (folder_path = "")) by done.
  destruct (os.node_at (fs w) (os.resolve folder_path)) as [[|d]|]; [done | |].
  - by rewrite bool_decide_eq_true_2.
  - by rewrite bool_decide_eq_false_2 by (by intros [? ?]).
Qed.



(** X20: making a folder under a name that a regular file has, with
    nothing cached for its path: [os.mkdir] fails with errno 17, which
    [create_subfolder] lets pass, the registry of the new folder object
    cannot be saved below a file, and [_create_folder] turns that
    [OSError] into a [FolderError]; no file changes, the cache gets no
    entry. *)
Theorem X20_create_folder_over_file root name_ w :
  let p := posixpath.join (_path root) name_ in
  glob.entry_name name_ = true →
  os.path_isfile (fs w) p = true →
  _FOLDER_CACHE w !! p = None →
  os.path_exists (fs w) (posixpath.join p ".db") = false →
  ∃ w',
    MessageFolders._create_folder root name_ w = (Raise FolderError, w') ∧
    fs w' = fs w ∧
    _FOLDER_CACHE w' = _FOLDER_CACHE w ∧
    (∀ r, r < length (heap w) → heap w' !!! r = heap w !!! r).
Proof.
  intros p Hn Hfile Ec Hnodb.
  destruct (isfile_inv _ _ Hfile) as (Hp & Hk & data & Hdata).
  pose proof (entry_nosep _ Hn) as Hsep.
  assert (os.path_isdir (fs w) p = false) as Hnd.
  { unfold os.path_isfile in Hfile. unfold os.path_isdir.
    destruct (os.stat (fs w) p) as [[|d]|]; try done. }
  assert (os.path_exists (fs w) p = true) as Hex.
  { unfold os.path_isfile in Hfile. unfold os.path_exists.
    destruct (os.stat (fs w) p) as [[|d]|]; try done. }
  pose proof (__init___not_dir p w Hp Ec Hnd Hnodb) as Hinit. rewrite Hex in Hinit.
  eexists. split.
  { unfold MessageFolders._create_folder.
    rewrite split_nosep by done. cbn [removelast MessageFolders.walk].
    rewrite (bind_ok _ _ w (Some root) w) by done.
    assert (create_subfolder root (posixpath.basename name_) w
            = (Raise (OSError ENOTDIR), set_heap (heap w ++ [configparser.new]) w)) as Hsub.
    { rewrite basename_nosep by done. unfold create_subfolder. fold p.
      rewrite (bind_ok _ _ w tt w).
      - exact Hinit.
      - unfold try_except. rewrite mkdir_exists; [done | done |].
        unfold os.node_at. rewrite bool_decide_eq_false_2 by done. by rewrite Hdata. }
    unfold try_except. cbv beta iota. rewrite (bind_raise _ _ _ _ _ Hsub). done. }
  split_and!; [done.. |]. intros r Hr'. wsimpl. by rewrite lookup_total_app_l.
Qed.

Lemma X20_create_folder_over_file_witness :
  ∃ w',
    MessageFolders._create_folder Scenario.inbox "m1" Scenario.opened
      = (Raise FolderError, w') ∧
    fs w' = fs Scenario.opened ∧
    _FOLDER_CACHE w' = _FOLDER_CACHE Scenario.opened ∧
    (∀ r, r < length (heap Scenario.opened) → heap w' !!! r = heap Scenario.opened !!! r).
Proof.
  apply (X20_create_folder_over_file Scenario.inbox "m1" Scenario.opened);
    vm_compute; reflexivity.
Defined.

(** X21: making a folder whose first element is no directory under the
    root (the name has at least two elements): the walk through the
    intermediate folders ends on [None], and the call of
    [create_subfolder] on it raises [AttributeError], which the handler
    for [OSError] does not catch.  No entry other than registry files
    changed.  (The root path has none of the magic characters of
    [glob].) *)
Theorem X21_create_folder_missing_intermediate root d rest w :
  glob.has_magic (_path root) = false →
  db_ok (fs w) →
  contains posixpath.sep d = false →
  os.path_isdir (fs w) (posixpath.join (_path root) d) = false →
  ∃ w',
    MessageFolders._create_folder root (d +:+ String posixpath.sep rest) w
      = (Raise AttributeError, w') ∧
    (∀ k, last k ≠ Some ".db" → fs w' !! k = fs w !! k) ∧
    (∀ r, r < length (heap w) → heap w' !!! r = heap w !!! r).
Proof.
  intros _ Hok Hd Hnd.
  destruct (get_subfolder_spec root d w Hok) as (r & w' & Hrun & Hr).
  assert (r = None) as ->.
  { destruct r as [i|]; [|done]. destruct Hr as (Hname & Hin & Hdir). exfalso.
    apply glob_entry in Hin as (n & _ & Hn & _ & Hb & Hk & Hne & _).
    unfold name in Hname. rewrite Hname in Hb. subst n.
    destruct (entry_path (_path root) d Hn) as (Hne' & Hk' & _).
    revert Hdir Hnd. unfold os.path_isdir, os.stat.
    rewrite (bool_decide_eq_false_2 (_path i = "")) by done.
    rewrite (bool_decide_eq_false_2 (posixpath.join _ _ = "")) by done.
    rewrite Hk, Hk'. congruence. }
  exists w'.
  destruct (quiet_get_subfolder root d w) as (Hfs & _ & Hheap). rewrite Hrun in Hfs, Hheap.
  split_and!; [| done | done].
  unfold MessageFolders._create_folder.
  rewrite split_app_sep, split_nosep by done.
  pose proof (split_nonempty posixpath.sep rest) as Hne.
  destruct (split posixpath.sep rest) as [|x l] eqn:Es; [done |].
  change (removelast ([d] ++ x :: l)) with (d :: removelast (x :: l)).
  cbn [MessageFolders.walk].
  rewrite (bind_ok _ _ w None w').
  - done.
  - by rewrite (bind_ok _ _ _ _ _ Hrun).
Qed.

Lemma X21_create_folder_missing_intermediate_witness :
  ∃ w',
    MessageFolders._create_folder Scenario.root "Nowhere/X" Scenario.root_opened
      = (Raise AttributeError, w') ∧
    (∀ k, last k ≠ Some ".db" → fs w' !! k = fs Scenario.root_opened !! k) ∧
    (∀ r, r < length (heap Scenario.root_opened) →
          heap w' !!! r = heap Scenario.root_opened !!! r).
Proof.
  apply (X21_create_folder_missing_intermediate Scenario.root "Nowhere" "X"
           Scenario.root_opened).
  - vm_compute. reflexivity.
  - apply db_ok_checked. vm_compute. reflexivity.
  - reflexivity.
  - vm_compute. reflexivity.
Defined.

End failing.

(** ** Deleting a folder *)

Section deleting_folders.
Import MessageFolderInfo.
Implicit Types (f : gmap (list string) node) (k : list string).

Lemma has_children_true f k k' n :
  f !! k' = Some n → removelast k' = k → k' ≠ [] → os.has_children f k = true.
Proof.
  intros Hk' Hrem Hne. unfold os.has_children. apply bool_decide_eq_true.
  apply Exists_exists. exists (k', n). split; [|done].
  by apply elem_of_map_to_list.
Qed.

Lemma has_children_false f k :
  (∀ k' n, f !! k' = Some n → removelast k' = k → k' = []) →
  os.has_children f k = false.
Proof.
  intros H. unfold os.has_children. apply bool_decide_eq_false.
  intros ([k' n] & Hin%elem_of_map_to_list & Hrem & Hne)%Exists_exists.
  simpl in *. by apply Hne, (H k' n).
Qed.

(** The first step of [delete_self]: the registry file is removed when
    it is a regular file, and nothing is raised otherwise. *)
Lemma remove_db_run path w :
  ∃ w1,
    try_except (os.remove (posixpath.join path ".db"))
      (λ e, match e with OSError _ | SameFileError => Some (ret tt) | _ => None end) w
    = (Ok tt, w1) ∧
    heap w1 = heap w ∧ _FOLDER_CACHE w1 = _FOLDER_CACHE w ∧
    (∀ k, k ≠ os.resolve path ++ [".db"] → fs w1 !! k = fs w !! k) ∧
    (fs w1 !! (os.resolve path ++ [".db"]) = None ∨
     (fs w1 = fs w ∧ fs w !! (os.resolve path ++ [".db"]) = Some Dir)).
Proof.
  destruct (db_key path) as [Hne Hk].
  unfold try_except, os.remove, os.stat. rewrite bool_decide_eq_false_2 by done.
  rewrite Hk, node_at_snoc.
  destruct (fs w !! (os.resolve path ++ [".db"])) as [[|d]|] eqn:E; simpl.
  - exists w. split_and!; try done. by right.
  - eexists. split; [done |]. wsimpl. split_and!; try done.
    + intros k Hk'. by rewrite lookup_delete_ne.
    + left. apply lookup_delete_eq.
  - exists w. split_and!; try done. by left.
Qed.

(** X22: deleting a folder that still holds something besides its
    registry file: [delete_self] raises [OSError] with [ENOTEMPTY] and
    the directory stays, but its registry file is removed already.  The
    registry in memory and the cache are as before. *)
Theorem X22_delete_self_not_empty self n w :
  os.path_isdir (fs w) (_path self) = true →
  os.resolve (_path self) ≠ [] →
  n ≠ ".db" →
  is_Some (fs w !! (os.resolve (_path self) ++ [n])) →
  os.path_isdir (fs w) (posixpath.join (_path self) ".db") = false →
  ∃ w',
    delete_self self w = (Raise (OSError ENOTEMPTY), w') ∧
    os.path_isdir (fs w') (_path self) = true ∧
    os.path_exists (fs w') (posixpath.join (_path self) ".db") = false ∧
    (∀ k, k ≠ os.resolve (_path self) ++ [".db"] → fs w' !! k = fs w !! k) ∧
    heap w' = heap w ∧ _FOLDER_CACHE w' = _FOLDER_CACHE w.
Proof.
  intros Hd Hk Hn [x Hx] Hdb.
  destruct (db_key (_path self)) as [Hne Hkdb].
  destruct (remove_db_run (_path self) w) as (w1 & Hrm & Hh & Hc & Hfs & Hgone).
  apply isdir_false_inv in Hdb; [|done]. rewrite Hkdb, node_at_snoc in Hdb.
  destruct Hgone as [Hgone|[_ ?]]; [|done].
  apply isdir_inv in Hd as [Hp Hd].
  assert (os.stat (fs w1) (_path self) = Some Dir) as Hst.
  { unfold os.stat. rewrite bool_decide_eq_false_2 by done.
    unfold os.node_at in *. rewrite bool_decide_eq_false_2 in Hd by done.
    rewrite bool_decide_eq_false_2 by done.
    rewrite Hfs; [done |]. apply snoc_ne_self. }
  exists w1. split_and!; try done.
  - unfold delete_self. rewrite (bind_ok _ _ _ _ _ Hrm). unfold os.rmdir.
    rewrite Hst, bool_decide_eq_false_2 by done.
    rewrite (has_children_true _ _ (os.resolve (_path self) ++ [n]) x); [done | | |].
    + rewrite Hfs; [done |]. by apply snoc_ne_db.
    + apply removelast_last.
    + by destruct (os.resolve (_path self)).
  - unfold os.path_isdir. rewrite Hst. by apply bool_decide_eq_true.
  - unfold os.path_exists, os.stat.
    rewrite (bool_decide_eq_false_2 (posixpath.join _ _ = "")) by done.
    rewrite Hkdb, node_at_snoc, Hgone. apply bool_decide_eq_false. by intros [? ?].
Qed.

Lemma X22_delete_self_not_empty_witness :
  ∃ w',
    delete_self Scenario.inbox Scenario.registered = (Raise (OSError ENOTEMPTY), w') ∧
    os.path_isdir (fs w') "/cfg/messages/Inbox" = true ∧
    os.path_exists (fs w') "/cfg/messages/Inbox/.db" = false ∧
    (∀ k, k ≠ ["cfg"; "messages"; "Inbox"; ".db"] → fs w' !! k = fs Scenario.registered !! k) ∧
    heap w' = heap Scenario.registered ∧
    _FOLDER_CACHE w' = _FOLDER_CACHE Scenario.registered.
Proof.
  apply (X22_delete_self_not_empty Scenario.inbox "m1" Scenario.registered).
  - vm_compute. reflexivity.
  - vm_compute. congruence.
  - congruence.
  - vm_compute. eauto.
  - vm_compute. reflexivity.
Defined.

(** X23: deleting a folder that holds nothing but its registry file:
    [delete_self] returns, and the directory and the registry file are
    gone.  The cache keeps its entry and the registry object stays: a
    folder object made later for this path gets the old registry. *)
Theorem X23_delete_self_empty self w :
  os.path_isdir (fs w) (_path self) = true →
  os.resolve (_path self) ≠ [] →
  os.path_isdir (fs w) (posixpath.join (_path self) ".db") = false →
  (∀ k n, fs w !! k = Some n → removelast k = os.resolve (_path self) → k ≠ [] →
          k = os.resolve (_path self) ++ [".db"]) →
  ∃ w',
    delete_self self w = (Ok tt, w') ∧
    os.path_exists (fs w') (_path self) = false ∧
    os.path_exists (fs w') (posixpath.join (_path self) ".db") = false ∧
    (∀ k, k ≠ os.resolve (_path self) → k ≠ os.resolve (_path self) ++ [".db"] →
          fs w' !! k = fs w !! k) ∧
    heap w' = heap w ∧ _FOLDER_CACHE w' = _FOLDER_CACHE w.
Proof.
  intros Hd Hk Hdb Honly.
  destruct (db_key (_path self)) as [Hne Hkdb].
  destruct (remove_db_run (_path self) w) as (w1 & Hrm & Hh & Hc & Hfs & Hgone).
  apply isdir_false_inv in Hdb; [|done]. rewrite Hkdb, node_at_snoc in Hdb.
  destruct Hgone as [Hgone|[_ ?]]; [|done].
  apply isdir_inv in Hd as [Hp Hd].
  assert (os.stat (fs w1) (_path self) = Some Dir) as Hst.
  { unfold os.stat. rewrite bool_decide_eq_false_2 by done.
    unfold os.node_at in *. rewrite bool_decide_eq_false_2 in Hd by done.
    rewrite bool_decide_eq_false_2 by done.
    rewrite Hfs; [done |]. apply snoc_ne_self. }
  assert (os.has_children (fs w1) (os.resolve (_path self)) = false) as Hnone.
  { apply has_children_false. intros k n Hkn Hrem.
    destruct (decide (k = [])) as [|Hknil]; [done |]. exfalso.
    destruct (decide (k = os.resolve (_path self) ++ [".db"])) as [->|Hkd].
    - by rewrite Hgone in Hkn.
    - rewrite Hfs in Hkn by done. by apply Hkd, (Honly k n). }
  eexists. split.
  { unfold delete_self. rewrite (bind_ok _ _ _ _ _ Hrm). unfold os.rmdir.
    by rewrite Hst, bool_decide_eq_false_2, Hnone by done. }
  wsimpl. split_and!; try done.
  - unfold os.path_exists, os.stat, os.node_at.
    rewrite (bool_decide_eq_false_2 (_path self = "")) by done.
    rewrite (bool_decide_eq_false_2 (os.resolve _ = [])) by done.
    rewrite lookup_delete_eq. apply bool_decide_eq_false. by intros [? ?].
  - unfold os.path_exists, os.stat.
    rewrite (bool_decide_eq_false_2 (posixpath.join _ _ = "")) by done.
    rewrite Hkdb, node_at_snoc, lookup_delete_ne by (by apply snoc_ne_self).
    rewrite Hgone. apply bool_decide_eq_false. by intros [? ?].
  - intros k Hk1 Hk2. rewrite lookup_delete_ne by done. by apply Hfs.
Qed.

Lemma X23_delete_self_empty_witness :
  os.path_isfile (fs Scenario.sent_opened) "/cfg/messages/Sent/.db" = true ∧
  _FOLDER_CACHE Scenario.sent_opened !! "/cfg/messages/Sent" = Some 0 ∧
  heap Scenario.sent_opened = [configparser.new] ∧
  ∃ w',
    delete_self Scenario.sent Scenario.sent_opened = (Ok tt, w') ∧
    os.path_exists (fs w') "/cfg/messages/Sent" = false ∧
    os.path_exists (fs w') "/cfg/messages/Sent/.db" = false ∧
    (∀ k, k ≠ ["cfg"; "messages"; "Sent"] → k ≠ ["cfg"; "messages"; "Sent"; ".db"] →
          fs w' !! k = fs Scenario.sent_opened !! k) ∧
    heap w' = [configparser.new] ∧
    _FOLDER_CACHE w' !! "/cfg/messages/Sent" = Some 0.
Proof.
  split; [vm_compute; reflexivity |]. split; [vm_compute; reflexivity |].
  split; [vm_compute; reflexivity |].
  destruct (X23_delete_self_empty Scenario.sent Scenario.sent_opened)
    as (w' & Hrun & Hdir & Hdb & Hrest & Hheap & Hcache).
  - vm_compute. reflexivity.
  - vm_compute. congruence.
  - vm_compute. reflexivity.
  - intros k n Hk.
    assert (map_Forall (λ k (_ : node),
              removelast k = ["cfg"; "messages"; "Sent"] → k ≠ [] →
              k = ["cfg"; "messages"; "Sent"; ".db"]) (fs Scenario.sent_opened)) as Hall.
    { apply (bool_decide_unpack _). vm_compute. exact I. }
    exact (Hall k n Hk).
  - exists w'. split; [exact Hrun |]. split; [exact Hdir |]. split; [exact Hdb |].
    split; [exact Hrest |]. split.
    + rewrite Hheap. vm_compute. reflexivity.
    + rewrite Hcache. vm_compute. reflexivity.
Defined.

End deleting_folders.

(** ** Hidden paths, renamed folders and a missing Trash *)

Section edges.
Import MessageFolderInfo.
Implicit Types (f : gmap (list string) node) (k : list string).

Lemma rstrip_startswith c d s :
  c ≠ d → startswith c s = true → startswith c (rstrip d s) = true.
Proof.
  intros Hcd. destruct s as [|a r]; [done |]. simpl. intros Ha.
  apply bool_decide_eq_true in Ha as ->.
  destruct (rstrip d r); [|by apply bool_decide_eq_true].
  rewrite bool_decide_eq_false_2 by done. by apply bool_decide_eq_true.
Qed.

Lemma pattern_dir_hidden path :
  startswith "." path = true → startswith "." (pattern_dir path) = true.
Proof.
  intros Hh. unfold pattern_dir.
  assert (∃ a, startswith "." a = true ∧
               posixpath.join path "*" = a +:+ String posixpath.sep "*") as (a & Ha & ->).
  { destruct (join_nosep path "*") as [[_ ->]|[(d' & -> & ->)|(_ & _ & ->)]]; [done.. | |].
    - exists d'. split; [|done]. destruct d' as [|x d']; [done | done].
    - by exists path. }
  rewrite split_path_app_sep by done. simpl.
  assert (all_char posixpath.sep (a +:+ String posixpath.sep "") = false) as ->.
  { destruct a as [|x a]; [done |]. apply bool_decide_eq_true in Ha as ->. done. }
  simpl. apply rstrip_startswith; [done |]. by apply startswith_app.
Qed.

Lemma filter_none {A} (P : A → Prop) `{∀ x, Decision (P x)} (l : list A) :
  (∀ x, x ∈ l → ¬ P x) → filter P l = [].
Proof.
  induction l as [|x l IH]; intros Hall; [done |].
  rewrite filter_cons_False by (apply Hall; left). apply IH.
  intros y Hy. apply Hall. by right.
Qed.

(** X24: [files] tests the whole path of an entry for a leading dot, not
    its name: for a folder whose path starts with a dot, as under a
    relative configuration directory like [.d-rats], [files] returns the
    empty list whatever the folder holds. *)
Theorem X24_files_hidden_path self w :
  startswith "." (_path self) = true → files self w = (Ok [], w).
Proof.
  intros Hh. rewrite files_run. f_equal. f_equal. apply filter_none.
  intros x Hx [_ Hvis].
  apply glob_star_inv in Hx as (n & -> & Hn & _).
  pose proof (entry_nosep n Hn) as Hsep.
  pose proof (pattern_dir_hidden _ Hh) as Hd.
  destruct (join_nosep (pattern_dir (_path self)) n Hsep)
    as [[_ E]|[(d' & E & E')|(_ & _ & E)]].
  - by rewrite E in Hd.
  - rewrite E' in Hvis. rewrite E in Hd.
    destruct d' as [|x d']; [done |]. simpl in *. congruence.
  - rewrite E in Hvis. by rewrite startswith_app in Hvis.
Qed.

Lemma X24_files_hidden_path_witness :
  files {| _path := ".d-rats/messages/Inbox"; _config := 0 |}
    {| fs := {[ [".d-rats"] := Dir;
                [".d-rats"; "messages"] := Dir;
                [".d-rats"; "messages"; "Inbox"] := Dir;
                [".d-rats"; "messages"; "Inbox"; "m1"] := File (Form "<xml>m1</xml>") ]};
       heap := [configparser.new];
       _FOLDER_CACHE := ∅ |}
  = (Ok [],
     {| fs := {[ [".d-rats"] := Dir;
                 [".d-rats"; "messages"] := Dir;
                 [".d-rats"; "messages"; "Inbox"] := Dir;
                 [".d-rats"; "messages"; "Inbox"; "m1"] := File (Form "<xml>m1</xml>") ]};
        heap := [configparser.new];
        _FOLDER_CACHE := ∅ |}).
Proof.
  apply (X24_files_hidden_path {| _path := ".d-rats/messages/Inbox"; _config := 0 |}).
  reflexivity.
Defined.

(** X25: deleting the selected messages of a folder other than Trash
    moves them to Trash; when Trash is no directory, [_folder_path]
    gives [None], the folder object cannot be made from it and
    [_del_msg] raises [TypeError] at the first message, with nothing
    changed. *)
Theorem X25_del_msg_without_trash refresh refresh_if_current self msg rest w :
  name (MessagesTab.current_info self) ≠ "Trash" →
  os.path_isdir (fs w)
    (posixpath.join
       (posixpath.join (MessageList.config_dir (MessagesTab._messages self)) "messages")
       "Trash") = false →
  MessagesTab._del_msg refresh refresh_if_current self (msg :: rest) None w
  = (Raise TypeError, w).
Proof.
  intros Hname Hnd. unfold MessagesTab._del_msg, gettext.
  rewrite bool_decide_eq_false_2 by done.
  change (MessageList.move_selected_messages refresh_if_current (MessagesTab._messages self)
            (MessagesTab.current_info self) (msg :: rest) "Trash")
    with (bind (MessageList.move_message refresh_if_current (MessagesTab._messages self)
                  (MessagesTab.current_info self) msg "Trash")
            (λ _, MessageList.move_selected_messages refresh_if_current
                    (MessagesTab._messages self) (MessagesTab.current_info self)
                    rest "Trash")).
  apply bind_raise. unfold MessageList.move_message, MessageList._folder_path.
  run. by rewrite Hnd.
Qed.

Lemma X25_del_msg_without_trash_witness :
  MessagesTab._del_msg (ret tt) no_refresh Outgoing.tab [Scenario.m1] None Scenario.registered
  = (Raise TypeError, Scenario.registered).
Proof.
  apply (X25_del_msg_without_trash (ret tt) no_refresh Outgoing.tab Scenario.m1 []
           Scenario.registered).
  - vm_compute. congruence.
  - vm_compute. reflexivity.
Defined.

Lemma _set_prop_other self filename prop value w r :
  r ≠ _config self →
  heap (_set_prop self filename prop value w).2 !!! r = heap w !!! r.
Proof.
  intros Hr. unfold _set_prop. run.
  assert (∀ h, h !!! r = heap w !!! r →
            ∀ c, heap (match configparser.set c (posixpath.basename filename) prop value with
                       | Ok c' => _save self (set_heap (<[_config self := c']> h) w)
                       | Raise e => (Raise e, set_heap h w)
                       end).2 !!! r = heap w !!! r) as Hset.
  { intros h Hh c. destruct (configparser.set _ _ _ _) as [c'|e]; [|done].
    rewrite _save_heap. wsimpl. by rewrite list_lookup_total_insert_ne. }
  destruct (configparser.has_section _ _).
  - pose proof (Hset (heap w) eq_refl (heap w !!! _config self)) as H.
    by destruct (configparser.set _ _ _ _).
  - destruct (configparser.add_section _ _) as [c1|e]; [|done]. wsimpl.
    pose proof (Hset (<[_config self := c1]> (heap w))
                  ltac:(by rewrite list_lookup_total_insert_ne)
                  (<[_config self := c1]> (heap w) !!! _config self)) as H.
    by destruct (configparser.set _ _ _ _).
Qed.

(** X26: [rename] moves the directory and the path of the object, but
    not the entry of the cache: the cache is as before, so a folder
    object made afterwards for the new path, when that path was not
    cached, holds another registry object than the renamed one, and does
    not see what is set through the renamed object. *)
Theorem X26_rename_keeps_cache self new_name w self' w1 :
  rename self new_name w = (Ok self', w1) →
  _FOLDER_CACHE w1 = _FOLDER_CACHE w ∧
  heap w1 = heap w ∧
  (_config self < length (heap w) →
   _FOLDER_CACHE w !! _path self' = None →
   ∀ self2 w2,
     __init__ (_path self') w1 = (Ok self2, w2) →
     _config self2 ≠ _config self' ∧
     ∀ filename prop value g prop',
       (_get_prop self2 g prop' (_set_prop self' filename prop value w2).2).1
       = (_get_prop self2 g prop' w2).1).
Proof.
  intros Hrun. unfold rename in Hrun.
  apply bind_inv_ok in Hrun as ([] & w0 & Hmv & Hret). injection Hret as <- <-.
  destruct (rename_frame (_path self)
              (posixpath.join (posixpath.dirname (_path self)) new_name) w) as [Hh Hc].
  rewrite Hmv in Hh, Hc. simpl in Hh, Hc. split_and!; [done.. |].
  cbn [_path _config]. intros Hr Hnone self2 w2 Hinit.
  apply __init___miss in Hinit as (-> & _ & _ & _); [|by rewrite Hc].
  cbn [_config]. rewrite Hh. split; [lia |].
  intros filename prop value g prop'. apply _get_prop_heap. cbn [_config].
  apply _set_prop_other. cbn [_config]. lia.
Qed.

Lemma X26_rename_keeps_cache_witness :
  ∃ self' w1 self2 w2,
    rename Scenario.inbox "Archive" Scenario.registered = (Ok self', w1) ∧
    _FOLDER_CACHE w1 = _FOLDER_CACHE Scenario.registered ∧
    __init__ (_path self') w1 = (Ok self2, w2) ∧
    _config self2 ≠ _config self' ∧
    (get_msg_subject self2 "m1" (set_msg_subject self' "m1" "Changed" w2).2).1
    = (get_msg_subject self2 "m1" w2).1.
Proof.
  destruct (rename Scenario.inbox "Archive" Scenario.registered) as [r w1] eqn:Hrun.
  assert (r = Ok {| _path := "/cfg/messages/Archive"; _config := 0 |}) as ->.
  { apply (f_equal fst) in Hrun. vm_compute in Hrun. congruence. }
  destruct (X26_rename_keeps_cache _ _ _ _ _ Hrun) as (Hc & Hh & Hrest).
  destruct (__init__ "/cfg/messages/Archive" w1) as [r2 w2] eqn:Hinit.
  assert (∃ self2, r2 = Ok self2) as [self2 ->].
  { apply (f_equal snd) in Hrun. simpl in Hrun. subst w1.
    apply (f_equal fst) in Hinit. vm_compute in Hinit. by eexists. }
  destruct (Hrest ltac:(vm_compute; lia) ltac:(vm_compute; reflexivity) self2 w2 Hinit)
    as [Hne Hsame].
  exists {| _path := "/cfg/messages/Archive"; _config := 0 |}, w1, self2, w2.
  split_and!; [done | done | done | done |].
  apply (Hsame "m1" "subject" "Changed" "m1" "subject").
Defined.

End edges.

(** ** The folders of the store *)

Section folders.
Import MessageFolderInfo.
Implicit Types (f : gmap (list string) node) (k : list string).

Lemma glob_star_dir f path e :
  e ∈ glob.glob_star f path → os.node_at f (os.resolve path) = Some Dir.
Proof.
  unfold glob.glob_star. fold (pattern_dir path). rewrite resolve_pattern_dir.
  intros (n & _ & Hn%list_elem_of_filter)%list_elem_of_fmap. destruct Hn as [_ Hn].
  unfold glob.listdir in Hn.
  destruct (os.node_at f (os.resolve path)) as [[|d]|]; [done | |]; by apply elem_of_nil in Hn.
Qed.

Lemma glob_star_same f f' path e :
  (∀ k, last k ≠ Some ".db" → f' !! k = f !! k) →
  last (os.resolve path) ≠ Some ".db" →
  e ∈ glob.glob_star f path → e ∈ glob.glob_star f' path.
Proof.
  intros Hsame Hp He. pose proof (glob_star_dir _ _ _ He) as Hd.
  apply glob_star_inv in He as (n & -> & Hn & Hvis & Hsome).
  apply glob_star_elem; try done.
  - unfold os.node_at in *. case_bool_decide; [done |]. by rewrite Hsame.
  - rewrite Hsame; [done |]. rewrite last_snoc. intros [= ->]. done.
Qed.

(** X27: [get_folders], with the messages root a directory whose path
    has none of the magic characters of [glob] and readable registry
    files, returns; the paths of the folder objects it returns are
    exactly the visible entries of the messages root that are
    directories, in ascending order. *)
Theorem X27_get_folders self w :
  let root := posixpath.join (MessageFolders.config_dir self) "messages" in
  glob.has_magic root = false →
  db_ok (fs w) →
  os.path_isdir (fs w) root = true →
  ∃ l w',
    MessageFolders.get_folders self w = (Ok l, w') ∧
    (∀ p, p ∈ _path <$> l ↔
          p ∈ glob.glob_star (fs w) root ∧ os.path_isdir (fs w) p = true) ∧
    StronglySorted String.le (_path <$> l).
Proof.
  intros root _ Hok Hd.
  destruct (__init___total root w Hok Hd) as (i & w1 & Hinit & Hle & Hpi).
  destruct (quiet___init__ root w) as (Hfs & _). rewrite Hinit in Hfs. simpl in Hfs.
  destruct (subfolders_spec i w1) as (l & w' & Hrun & Hiff & Hsorted);
    [by eapply fs_le_db_ok |].
  rewrite Hpi in Hiff.
  assert (last (os.resolve root) ≠ Some ".db") as Hlast.
  { unfold root. rewrite resolve_join_entry by done. by rewrite last_snoc. }
  exists l, w'. split_and!; [| | done].
  - unfold MessageFolders.get_folders.
    rewrite (bind_ok _ _ _ _ _ (_folders_path_dir self w Hd)).
    by rewrite (bind_ok _ _ _ _ _ Hinit).
  - intros p. rewrite Hiff. split; intros [Hp Hdir].
    + assert (p ∈ glob.glob_star (fs w) root) as Hp'.
      { eapply glob_star_same; [| done | exact Hp]. intros k Hk. symmetry. by apply Hfs. }
      split; [done |]. apply glob_entry in Hp' as (n & _ & _ & _ & _ & _ & _ & Hl).
      revert Hdir. unfold os.path_isdir, os.stat, os.node_at. by rewrite Hfs.
    + split; [by eapply glob_star_same |].
      apply glob_entry in Hp as (n & _ & _ & _ & _ & _ & _ & Hl).
      revert Hdir. unfold os.path_isdir, os.stat, os.node_at. by rewrite Hfs.
Qed.

Lemma X27_get_folders_witness :
  ∃ l w',
    MessageFolders.get_folders Scenario.folders Scenario.start = (Ok l, w') ∧
    (∀ p, p ∈ _path <$> l ↔
          p ∈ glob.glob_star (fs Scenario.start) "/cfg/messages" ∧
          os.path_isdir (fs Scenario.start) p = true) ∧
    StronglySorted String.le (_path <$> l).
Proof.
  apply (X27_get_folders Scenario.folders Scenario.start).
  - vm_compute. reflexivity.
  - apply db_ok_checked. vm_compute. reflexivity.
  - vm_compute. reflexivity.
Defined.

End folders.

(** ** Exporting a message *)

Section exporting.

(** X28: [_exportmsg] returns when anything is selected and takes the
    first element of the selection when nothing is: it never gets to
    copy a file, and with an empty selection it ends in [IndexError]. *)
Theorem X28_exportmsg_never_copies selected nfn :
  (∀ file_name nfn', MessagesTab._exportmsg selected nfn
                     ≠ MessagesTab.Export_copy file_name nfn') ∧
  (selected = Some [] → MessagesTab._exportmsg selected nfn = MessagesTab.Export_IndexError).
Proof.
  split.
  - intros file_name nfn'. unfold MessagesTab._exportmsg.
    destruct selected as [[|x sel]|]; simpl; try done.
    by case_bool_decide.
  - by intros ->.
Qed.

Lemma X28_exportmsg_never_copies_witness :
  MessagesTab._exportmsg (Some []) "/tmp/msg.xml" = MessagesTab.Export_IndexError.
Proof. apply (X28_exportmsg_never_copies (Some []) "/tmp/msg.xml"). reflexivity. Defined.

End exporting.

(** ** A move that fails, and a folder made and deleted again *)

Section undone.
Import MessageFolderInfo.
Implicit Types (f : gmap (list string) node) (k : list string).

(** X29: moving a message whose file does not exist, into a folder that
    does not have the name both registered and present: the section is
    added to the registry of the destination before [shutil.copy] looks
    for the file, so [move_message] raises [OSError] with [ENOENT] and
    leaves the destination with a section for a message that it does not
    hold.  No file changes but the registry file of the destination. *)
Theorem X29_move_message_missing_source refresh_if_current self info path new_folder c w :
  let dest := posixpath.join
                (posixpath.join (MessageList.config_dir self) "messages") new_folder in
  let section := posixpath.basename path in
  let newfn := posixpath.join dest section in
  cache_valid w →
  os.path_isdir (fs w) dest = true →
  os.path_isdir (fs w) (posixpath.join dest ".db") = false →
  folder_registry w dest = Some c →
  glob.entry_name section = true →
  section ≠ "DEFAULT" → section ≠ ".db" →
  configparser.has_section c section = false ∨ os.path_exists (fs w) newfn = false →
  os.path_exists (fs w) path = false →
  last (os.resolve path) ≠ Some ".db" →
  ∃ w' r_dest,
    MessageList.move_message refresh_if_current self info path new_folder w
      = (Raise (OSError ENOENT), w') ∧
    _FOLDER_CACHE w' !! dest = Some r_dest ∧
    configparser.has_section (heap w' !!! r_dest) section = true ∧
    os.path_exists (fs w') newfn = os.path_exists (fs w) newfn ∧
    (∀ k, k ≠ os.resolve dest ++ [".db"] → fs w' !! k = fs w !! k).
Proof.
  intros dest section newfn Hvalid Hd Hdb Hreg Hn Hdef Hndb Hcase Hgone Hlast.
  destruct (__init___open dest c w Hvalid Hd Hdb Hreg)
    as ([p r_dest] & w1 & Hinit & Hp & Hc & Hrd & Hvalid1 & Hcache1 & Hlen1 & Hheap1 & Hfs1).
  simpl in Hp, Hc, Hrd, Hcache1. subst p.
  pose (dst := {| _path := dest; _config := r_dest |}).
  destruct (entry_path dest section Hn) as (Hne & Hkn & Hkn').
  fold newfn in Hne, Hkn, Hkn'.
  assert (os.stat (fs w1) newfn = os.stat (fs w) newfn) as Hst_new.
  { eapply open_stat; [exact Hfs1 |]. rewrite Hkn. by apply snoc_ne_db. }
  assert (os.stat (fs w1) path = None) as Hst_path.
  { erewrite open_stat; [by apply stat_none_exists | exact Hfs1 |].
    intros E. by rewrite E, last_snoc in Hlast. }
  destruct (create_msg_ok dst section w1 Hdef)
    as (h2 & Hcreate & Hlen2 & Hother2 & Hag2 & Hsec2).
  { change (configparser.has_section (heap w1 !!! r_dest) section = false ∨
            os.path_exists (fs w1) newfn = false).
    rewrite Hc. destruct Hcase as [?|Hex]; [by left | right].
    unfold os.path_exists. by rewrite Hst_new. }
  change (create_msg dst section w1 = (Ok newfn, set_heap h2 w1)) in Hcreate.
  change (r_dest < length (heap w1) →
          _sections (h2 !!! r_dest) !! section
          = Some (default ∅ (_sections (heap w1 !!! r_dest) !! section))) in Hsec2.
  exists (set_heap h2 w1), r_dest. split_and!.
  - assert (MessageList._folder_path self new_folder w = (Ok (Some dest), w)) as Hfp.
    { unfold MessageList._folder_path. run. fold dest. by rewrite Hd. }
    unfold MessageList.move_message.
    rewrite (bind_ok _ _ w (Some dest) w Hfp).
    rewrite (bind_ok _ _ w dst w1 Hinit).
    rewrite (bind_ok _ _ w1 (Some newfn) (set_heap h2 w1)).
    2:{ unfold try_except. fold section. by rewrite (bind_ok _ _ _ _ _ Hcreate). }
    apply bind_raise. unfold shutil.copy. run. wsimpl. by rewrite Hst_path.
  - wsimpl. rewrite Hcache1. apply lookup_insert_eq.
  - wsimpl. unfold configparser.has_section. rewrite Hsec2 by done.
    by apply bool_decide_eq_true.
  - wsimpl. unfold os.path_exists. by rewrite Hst_new.
  - intros k Hk. wsimpl. by eapply open_lookup.
Qed.

Lemma X29_move_message_missing_source_witness :
  ∃ w' r_dest,
    MessageList.move_message no_refresh Scenario.message_list Scenario.inbox
      Scenario.m1 "Sent" Scenario.deleted = (Raise (OSError ENOENT), w') ∧
    _FOLDER_CACHE w' !! "/cfg/messages/Sent" = Some r_dest ∧
    configparser.has_section (heap w' !!! r_dest) "m1" = true ∧
    os.path_exists (fs w') "/cfg/messages/Sent/m1" = false.
Proof.
  destruct (X29_move_message_missing_source no_refresh Scenario.message_list Scenario.inbox
              Scenario.m1 "Sent" configparser.new Scenario.deleted)
    as (w' & r_dest & Hrun & Hcache & Hsec & Hex & _).
  - apply cache_valid_checked. vm_compute. reflexivity.
  - vm_compute. reflexivity.
  - vm_compute. reflexivity.
  - vm_compute. reflexivity.
  - vm_compute. reflexivity.
  - vm_compute. congruence.
  - vm_compute. congruence.
  - left. vm_compute. reflexivity.
  - vm_compute. reflexivity.
  - vm_compute. congruence.
  - exists w', r_dest. split_and!; [exact Hrun | exact Hcache | exact Hsec | exact Hex].
Defined.

Lemma removelast_self_nil {A} (l : list A) : removelast l = l → l = [].
Proof.
  destruct l as [|x l] using rev_ind; [done |].
  rewrite removelast_last. intros E. apply (f_equal length) in E.
  rewrite length_app in E. simpl in E. lia.
Qed.

(** X30: making a subfolder where nothing is and deleting it again: both
    calls return and the files are exactly as before, but the cache has
    an entry for the path of the folder and the registry object made for
    it stays. *)
Theorem X30_create_then_delete self name_ w :
  let p := posixpath.join (_path self) name_ in
  cache_valid w →
  os.path_isdir (fs w) (_path self) = true →
  glob.entry_name name_ = true →
  os.path_exists (fs w) p = false →
  (∀ k, removelast k = os.resolve p → k ≠ [] → fs w !! k = None) →
  _FOLDER_CACHE w !! p = None →
  ∃ i w1 w2,
    create_subfolder self name_ w = (Ok i, w1) ∧
    os.path_isdir (fs w1) p = true ∧
    delete_self i w1 = (Ok tt, w2) ∧
    fs w2 = fs w ∧
    _FOLDER_CACHE w2 = <[p := _config i]> (_FOLDER_CACHE w) ∧
    length (heap w2) = S (length (heap w)).
Proof.
  intros p Hvalid Hd Hn Hfree Hbelow Hnone.
  destruct (entry_path (_path self) name_ Hn) as (Hp & Hkp & Hkp'). fold p in Hp, Hkp, Hkp'.
  destruct (db_key p) as [Hdbne Hkdb].
  pose proof (Hd' := Hd). apply isdir_inv in Hd' as [_ Hd'].
  assert (fs w !! os.resolve p = None) as Hkfree.
  { apply exists_false_inv in Hfree; [|done]. unfold os.node_at in Hfree.
    by rewrite bool_decide_eq_false_2 in Hfree. }
  assert (fs w !! (os.resolve p ++ [".db"]) = None) as Hdbfree.
  { apply Hbelow; [apply removelast_last | by destruct (os.resolve p)]. }
  set (w0 := set_fs (<[os.resolve p := Dir]> (fs w)) w).
  assert (os.mkdir p w = (Ok tt, w0)) as Hmk.
  { apply mkdir_new; [done | |].
    - unfold os.node_at. by rewrite bool_decide_eq_false_2.
    - by rewrite Hkp, removelast_last. }
  assert (os.path_isdir (fs w0) p = true) as Hd0.
  { apply isdir_intro; [done |]. unfold os.node_at.
    rewrite bool_decide_eq_false_2 by done. apply lookup_insert_eq. }
  assert (os.stat (fs w0) (posixpath.join p ".db") = None) as Hst0.
  { unfold os.stat. rewrite bool_decide_eq_false_2 by done. rewrite Hkdb, node_at_snoc.
    unfold w0. wsimpl. rewrite lookup_insert_ne; [done |]. apply snoc_ne_self. }
  destruct (__init___open p configparser.new w0)
    as ([p' r] & w1 & Hinit & Hp' & Hc & Hrd & Hvalid1 & Hcache1 & Hlen1 & Hheap1 & Hfs1);
    [done | done | | |].
  { unfold os.path_isdir. by rewrite Hst0. }
  { unfold folder_registry. change (_FOLDER_CACHE w0) with (_FOLDER_CACHE w).
    by rewrite Hnone, Hst0. }
  simpl in Hp', Hc, Hrd, Hcache1. subst p'.
  pose proof (__init___miss p w0 _ w1 Hnone Hinit) as (_ & _ & Hlen & _).
  pose (i := {| _path := p; _config := r |}).
  assert (os.path_isdir (fs w1) p = true) as Hd1.
  { eapply open_isdir; [exact Hfs1 | | done]. unfold os.path_isdir. by rewrite Hst0. }
  assert (fs w1 !! (os.resolve p ++ [".db"]) ≠ Some Dir) as Hdb1.
  { destruct Hfs1 as [->|[_ ->]].
    - unfold w0. wsimpl. rewrite lookup_insert_ne by apply snoc_ne_self.
      by rewrite Hdbfree.
    - by rewrite lookup_insert_eq. }
  destruct (remove_db_run p w1) as (w1' & Hrm & Hh & Hc' & Hfs' & Hgone).
  destruct Hgone as [Hgone|[_ ?]]; [|done].
  assert (∀ k, k ≠ os.resolve p ++ [".db"] →
               fs w1' !! k = <[os.resolve p := Dir]> (fs w) !! k) as Hfr.
  { intros k Hk. rewrite Hfs' by done. by erewrite open_lookup; [|exact Hfs1 | done]. }
  assert (os.stat (fs w1') p = Some Dir) as Hst.
  { unfold os.stat. rewrite bool_decide_eq_false_2 by done.
    unfold os.node_at. rewrite bool_decide_eq_false_2 by done.
    rewrite Hfr by apply snoc_ne_self. apply lookup_insert_eq. }
  assert (os.has_children (fs w1') (os.resolve p) = false) as Hnochild.
  { apply has_children_false. intros k n Hkn Hrem.
    destruct (decide (k = [])) as [|Hknil]; [done |]. exfalso.
    destruct (decide (k = os.resolve p ++ [".db"])) as [->|Hkd].
    - by rewrite Hgone in Hkn.
    - rewrite Hfr in Hkn by done. rewrite lookup_insert_ne in Hkn.
      + by rewrite (Hbelow k) in Hkn.
      + intros <-. by apply removelast_self_nil in Hrem. }
  exists i, w1, (set_fs (base.delete (os.resolve p) (fs w1')) w1'). split_and!.
  - unfold create_subfolder. fold p.
    rewrite (bind_ok _ _ w tt w0); [exact Hinit |].
    unfold try_except. by rewrite Hmk.
  - done.
  - unfold delete_self. change (_path i) with p. rewrite (bind_ok _ _ _ _ _ Hrm).
    unfold os.rmdir. by rewrite Hst, bool_decide_eq_false_2, Hnochild by done.
  - wsimpl. apply map_eq. intros k.
    destruct (decide (k = os.resolve p)) as [->|Hk1].
    { by rewrite lookup_delete_eq, Hkfree. }
    rewrite lookup_delete_ne by done.
    destruct (decide (k = os.resolve p ++ [".db"])) as [->|Hk2].
    { by rewrite Hgone, Hdbfree. }
    rewrite Hfr by done. by rewrite lookup_insert_ne.
  - wsimpl. by rewrite Hc', Hcache1.
  - wsimpl. by rewrite Hh, Hlen.
Qed.

Lemma X30_create_then_delete_witness :
  ∃ i w1 w2,
    create_subfolder Scenario.root "Archive" Scenario.root_opened = (Ok i, w1) ∧
    os.path_isdir (fs w1) "/cfg/messages/Archive" = true ∧
    delete_self i w1 = (Ok tt, w2) ∧
    fs w2 = fs Scenario.root_opened ∧
    _FOLDER_CACHE w2 = <["/cfg/messages/Archive" := _config i]>
                         (_FOLDER_CACHE Scenario.root_opened) ∧
    length (heap w2) = S (length (heap Scenario.root_opened)).
Proof.
  apply (X30_create_then_delete Scenario.root "Archive" Scenario.root_opened).
  - apply cache_valid_checked. vm_compute. reflexivity.
  - vm_compute. reflexivity.
  - vm_compute. reflexivity.
  - vm_compute. reflexivity.
  - intros k Hrem Hne.
    destruct (fs Scenario.root_opened !! k) as [n|] eqn:Hk; [exfalso | done].
    assert (map_Forall (λ k (_ : node), removelast k ≠ ["cfg"; "messages"; "Archive"])
              (fs Scenario.root_opened)) as Hall.
    { apply (bool_decide_unpack _). vm_compute. exact I. }
    exact (Hall k n Hk Hrem).
  - vm_compute. reflexivity.
Defined.

End undone.
